(** * MTB-UNI v4 firmware: the protocol and coordination engine of [main.c]

    A shallow embedding of the application layer of the MTB-UNI v4 module
    firmware (ATmega128): the MTBbus command dispatcher [mtbbus_received],
    the response-staging routines, the change-notification tracker inside
    the module-inquiry case, the bus-speed autodetection, the button
    handlers and the initialization gate.

    The C globals become fields of the record [state]; every C function
    becomes a state transformer with the name it has in [main.c].  Calls
    into collaborators whose sources are not part of [main.c] (transport,
    output driver, LEDs, configuration store) are recorded, in program
    order, in the event log of the state, so that ordering properties can
    be stated over the log. *)

From Stdlib Require Import ZArith Lia Bool.
From stdpp Require Import base tactics list.

#[local] Open Scope Z_scope.

(** ** Constants of the missing headers

    [mtbbus.h], [config.h] and [diag.h] are not among the sources.  The
    numeric values of their macros are therefore parameters: every
    definition below is generic in an instance of [Mtbbus_h]. *)

Class Mtbbus_h : Type := {
  (* requests, master -> module *)
  MTBBUS_CMD_MOSI_MODULE_INQUIRY : Z;
  MTBBUS_CMD_MOSI_INFO_REQ : Z;
  MTBBUS_CMD_MOSI_SET_CONFIG : Z;
  MTBBUS_CMD_MOSI_GET_CONFIG : Z;
  MTBBUS_CMD_MOSI_BEACON : Z;
  MTBBUS_CMD_MOSI_GET_INPUT : Z;
  MTBBUS_CMD_MOSI_SET_OUTPUT : Z;
  MTBBUS_CMD_MOSI_RESET_OUTPUTS : Z;
  MTBBUS_CMD_MOSI_CHANGE_ADDR : Z;
  MTBBUS_CMD_MOSI_CHANGE_SPEED : Z;
  MTBBUS_CMD_MOSI_FWUPGD_REQUEST : Z;
  MTBBUS_CMD_MOSI_REBOOT : Z;
  MTBBUS_CMD_MOSI_DIAG_VALUE_REQ : Z;
  (* responses, module -> master *)
  MTBBUS_CMD_MISO_ACK : Z;
  MTBBUS_CMD_MISO_ERROR : Z;
  MTBBUS_CMD_MISO_MODULE_INFO : Z;
  MTBBUS_CMD_MISO_MODULE_CONFIG : Z;
  MTBBUS_CMD_MISO_INPUT_CHANGED : Z;
  MTBBUS_CMD_MISO_INPUT_STATE : Z;
  MTBBUS_CMD_MISO_OUTPUT_SET : Z;
  MTBBUS_CMD_MISO_DIAG_VALUE : Z;
  (* error codes *)
  MTBBUS_ERROR_UNKNOWN_COMMAND : Z;
  MTBBUS_ERROR_UNSUPPORTED_COMMAND : Z;
  (* diagnostic value indices *)
  MTBBUS_DV_VERSION : Z;
  MTBBUS_DV_STATE : Z;
  MTBBUS_DV_UPTIME : Z;
  MTBBUS_DV_WARNINGS : Z;
  MTBBUS_DV_VMCU : Z;
  MTBBUS_DV_MTBBUS_RECEIVED : Z;
  MTBBUS_DV_MTBBUS_BAD_CRC : Z;
  MTBBUS_DV_MTBBUS_SENT : Z;
  MTBBUS_DV_MTBBUS_UNSENT : Z;
  (* bus speeds: a contiguous interval MTBBUS_SPEED_38400 .. MTBBUS_SPEED_MAX *)
  MTBBUS_SPEED_38400 : Z;
  MTBBUS_SPEED_MAX : Z;
  (* bit of mtbbus_warn_flags.bits.missed_timer inside mtbbus_warn_flags.all *)
  MTBBUS_WARN_MISSED_TIMER : Z;
  (* config.h *)
  CONFIG_MODULE_TYPE : Z;
  CONFIG_FW_MAJOR : Z;
  CONFIG_FW_MINOR : Z;
  CONFIG_PROTO_MAJOR : Z;
  CONFIG_PROTO_MINOR : Z;
  (* diag.h *)
  DIAG_UPDATE_PERIOD : Z
}.

(** Modelled from the spec: [io.h] is missing.  The spec gives the
    SET_CONFIG minimum "output-count + input-count/2 bytes, i.e. 24" and a
    2-byte input bitmask, i.e. sixteen inputs and sixteen outputs. *)
Definition NO_OUTPUTS : nat := 16.
Definition NO_INPUTS : nat := 16.

(** [#define]s of [main.c]. *)
Definition LED_GR_ON : Z := 5.
Definition LED_RED_OK_ON : Z := 40.
Definition INIT_TIME : Z := 50.
Definition MTBBUS_TIMEOUT_MAX : Z := 100.
Definition BTN_PRESS_1S : Z := 100.
Definition MTBBUS_AUTO_SPEED_TIMEOUT : Z := 20.

(** ** Calls into collaborators *)

Inductive callback : Type :=
  | cb_goto_bootloader.

Inductive event : Type :=
  | EvLedGreenOn                            (* io_led_green_on() *)
  | EvLedGreenOff                           (* io_led_green_off() *)
  | EvLedRedOn                              (* io_led_red_on() *)
  | EvLedRedOff                             (* io_led_red_off() *)
  | EvLedBlueOn                             (* io_led_blue_on() *)
  | EvLedBlueOff                            (* io_led_blue_off() *)
  | EvDelayUs (us : Z)                      (* _delay_us(us) *)
  | EvSend (frame : list Z)                 (* mtbbus_send_buf_autolen() *)
  | EvSetSpeed (speed : Z)                  (* mtbbus_set_speed(speed) *)
  | EvOutputsSetZipped (data : list Z)      (* outputs_set_zipped(data, data_len) *)
  | EvOutputsSetFull (safe : list Z)        (* outputs_set_full(config_safe_state) *)
  | EvConfigBootFwupgd                      (* config_boot_fwupgd() *)
  | EvConfigIntWdrf (v : bool)              (* config_int_wdrf(v) *)
  | EvWdtEnable                             (* wdt_enable(WDTO_15MS) *)
  | EvBtnShortPress                         (* entry of btn_short_press() *)
  | EvBtnLongPress.                         (* entry of btn_long_press() *)

(** ** The globals *)

Record leds_t : Type := {
  led_gr_counter : Z;
  led_red_counter : Z;
  led_blue_counter : Z;
  beacon : bool
}.

Record gate_t : Type := {
  initialized : bool;
  _init_counter : Z
}.

Record button_t : Type := {
  btn_pressed : bool;          (* io.h *)
  btn_press_time : Z
}.

Record autospeed_t : Type := {
  mtbbus_auto_speed_in_progress : bool;
  mtbbus_auto_speed_timer : Z;
  mtbbus_auto_speed_last : Z
}.

(** The three [static] locals of the module-inquiry case. *)
Record tracker_t : Type := {
  last_input_changed : bool;
  last_diag_changed : bool;
  first_scan : bool
}.

Record error_flags_t : Type := {
  addr_zero : bool;
  bad_mtbbus_polarity : bool
}.

Record inputs_t : Type := {
  inputs_logic_state : Z;      (* uint16_t, written by the debouncer *)
  inputs_old : Z
}.

Record config_t : Type := {
  config_safe_state : list Z;         (* uint8_t[NO_OUTPUTS] *)
  config_inputs_delay : list Z;       (* uint8_t[NO_INPUTS/2] *)
  config_mtbbus_speed : Z;
  config_write : bool;
  config_bootloader_version : Z       (* value of config_bootloader_version() *)
}.

Record mtbbus_diag_t : Type := {
  diag_received : list Z;
  diag_bad_crc : list Z;
  diag_sent : list Z;
  diag_unsent : list Z
}.

Record mtbbus_t : Type := {
  mtbbus_addr : Z;
  mtbbus_speed : Z;
  mtbbus_output_buf : list Z;
  mtbbus_on_sent : option callback;
  mtbbus_warn_flags : Z;              (* .all *)
  mtbbus_warn_flags_old : Z;          (* .all *)
  mtbbus_can_fill_output_buf : bool;  (* value of mtbbus_can_fill_output_buf() *)
  mtbbus_diag : mtbbus_diag_t
}.

Record diag_t : Type := {
  uptime_seconds : list Z;
  vcc_voltage : Z;
  diag_timer : Z
}.

Record hw_t : Type := {
  io_addr_raw : Z;                    (* value of io_get_addr_raw() *)
  pin_uart_rx : bool                  (* (PINE >> PIN_UART_RX) & 0x1 *)
}.

Record state : Type := {
  leds : leds_t;
  gate : gate_t;
  button : button_t;
  autospeed : autospeed_t;
  tracker : tracker_t;
  error_flags : error_flags_t;
  inputs : inputs_t;
  config : config_t;
  mtbbus : mtbbus_t;
  diag : diag_t;
  hw : hw_t;
  mtbbus_timeout : Z;
  inputs_debounce_to_update : bool;
  outputs_changed_when_setting_scom : bool;
  t3_elapsed : bool;
  halted : bool;                      (* inside the while(true) of goto_bootloader *)
  log : list event
}.

(** ** Field updates *)

Definition with_leds (f : leds_t -> leds_t) (st : state) : state :=
  {| leds := f (leds st); gate := gate st; button := button st;
     autospeed := autospeed st; tracker := tracker st;
     error_flags := error_flags st; inputs := inputs st; config := config st;
     mtbbus := mtbbus st; diag := diag st; hw := hw st;
     mtbbus_timeout := mtbbus_timeout st;
     inputs_debounce_to_update := inputs_debounce_to_update st;
     outputs_changed_when_setting_scom := outputs_changed_when_setting_scom st;
     t3_elapsed := t3_elapsed st; halted := halted st; log := log st |}.

Definition with_gate (f : gate_t -> gate_t) (st : state) : state :=
  {| leds := leds st; gate := f (gate st); button := button st;
     autospeed := autospeed st; tracker := tracker st;
     error_flags := error_flags st; inputs := inputs st; config := config st;
     mtbbus := mtbbus st; diag := diag st; hw := hw st;
     mtbbus_timeout := mtbbus_timeout st;
     inputs_debounce_to_update := inputs_debounce_to_update st;
     outputs_changed_when_setting_scom := outputs_changed_when_setting_scom st;
     t3_elapsed := t3_elapsed st; halted := halted st; log := log st |}.

Definition with_button (f : button_t -> button_t) (st : state) : state :=
  {| leds := leds st; gate := gate st; button := f (button st);
     autospeed := autospeed st; tracker := tracker st;
     error_flags := error_flags st; inputs := inputs st; config := config st;
     mtbbus := mtbbus st; diag := diag st; hw := hw st;
     mtbbus_timeout := mtbbus_timeout st;
     inputs_debounce_to_update := inputs_debounce_to_update st;
     outputs_changed_when_setting_scom := outputs_changed_when_setting_scom st;
     t3_elapsed := t3_elapsed st; halted := halted st; log := log st |}.

Definition with_autospeed (f : autospeed_t -> autospeed_t) (st : state) : state :=
  {| leds := leds st; gate := gate st; button := button st;
     autospeed := f (autospeed st); tracker := tracker st;
     error_flags := error_flags st; inputs := inputs st; config := config st;
     mtbbus := mtbbus st; diag := diag st; hw := hw st;
     mtbbus_timeout := mtbbus_timeout st;
     inputs_debounce_to_update := inputs_debounce_to_update st;
     outputs_changed_when_setting_scom := outputs_changed_when_setting_scom st;
     t3_elapsed := t3_elapsed st; halted := halted st; log := log st |}.

Definition with_tracker (f : tracker_t -> tracker_t) (st : state) : state :=
  {| leds := leds st; gate := gate st; button := button st;
     autospeed := autospeed st; tracker := f (tracker st);
     error_flags := error_flags st; inputs := inputs st; config := config st;
     mtbbus := mtbbus st; diag := diag st; hw := hw st;
     mtbbus_timeout := mtbbus_timeout st;
     inputs_debounce_to_update := inputs_debounce_to_update st;
     outputs_changed_when_setting_scom := outputs_changed_when_setting_scom st;
     t3_elapsed := t3_elapsed st; halted := halted st; log := log st |}.

Definition with_error_flags (f : error_flags_t -> error_flags_t) (st : state) : state :=
  {| leds := leds st; gate := gate st; button := button st;
     autospeed := autospeed st; tracker := tracker st;
     error_flags := f (error_flags st); inputs := inputs st; config := config st;
     mtbbus := mtbbus st; diag := diag st; hw := hw st;
     mtbbus_timeout := mtbbus_timeout st;
     inputs_debounce_to_update := inputs_debounce_to_update st;
     outputs_changed_when_setting_scom := outputs_changed_when_setting_scom st;
     t3_elapsed := t3_elapsed st; halted := halted st; log := log st |}.

Definition with_inputs (f : inputs_t -> inputs_t) (st : state) : state :=
  {| leds := leds st; gate := gate st; button := button st;
     autospeed := autospeed st; tracker := tracker st;
     error_flags := error_flags st; inputs := f (inputs st); config := config st;
     mtbbus := mtbbus st; diag := diag st; hw := hw st;
     mtbbus_timeout := mtbbus_timeout st;
     inputs_debounce_to_update := inputs_debounce_to_update st;
     outputs_changed_when_setting_scom := outputs_changed_when_setting_scom st;
     t3_elapsed := t3_elapsed st; halted := halted st; log := log st |}.

Definition with_config (f : config_t -> config_t) (st : state) : state :=
  {| leds := leds st; gate := gate st; button := button st;
     autospeed := autospeed st; tracker := tracker st;
     error_flags := error_flags st; inputs := inputs st; config := f (config st);
     mtbbus := mtbbus st; diag := diag st; hw := hw st;
     mtbbus_timeout := mtbbus_timeout st;
     inputs_debounce_to_update := inputs_debounce_to_update st;
     outputs_changed_when_setting_scom := outputs_changed_when_setting_scom st;
     t3_elapsed := t3_elapsed st; halted := halted st; log := log st |}.

Definition with_mtbbus (f : mtbbus_t -> mtbbus_t) (st : state) : state :=
  {| leds := leds st; gate := gate st; button := button st;
     autospeed := autospeed st; tracker := tracker st;
     error_flags := error_flags st; inputs := inputs st; config := config st;
     mtbbus := f (mtbbus st); diag := diag st; hw := hw st;
     mtbbus_timeout := mtbbus_timeout st;
     inputs_debounce_to_update := inputs_debounce_to_update st;
     outputs_changed_when_setting_scom := outputs_changed_when_setting_scom st;
     t3_elapsed := t3_elapsed st; halted := halted st; log := log st |}.

Definition with_diag (f : diag_t -> diag_t) (st : state) : state :=
  {| leds := leds st; gate := gate st; button := button st;
     autospeed := autospeed st; tracker := tracker st;
     error_flags := error_flags st; inputs := inputs st; config := config st;
     mtbbus := mtbbus st; diag := f (diag st); hw := hw st;
     mtbbus_timeout := mtbbus_timeout st;
     inputs_debounce_to_update := inputs_debounce_to_update st;
     outputs_changed_when_setting_scom := outputs_changed_when_setting_scom st;
     t3_elapsed := t3_elapsed st; halted := halted st; log := log st |}.

Definition set_mtbbus_timeout (v : Z) (st : state) : state :=
  {| leds := leds st; gate := gate st; button := button st;
     autospeed := autospeed st; tracker := tracker st;
     error_flags := error_flags st; inputs := inputs st; config := config st;
     mtbbus := mtbbus st; diag := diag st; hw := hw st;
     mtbbus_timeout := v;
     inputs_debounce_to_update := inputs_debounce_to_update st;
     outputs_changed_when_setting_scom := outputs_changed_when_setting_scom st;
     t3_elapsed := t3_elapsed st; halted := halted st; log := log st |}.

Definition set_outputs_changed_when_setting_scom (v : bool) (st : state) : state :=
  {| leds := leds st; gate := gate st; button := button st;
     autospeed := autospeed st; tracker := tracker st;
     error_flags := error_flags st; inputs := inputs st; config := config st;
     mtbbus := mtbbus st; diag := diag st; hw := hw st;
     mtbbus_timeout := mtbbus_timeout st;
     inputs_debounce_to_update := inputs_debounce_to_update st;
     outputs_changed_when_setting_scom := v;
     t3_elapsed := t3_elapsed st; halted := halted st; log := log st |}.

Definition set_t3_elapsed (v : bool) (st : state) : state :=
  {| leds := leds st; gate := gate st; button := button st;
     autospeed := autospeed st; tracker := tracker st;
     error_flags := error_flags st; inputs := inputs st; config := config st;
     mtbbus := mtbbus st; diag := diag st; hw := hw st;
     mtbbus_timeout := mtbbus_timeout st;
     inputs_debounce_to_update := inputs_debounce_to_update st;
     outputs_changed_when_setting_scom := outputs_changed_when_setting_scom st;
     t3_elapsed := v; halted := halted st; log := log st |}.

Definition set_halted (v : bool) (st : state) : state :=
  {| leds := leds st; gate := gate st; button := button st;
     autospeed := autospeed st; tracker := tracker st;
     error_flags := error_flags st; inputs := inputs st; config := config st;
     mtbbus := mtbbus st; diag := diag st; hw := hw st;
     mtbbus_timeout := mtbbus_timeout st;
     inputs_debounce_to_update := inputs_debounce_to_update st;
     outputs_changed_when_setting_scom := outputs_changed_when_setting_scom st;
     t3_elapsed := t3_elapsed st; halted := v; log := log st |}.

(** A call into a collaborator is appended to the log. *)
Definition emit (e : event) (st : state) : state :=
  {| leds := leds st; gate := gate st; button := button st;
     autospeed := autospeed st; tracker := tracker st;
     error_flags := error_flags st; inputs := inputs st; config := config st;
     mtbbus := mtbbus st; diag := diag st; hw := hw st;
     mtbbus_timeout := mtbbus_timeout st;
     inputs_debounce_to_update := inputs_debounce_to_update st;
     outputs_changed_when_setting_scom := outputs_changed_when_setting_scom st;
     t3_elapsed := t3_elapsed st; halted := halted st; log := log st ++ [e] |}.

Definition set_led_gr_counter (v : Z) : state -> state :=
  with_leds (fun l => {| led_gr_counter := v; led_red_counter := led_red_counter l;
                         led_blue_counter := led_blue_counter l; beacon := beacon l |}).
Definition set_led_red_counter (v : Z) : state -> state :=
  with_leds (fun l => {| led_gr_counter := led_gr_counter l; led_red_counter := v;
                         led_blue_counter := led_blue_counter l; beacon := beacon l |}).
Definition set_beacon (v : bool) : state -> state :=
  with_leds (fun l => {| led_gr_counter := led_gr_counter l;
                         led_red_counter := led_red_counter l;
                         led_blue_counter := led_blue_counter l; beacon := v |}).

Definition set_initialized (v : bool) : state -> state :=
  with_gate (fun g => {| initialized := v; _init_counter := _init_counter g |}).
Definition set_init_counter (v : Z) : state -> state :=
  with_gate (fun g => {| initialized := initialized g; _init_counter := v |}).

Definition set_btn_pressed (v : bool) : state -> state :=
  with_button (fun b => {| btn_pressed := v; btn_press_time := btn_press_time b |}).
Definition set_btn_press_time (v : Z) : state -> state :=
  with_button (fun b => {| btn_pressed := btn_pressed b; btn_press_time := v |}).

Definition set_mtbbus_auto_speed_in_progress (v : bool) : state -> state :=
  with_autospeed (fun a => {| mtbbus_auto_speed_in_progress := v;
                              mtbbus_auto_speed_timer := mtbbus_auto_speed_timer a;
                              mtbbus_auto_speed_last := mtbbus_auto_speed_last a |}).
Definition set_mtbbus_auto_speed_timer (v : Z) : state -> state :=
  with_autospeed (fun a => {| mtbbus_auto_speed_in_progress := mtbbus_auto_speed_in_progress a;
                              mtbbus_auto_speed_timer := v;
                              mtbbus_auto_speed_last := mtbbus_auto_speed_last a |}).
Definition set_mtbbus_auto_speed_last (v : Z) : state -> state :=
  with_autospeed (fun a => {| mtbbus_auto_speed_in_progress := mtbbus_auto_speed_in_progress a;
                              mtbbus_auto_speed_timer := mtbbus_auto_speed_timer a;
                              mtbbus_auto_speed_last := v |}).

Definition set_last_input_changed (v : bool) : state -> state :=
  with_tracker (fun t => {| last_input_changed := v;
                            last_diag_changed := last_diag_changed t;
                            first_scan := first_scan t |}).
Definition set_last_diag_changed (v : bool) : state -> state :=
  with_tracker (fun t => {| last_input_changed := last_input_changed t;
                            last_diag_changed := v;
                            first_scan := first_scan t |}).
Definition set_first_scan (v : bool) : state -> state :=
  with_tracker (fun t => {| last_input_changed := last_input_changed t;
                            last_diag_changed := last_diag_changed t;
                            first_scan := v |}).

Definition set_addr_zero (v : bool) : state -> state :=
  with_error_flags (fun e => {| addr_zero := v; bad_mtbbus_polarity := bad_mtbbus_polarity e |}).
Definition set_bad_mtbbus_polarity (v : bool) : state -> state :=
  with_error_flags (fun e => {| addr_zero := addr_zero e; bad_mtbbus_polarity := v |}).

Definition set_inputs_logic_state (v : Z) : state -> state :=
  with_inputs (fun i => {| inputs_logic_state := v; inputs_old := inputs_old i |}).
Definition set_inputs_old (v : Z) : state -> state :=
  with_inputs (fun i => {| inputs_logic_state := inputs_logic_state i; inputs_old := v |}).

Definition set_config_safe_state (v : list Z) : state -> state :=
  with_config (fun c => {| config_safe_state := v;
                           config_inputs_delay := config_inputs_delay c;
                           config_mtbbus_speed := config_mtbbus_speed c;
                           config_write := config_write c;
                           config_bootloader_version := config_bootloader_version c |}).
Definition set_config_inputs_delay (v : list Z) : state -> state :=
  with_config (fun c => {| config_safe_state := config_safe_state c;
                           config_inputs_delay := v;
                           config_mtbbus_speed := config_mtbbus_speed c;
                           config_write := config_write c;
                           config_bootloader_version := config_bootloader_version c |}).
Definition set_config_mtbbus_speed (v : Z) : state -> state :=
  with_config (fun c => {| config_safe_state := config_safe_state c;
                           config_inputs_delay := config_inputs_delay c;
                           config_mtbbus_speed := v;
                           config_write := config_write c;
                           config_bootloader_version := config_bootloader_version c |}).
Definition set_config_write (v : bool) : state -> state :=
  with_config (fun c => {| config_safe_state := config_safe_state c;
                           config_inputs_delay := config_inputs_delay c;
                           config_mtbbus_speed := config_mtbbus_speed c;
                           config_write := v;
                           config_bootloader_version := config_bootloader_version c |}).

Definition set_mtbbus_addr (v : Z) : state -> state :=
  with_mtbbus (fun m => {| mtbbus_addr := v; mtbbus_speed := mtbbus_speed m;
                           mtbbus_output_buf := mtbbus_output_buf m;
                           mtbbus_on_sent := mtbbus_on_sent m;
                           mtbbus_warn_flags := mtbbus_warn_flags m;
                           mtbbus_warn_flags_old := mtbbus_warn_flags_old m;
                           mtbbus_can_fill_output_buf := mtbbus_can_fill_output_buf m;
                           mtbbus_diag := mtbbus_diag m |}).
Definition set_mtbbus_speed (v : Z) : state -> state :=
  with_mtbbus (fun m => {| mtbbus_addr := mtbbus_addr m; mtbbus_speed := v;
                           mtbbus_output_buf := mtbbus_output_buf m;
                           mtbbus_on_sent := mtbbus_on_sent m;
                           mtbbus_warn_flags := mtbbus_warn_flags m;
                           mtbbus_warn_flags_old := mtbbus_warn_flags_old m;
                           mtbbus_can_fill_output_buf := mtbbus_can_fill_output_buf m;
                           mtbbus_diag := mtbbus_diag m |}).
Definition set_mtbbus_output_buf (v : list Z) : state -> state :=
  with_mtbbus (fun m => {| mtbbus_addr := mtbbus_addr m; mtbbus_speed := mtbbus_speed m;
                           mtbbus_output_buf := v;
                           mtbbus_on_sent := mtbbus_on_sent m;
                           mtbbus_warn_flags := mtbbus_warn_flags m;
                           mtbbus_warn_flags_old := mtbbus_warn_flags_old m;
                           mtbbus_can_fill_output_buf := mtbbus_can_fill_output_buf m;
                           mtbbus_diag := mtbbus_diag m |}).
Definition set_mtbbus_on_sent (v : option callback) : state -> state :=
  with_mtbbus (fun m => {| mtbbus_addr := mtbbus_addr m; mtbbus_speed := mtbbus_speed m;
                           mtbbus_output_buf := mtbbus_output_buf m;
                           mtbbus_on_sent := v;
                           mtbbus_warn_flags := mtbbus_warn_flags m;
                           mtbbus_warn_flags_old := mtbbus_warn_flags_old m;
                           mtbbus_can_fill_output_buf := mtbbus_can_fill_output_buf m;
                           mtbbus_diag := mtbbus_diag m |}).
Definition set_mtbbus_warn_flags (v : Z) : state -> state :=
  with_mtbbus (fun m => {| mtbbus_addr := mtbbus_addr m; mtbbus_speed := mtbbus_speed m;
                           mtbbus_output_buf := mtbbus_output_buf m;
                           mtbbus_on_sent := mtbbus_on_sent m;
                           mtbbus_warn_flags := v;
                           mtbbus_warn_flags_old := mtbbus_warn_flags_old m;
                           mtbbus_can_fill_output_buf := mtbbus_can_fill_output_buf m;
                           mtbbus_diag := mtbbus_diag m |}).
Definition set_mtbbus_warn_flags_old (v : Z) : state -> state :=
  with_mtbbus (fun m => {| mtbbus_addr := mtbbus_addr m; mtbbus_speed := mtbbus_speed m;
                           mtbbus_output_buf := mtbbus_output_buf m;
                           mtbbus_on_sent := mtbbus_on_sent m;
                           mtbbus_warn_flags := mtbbus_warn_flags m;
                           mtbbus_warn_flags_old := v;
                           mtbbus_can_fill_output_buf := mtbbus_can_fill_output_buf m;
                           mtbbus_diag := mtbbus_diag m |}).

Definition set_diag_timer (v : Z) : state -> state :=
  with_diag (fun d => {| uptime_seconds := uptime_seconds d;
                         vcc_voltage := vcc_voltage d; diag_timer := v |}).

(** ** Bytes, arrays and requests *)

(** Assignment to a [uint8_t]. *)
Definition u8 (x : Z) : Z := x mod 256.

(** Conversion of an integer to [bool]. *)
Definition to_bool (x : Z) : bool := negb (x =? 0).

(** [memcpy(dst + off, src, n)] on arrays held as lists. *)
Definition memcpy (dst : list Z) (off : nat) (src : list Z) (n : nat) : list Z :=
  list_inserts off (take n src) dst.

(** A request as the transport hands it over: [data_len] is the length
    of [data], [data[0]] its first byte. *)
Definition data_len (data : list Z) : Z := Z.of_nat (length data).
Definition data_at (data : list Z) (i : nat) : Z := nth i data 0.

Inductive command : Type :=
  | CmdModuleInquiry | CmdInfoReq | CmdSetConfig | CmdGetConfig | CmdBeacon
  | CmdGetInput | CmdSetOutput | CmdResetOutputs | CmdChangeAddr
  | CmdChangeSpeed | CmdFwupgdRequest | CmdReboot | CmdDiagValueReq
  | CmdUnknown.

Inductive diag_index : Type :=
  | DvVersion | DvState | DvUptime | DvWarnings | DvVmcu
  | DvMtbbusReceived | DvMtbbusBadCrc | DvMtbbusSent | DvMtbbusUnsent
  | DvOther.

Section Firmware.
Context {hdr : Mtbbus_h}.

(** The [case] labels of the two [switch] statements, in source order. *)
Definition mosi_codes : list Z :=
  [ MTBBUS_CMD_MOSI_MODULE_INQUIRY; MTBBUS_CMD_MOSI_INFO_REQ;
    MTBBUS_CMD_MOSI_SET_CONFIG; MTBBUS_CMD_MOSI_GET_CONFIG;
    MTBBUS_CMD_MOSI_BEACON; MTBBUS_CMD_MOSI_GET_INPUT;
    MTBBUS_CMD_MOSI_SET_OUTPUT; MTBBUS_CMD_MOSI_RESET_OUTPUTS;
    MTBBUS_CMD_MOSI_CHANGE_ADDR; MTBBUS_CMD_MOSI_CHANGE_SPEED;
    MTBBUS_CMD_MOSI_FWUPGD_REQUEST; MTBBUS_CMD_MOSI_REBOOT;
    MTBBUS_CMD_MOSI_DIAG_VALUE_REQ ].

Definition dv_codes : list Z :=
  [ MTBBUS_DV_VERSION; MTBBUS_DV_STATE; MTBBUS_DV_UPTIME; MTBBUS_DV_WARNINGS;
    MTBBUS_DV_VMCU; MTBBUS_DV_MTBBUS_RECEIVED; MTBBUS_DV_MTBBUS_BAD_CRC;
    MTBBUS_DV_MTBBUS_SENT; MTBBUS_DV_MTBBUS_UNSENT ].

(** [switch (command_code)]: which label a code selects. *)
Definition decode_command (command_code : Z) : command :=
  if command_code =? MTBBUS_CMD_MOSI_MODULE_INQUIRY then CmdModuleInquiry
  else if command_code =? MTBBUS_CMD_MOSI_INFO_REQ then CmdInfoReq
  else if command_code =? MTBBUS_CMD_MOSI_SET_CONFIG then CmdSetConfig
  else if command_code =? MTBBUS_CMD_MOSI_GET_CONFIG then CmdGetConfig
  else if command_code =? MTBBUS_CMD_MOSI_BEACON then CmdBeacon
  else if command_code =? MTBBUS_CMD_MOSI_GET_INPUT then CmdGetInput
  else if command_code =? MTBBUS_CMD_MOSI_SET_OUTPUT then CmdSetOutput
  else if command_code =? MTBBUS_CMD_MOSI_RESET_OUTPUTS then CmdResetOutputs
  else if command_code =? MTBBUS_CMD_MOSI_CHANGE_ADDR then CmdChangeAddr
  else if command_code =? MTBBUS_CMD_MOSI_CHANGE_SPEED then CmdChangeSpeed
  else if command_code =? MTBBUS_CMD_MOSI_FWUPGD_REQUEST then CmdFwupgdRequest
  else if command_code =? MTBBUS_CMD_MOSI_REBOOT then CmdReboot
  else if command_code =? MTBBUS_CMD_MOSI_DIAG_VALUE_REQ then CmdDiagValueReq
  else CmdUnknown.

(** [switch (i)] of [send_diag_value]. *)
Definition decode_diag_index (i : Z) : diag_index :=
  if i =? MTBBUS_DV_VERSION then DvVersion
  else if i =? MTBBUS_DV_STATE then DvState
  else if i =? MTBBUS_DV_UPTIME then DvUptime
  else if i =? MTBBUS_DV_WARNINGS then DvWarnings
  else if i =? MTBBUS_DV_VMCU then DvVmcu
  else if i =? MTBBUS_DV_MTBBUS_RECEIVED then DvMtbbusReceived
  else if i =? MTBBUS_DV_MTBBUS_BAD_CRC then DvMtbbusBadCrc
  else if i =? MTBBUS_DV_MTBBUS_SENT then DvMtbbusSent
  else if i =? MTBBUS_DV_MTBBUS_UNSENT then DvMtbbusUnsent
  else DvOther.

(** ** Transport primitives *)

(** [mtbbus_output_buf[i] = v]. *)
Definition buf_store (i : nat) (v : Z) (st : state) : state :=
  set_mtbbus_output_buf (<[i := v]> (mtbbus_output_buf (mtbbus st))) st.

(** [memcpy(mtbbus_output_buf + off, src, n)], or [MEMCPY_FROM_VAR] when
    [src] is the whole object. *)
Definition buf_memcpy (off : nat) (src : list Z) (n : nat) (st : state) : state :=
  set_mtbbus_output_buf (memcpy (mtbbus_output_buf (mtbbus st)) off src n) st.

(** The frame that sits in a buffer: the length byte and as many bytes
    as it announces. *)
Definition frame_of (buf : list Z) : list Z :=
  take (S (Z.to_nat (nth 0 buf 0))) buf.

(** Modelled from the spec: [mtbbus_send_buf_autolen] of the missing
    [lib/mtbbus.c] accepts the one outgoing response frame; every response
    begins with a length byte (payload length including the response-code
    byte) followed by the response code.  The call is recorded with the
    frame found in the buffer. *)
Definition mtbbus_send_buf_autolen (st : state) : state :=
  emit (EvSend (frame_of (mtbbus_output_buf (mtbbus st)))) st.

(** Modelled from the spec: [mtbbus_set_speed] of the missing
    [lib/mtbbus.c] is the speed-switch primitive of the transport; the
    transport runs at the given speed afterwards, which is what
    [mtbbus_speed] reports. *)
Definition mtbbus_set_speed (speed : Z) (st : state) : state :=
  set_mtbbus_speed speed (emit (EvSetSpeed speed) st).

(** ** Response staging (current revision, lines 652-675) *)

Definition mtbbus_send_ack (st : state) : state :=
  let st := buf_store 0 1 st in
  let st := buf_store 1 MTBBUS_CMD_MISO_ACK st in
  mtbbus_send_buf_autolen st.

Definition mtbbus_send_inputs (message_code : Z) (st : state) : state :=
  let st := buf_store 0 3 st in
  let st := buf_store 1 message_code st in
  let st := buf_store 2 (Z.land (Z.shiftr (inputs_logic_state (inputs st)) 8) 255) st in
  let st := buf_store 3 (Z.land (inputs_logic_state (inputs st)) 255) st in
  mtbbus_send_buf_autolen st.

Definition mtbbus_send_error (code : Z) (st : state) : state :=
  let st := buf_store 0 2 st in
  let st := buf_store 1 MTBBUS_CMD_MISO_ERROR st in
  let st := buf_store 2 code st in
  mtbbus_send_buf_autolen st.

(** [MEMCPY_FROM_VAR(&mtbbus_output_buf[3], var)] with
    [mtbbus_output_buf[0] = 2+sizeof(var)]; the variable is held as the
    bytes of its object representation. *)
Definition diag_from_var (var : list Z) (st : state) : state :=
  let st := buf_store 0 (u8 (2 + Z.of_nat (length var))) st in
  buf_memcpy 3 var (length var) st.

Definition send_diag_value (i : Z) (st : state) : state :=
  let st := buf_store 1 MTBBUS_CMD_MISO_DIAG_VALUE st in
  let st := buf_store 2 i st in
  let st :=
    match decode_diag_index i with
    | DvVersion =>
        let st := buf_store 0 (2 + 1) st in
        buf_store 3 16 st
    | DvState =>
        let st := buf_store 0 (2 + 1) st in
        buf_store 3 (Z.shiftl (Z.b2z (0 <? mtbbus_warn_flags (mtbbus st))) 1) st
    | DvUptime => diag_from_var (uptime_seconds (diag st)) st
    | DvWarnings =>
        let st := set_mtbbus_warn_flags_old (mtbbus_warn_flags (mtbbus st)) st in
        let st := buf_store 0 (2 + 1) st in
        buf_store 3 (mtbbus_warn_flags (mtbbus st)) st
    | DvVmcu =>
        let st := buf_store 0 (2 + 2) st in
        let st := buf_store 3 (u8 (Z.shiftr (vcc_voltage (diag st)) 8)) st in
        buf_store 4 (Z.land (vcc_voltage (diag st)) 255) st
    | DvMtbbusReceived => diag_from_var (diag_received (mtbbus_diag (mtbbus st))) st
    | DvMtbbusBadCrc => diag_from_var (diag_bad_crc (mtbbus_diag (mtbbus st))) st
    | DvMtbbusSent => diag_from_var (diag_sent (mtbbus_diag (mtbbus st))) st
    | DvMtbbusUnsent => diag_from_var (diag_unsent (mtbbus_diag (mtbbus st))) st
    | DvOther =>
        let st := buf_store 0 (2 + 0) st in
        set_mtbbus_warn_flags_old (mtbbus_warn_flags (mtbbus st)) st
    end in
  mtbbus_send_buf_autolen st.

(** ** Reboot, polarity, liveness *)

(** [goto_bootloader] never returns: it arms the watchdog and spins. *)
Definition goto_bootloader (st : state) : state :=
  let st := emit (EvConfigIntWdrf true) st in
  let st := emit EvWdtEnable st in
  set_halted true st.

Definition update_mtbbus_polarity (st : state) : state :=
  set_bad_mtbbus_polarity (negb (pin_uart_rx (hw st))) st.

Definition mtbbus_addressed (st : state) : bool :=
  mtbbus_timeout st <? MTBBUS_TIMEOUT_MAX.

Definition led_red_ok (st : state) : state :=
  if led_red_counter (leds st) =? 0 then
    let st := set_led_red_counter LED_RED_OK_ON st in
    emit EvLedRedOn st
  else st.

(** ** Speed autodetection (lines 697-724) *)

Definition mtbbus_auto_speed_next (st : state) : state :=
  let st := set_mtbbus_auto_speed_timer 0 st in
  let st := set_mtbbus_auto_speed_last (u8 (mtbbus_auto_speed_last (autospeed st) + 1)) st in
  let st :=
    if mtbbus_auto_speed_last (autospeed st) >? MTBBUS_SPEED_MAX
    then set_mtbbus_auto_speed_last MTBBUS_SPEED_38400 st
    else st in
  mtbbus_set_speed (mtbbus_auto_speed_last (autospeed st)) st.

Definition autodetect_mtbbus_speed (st : state) : state :=
  let st := emit EvLedBlueOn st in
  let st := set_mtbbus_auto_speed_in_progress true st in
  let st := set_mtbbus_auto_speed_last 0 st in
  mtbbus_auto_speed_next st.

Definition mtbbus_auto_speed_received (st : state) : state :=
  let st := set_mtbbus_auto_speed_in_progress false st in
  let st := set_config_mtbbus_speed (mtbbus_speed (mtbbus st)) st in
  let st := set_config_write true st in
  emit EvLedBlueOff st.

Definition autodetect_mtbbus_speed_stop (st : state) : state :=
  if mtbbus_auto_speed_in_progress (autospeed st) then
    let st := set_mtbbus_auto_speed_in_progress false st in
    emit EvLedBlueOff st
  else st.

(** ** The command dispatcher (lines 491-650) *)

(** [INVALID_MSG: default:] *)
Definition invalid_msg (broadcast : bool) (st : state) : state :=
  if negb broadcast
  then mtbbus_send_error MTBBUS_ERROR_UNKNOWN_COMMAND st
  else st.

(** The body of the accepted [MTBBUS_CMD_MOSI_MODULE_INQUIRY] case: the
    change-notification tracker. *)
Definition module_inquiry (data : list Z) (st : state) : state :=
  let last_ok := to_bool (Z.land (data_at data 0) 1) in
  if negb (inputs_logic_state (inputs st) =? inputs_old (inputs st))
     || (last_input_changed (tracker st) && negb last_ok)
     || first_scan (tracker st)
  then
    (* Send inputs changed *)
    let st := set_last_input_changed true st in
    let st := set_first_scan false st in
    let st := mtbbus_send_inputs MTBBUS_CMD_MISO_INPUT_CHANGED st in
    set_inputs_old (inputs_logic_state (inputs st)) st
  else
    let st := set_last_input_changed false st in
    if negb (mtbbus_warn_flags (mtbbus st) =? mtbbus_warn_flags_old (mtbbus st))
       || (last_diag_changed (tracker st) && negb last_ok)
    then
      let st := set_last_diag_changed true st in
      let st := set_mtbbus_warn_flags_old (mtbbus_warn_flags (mtbbus st)) st in
      send_diag_value MTBBUS_DV_STATE st
    else
      mtbbus_send_ack st.

(** The statements of [mtbbus_received] in front of the [switch]. *)
Definition mtbbus_received_prologue (st : state) : state :=
  let st := set_bad_mtbbus_polarity false st in
  let st :=
    if led_gr_counter (leds st) =? 0 then
      let st := emit EvLedGreenOn st in
      set_led_gr_counter LED_GR_ON st
    else st in
  let st := emit (EvDelayUs 2) st in
  let st := set_mtbbus_timeout 0 st in
  if mtbbus_auto_speed_in_progress (autospeed st)
  then mtbbus_auto_speed_received st
  else st.

(** The [switch (command_code)]. *)
Definition mtbbus_received_switch
    (broadcast : bool) (command_code : Z) (data : list Z) (st : state) : state :=
  match decode_command command_code with
  | CmdModuleInquiry =>
      if negb broadcast && (1 <=? data_len data)
      then module_inquiry data st
      else invalid_msg broadcast st
  | CmdInfoReq =>
      if negb broadcast then
        let bootloader_ver := config_bootloader_version (config st) in
        let st := buf_store 0 9 st in
        let st := buf_store 1 MTBBUS_CMD_MISO_MODULE_INFO st in
        let st := buf_store 2 CONFIG_MODULE_TYPE st in
        let st := buf_store 3 (Z.shiftl (Z.b2z (0 <? mtbbus_warn_flags (mtbbus st))) 2) st in
        let st := buf_store 4 CONFIG_FW_MAJOR st in
        let st := buf_store 5 CONFIG_FW_MINOR st in
        let st := buf_store 6 CONFIG_PROTO_MAJOR st in
        let st := buf_store 7 CONFIG_PROTO_MINOR st in
        let st := buf_store 8 (u8 (Z.shiftr bootloader_ver 8)) st in
        let st := buf_store 9 (Z.land bootloader_ver 255) st in
        mtbbus_send_buf_autolen st
      else invalid_msg broadcast st
  | CmdSetConfig =>
      if (24 <=? data_len data) && negb broadcast then
        let st := mtbbus_send_ack st in
        let st := set_config_safe_state
                    (memcpy (config_safe_state (config st)) 0 data NO_OUTPUTS) st in
        let st := set_config_inputs_delay
                    (memcpy (config_inputs_delay (config st)) 0
                            (drop NO_OUTPUTS data) (NO_INPUTS / 2)) st in
        set_config_write true st
      else invalid_msg broadcast st
  | CmdGetConfig =>
      if negb broadcast then
        let st := buf_store 0 25 st in
        let st := buf_store 1 MTBBUS_CMD_MISO_MODULE_CONFIG st in
        let st := buf_memcpy 2 (config_safe_state (config st)) NO_OUTPUTS st in
        let st := buf_memcpy (2 + NO_OUTPUTS) (config_inputs_delay (config st))
                             (NO_INPUTS / 2) st in
        mtbbus_send_buf_autolen st
      else invalid_msg broadcast st
  | CmdBeacon =>
      if 1 <=? data_len data then
        let st := set_beacon (to_bool (data_at data 0)) st in
        if negb broadcast then mtbbus_send_ack st else st
      else invalid_msg broadcast st
  | CmdGetInput =>
      if negb broadcast
      then mtbbus_send_inputs MTBBUS_CMD_MISO_INPUT_STATE st
      else invalid_msg broadcast st
  | CmdSetOutput =>
      if (4 <=? data_len data) && negb broadcast then
        (* Send response first, because setting of outputs takes some time *)
        let st := buf_store 0 (u8 (data_len data + 1)) st in
        let st := buf_store 1 MTBBUS_CMD_MISO_OUTPUT_SET st in
        let st := buf_memcpy 2 data (length data) st in
        let st := mtbbus_send_buf_autolen st in
        let st := emit (EvOutputsSetZipped data) st in
        set_outputs_changed_when_setting_scom true st
      else invalid_msg broadcast st
  | CmdResetOutputs =>
      let st := if negb broadcast then mtbbus_send_ack st else st in
      emit (EvOutputsSetFull (config_safe_state (config st))) st
  | CmdChangeAddr =>
      if (1 <=? data_len data) && negb broadcast
      then mtbbus_send_error MTBBUS_ERROR_UNSUPPORTED_COMMAND st
      else invalid_msg broadcast st
  | CmdChangeSpeed =>
      if 1 <=? data_len data then
        let st := set_config_mtbbus_speed (data_at data 0) st in
        let st := set_config_write true st in
        let st := mtbbus_set_speed (data_at data 0) st in
        if negb broadcast then mtbbus_send_ack st else st
      else invalid_msg broadcast st
  | CmdFwupgdRequest =>
      if (1 <=? data_len data) && negb broadcast then
        let st := emit EvConfigBootFwupgd st in
        let st := set_mtbbus_on_sent (Some cb_goto_bootloader) st in
        mtbbus_send_ack st
      else invalid_msg broadcast st
  | CmdReboot =>
      if broadcast then goto_bootloader st
      else
        let st := set_mtbbus_on_sent (Some cb_goto_bootloader) st in
        mtbbus_send_ack st
  | CmdDiagValueReq =>
      if 1 <=? data_len data
      then send_diag_value (data_at data 0) st
      else invalid_msg broadcast st
  | CmdUnknown => invalid_msg broadcast st
  end.

Definition mtbbus_received
    (broadcast : bool) (command_code : Z) (data : list Z) (st : state) : state :=
  if negb (initialized (gate st)) then st
  else
    let st := mtbbus_received_prologue st in
    mtbbus_received_switch broadcast command_code data st.

(** ** Button handlers (lines 461-487) *)

Definition btn_on_pressed (st : state) : state :=
  set_btn_press_time 0 st.

Definition btn_short_press (st : state) : state :=
  let st := emit EvBtnShortPress st in
  if mtbbus_auto_speed_in_progress (autospeed st) then
    autodetect_mtbbus_speed_stop st
  else
    let _mtbbus_addr := io_addr_raw (hw st) in
    let st := set_addr_zero (_mtbbus_addr =? 0) st in
    let st := set_mtbbus_addr _mtbbus_addr st in
    let st := if negb (mtbbus_addr (mtbbus st) =? 0) then led_red_ok st else st in
    update_mtbbus_polarity st.

Definition btn_on_depressed (st : state) : state :=
  if btn_press_time (button st) <? BTN_PRESS_1S
  then btn_short_press st
  else st.

Definition btn_long_press (st : state) : state :=
  let st := emit EvBtnLongPress st in
  if negb (mtbbus_addressed st)
  then autodetect_mtbbus_speed st
  else st.

(** ** Initialization gate, timer interrupt and main loop *)

Definition on_initialized (st : state) : state :=
  let st := emit EvLedRedOff st in
  let st := emit EvLedGreenOff st in
  let st := emit EvLedBlueOff st in
  set_initialized true st.

(** [ISR(TIMER3_COMPA_vect)], the 10 ms tick; [tcnt1_mid] is the value
    of [(TCNT1H > 0) & (TCNT1H < OCR1AH)]. *)
Definition isr_timer3 (tcnt1_mid : bool) (st : state) : state :=
  let st :=
    if tcnt1_mid
    then set_mtbbus_warn_flags
           (Z.lor (mtbbus_warn_flags (mtbbus st)) MTBBUS_WARN_MISSED_TIMER) st
    else st in
  let st := set_t3_elapsed true st in
  let st :=
    if _init_counter (gate st) <? INIT_TIME
    then set_init_counter (_init_counter (gate st) + 1) st else st in
  let st :=
    if mtbbus_timeout st <? MTBBUS_TIMEOUT_MAX
    then set_mtbbus_timeout (mtbbus_timeout st + 1) st else st in
  let st :=
    if btn_pressed (button st) && (btn_press_time (button st) <? BTN_PRESS_1S)
    then set_btn_press_time (btn_press_time (button st) + 1) st else st in
  let st :=
    if mtbbus_auto_speed_in_progress (autospeed st)
       && (mtbbus_auto_speed_timer (autospeed st) <? MTBBUS_AUTO_SPEED_TIMEOUT)
    then set_mtbbus_auto_speed_timer (mtbbus_auto_speed_timer (autospeed st) + 1) st
    else st in
  if diag_timer (diag st) <? DIAG_UPDATE_PERIOD
  then set_diag_timer (diag_timer (diag st) + 1) st else st.

(** Lines 302-305 of [main]. *)
Definition main_btn (st : state) : state :=
  if btn_press_time (button st) =? BTN_PRESS_1S then
    let st := set_btn_press_time 255 st in
    btn_long_press st
  else st.

(** Lines 307-308 of [main]. *)
Definition main_auto_speed (st : state) : state :=
  if mtbbus_auto_speed_in_progress (autospeed st)
     && (mtbbus_auto_speed_timer (autospeed st) =? MTBBUS_AUTO_SPEED_TIMEOUT)
  then mtbbus_auto_speed_next st
  else st.

(** Lines 315-318 of [main]. *)
Definition main_init (st : state) : state :=
  if _init_counter (gate st) =? INIT_TIME then
    let st := set_init_counter 255 st in
    on_initialized st
  else st.

End Firmware.

(** ** The earlier revision of the response staging (lines 177-193) *)

Module Earlier.
Section Staging.
Context {hdr : Mtbbus_h}.

Definition mtbbus_send_ack (st : state) : state :=
  if negb (mtbbus_can_fill_output_buf (mtbbus st)) then st
  else
    let st := buf_store 0 1 st in
    let st := buf_store 1 MTBBUS_CMD_MISO_ACK st in
    mtbbus_send_buf_autolen st.

Definition mtbbus_send_inputs (message_code : Z) (st : state) : state :=
  if negb (mtbbus_can_fill_output_buf (mtbbus st)) then st
  else
    let st := buf_store 0 3 st in
    let st := buf_store 1 message_code st in
    let st := buf_store 2 (Z.land (Z.shiftr (inputs_logic_state (inputs st)) 8) 255) st in
    let st := buf_store 3 (Z.land (inputs_logic_state (inputs st)) 255) st in
    mtbbus_send_buf_autolen st.

End Staging.
End Earlier.

(** ** The firmware as a transition system

    The interrupt handler, the blocks of the main loop, the receive
    callback and the callbacks of the button driver are atomic steps that
    may follow each other in any order.  Nothing runs any more once
    [goto_bootloader] spins. *)

Inductive sys_event : Type :=
  | IsrTimer3 (tcnt1_mid : bool)       (* ISR(TIMER3_COMPA_vect) *)
  | MainBtn                            (* main, lines 302-305 *)
  | MainAutoSpeed                      (* main, lines 307-308 *)
  | MainInit                           (* main, lines 315-318 *)
  | Received (broadcast : bool) (command_code : Z) (data : list Z)
                                       (* mtbbus_on_receive, out of mtbbus_update() *)
  | BtnPressed                         (* the button goes down *)
  | BtnDepressed                       (* the button goes up *)
  | InputsDebounced (v : Z).           (* the debouncer stores a new inputs_logic_state *)

Section System.
Context {hdr : Mtbbus_h}.

(** Modelled from the spec: the button driver of the missing [io.c]
    keeps [btn_pressed] and calls [btn_on_pressed] on press and
    [btn_on_depressed] on release; the hold duration is counted by the
    tick only while the button is physically held. *)
Definition io_btn_pressed (st : state) : state :=
  btn_on_pressed (set_btn_pressed true st).

Definition io_btn_depressed (st : state) : state :=
  btn_on_depressed (set_btn_pressed false st).

Definition step (e : sys_event) (st : state) : state :=
  if halted st then st
  else
    match e with
    | IsrTimer3 m => isr_timer3 m st
    | MainBtn => main_btn st
    | MainAutoSpeed => main_auto_speed st
    | MainInit => main_init st
    | Received b c d => mtbbus_received b c d st
    | BtnPressed => io_btn_pressed st
    | BtnDepressed => io_btn_depressed st
    | InputsDebounced v => set_inputs_logic_state v st
    end.

Definition run (evs : list sys_event) (st : state) : state :=
  fold_left (fun s e => step e s) evs st.

(** The events logged between two states of one run. *)
Definition emitted (st st' : state) : list event :=
  drop (length (log st)) (log st').

(** The frames handed to the transport, oldest first. *)
Definition frames (l : list event) : list (list Z) :=
  omap (fun e => match e with EvSend f => Some f | _ => None end) l.

(** The response to one request: the frames it adds. *)
Definition response (st st' : state) : list (list Z) := frames (emitted st st').

(** The state in which [init()] leaves the globals that the dispatcher,
    the tracker, the button and the autodetection read. *)
Definition booted (st : state) : Prop :=
  initialized (gate st) = false /\ _init_counter (gate st) = 0 /\
  btn_press_time (button st) = 0 /\
  mtbbus_auto_speed_in_progress (autospeed st) = false /\
  mtbbus_auto_speed_timer (autospeed st) = 0 /\
  last_input_changed (tracker st) = false /\
  last_diag_changed (tracker st) = false /\
  first_scan (tracker st) = true /\
  mtbbus_timeout st = MTBBUS_TIMEOUT_MAX /\
  mtbbus_warn_flags_old (mtbbus st) = 255 /\
  0 <= mtbbus_warn_flags (mtbbus st) <= 15 /\
  halted st = false.

(** One elapsed probe timeout of the autodetection: twenty ticks without
    a frame, then the check of the main loop. *)
Definition probe_timeout : list sys_event :=
  replicate 20 (IsrTimer3 false) ++ [MainAutoSpeed].

Fixpoint probe_timeouts (n : nat) : list sys_event :=
  match n with
  | O => []
  | S n => probe_timeout ++ probe_timeouts n
  end.

(** Which calls are the effect of a command, as opposed to its response
    and to the indications of the prologue. *)
Definition is_effect (e : event) : bool :=
  match e with
  | EvSetSpeed _ | EvOutputsSetZipped _ | EvOutputsSetFull _
  | EvConfigBootFwupgd | EvConfigIntWdrf _ | EvWdtEnable => true
  | _ => false
  end.

Definition is_send (e : event) : bool :=
  match e with EvSend _ => true | _ => false end.

(** No effect is invoked before a response has been handed over. *)
Fixpoint response_before_effect (l : list event) : bool :=
  match l with
  | [] => true
  | e :: l => is_send e || (negb (is_effect e) && response_before_effect l)
  end.

(** How often the two button actions fired. *)
Definition is_long_press (e : event) : bool :=
  match e with EvBtnLongPress => true | _ => false end.
Definition is_short_press (e : event) : bool :=
  match e with EvBtnShortPress => true | _ => false end.

Definition long_presses (l : list event) : nat :=
  length (List.filter is_long_press l).
Definition short_presses (l : list event) : nat :=
  length (List.filter is_short_press l).

End System.

(** ** A sample instance

    One admissible assignment of the header constants and one state of a
    freshly booted module, used to run the definitions on concrete
    requests. *)

Definition sample_hdr : Mtbbus_h := {|
  MTBBUS_CMD_MOSI_MODULE_INQUIRY := 1;
  MTBBUS_CMD_MOSI_INFO_REQ := 2;
  MTBBUS_CMD_MOSI_SET_CONFIG := 3;
  MTBBUS_CMD_MOSI_GET_CONFIG := 4;
  MTBBUS_CMD_MOSI_BEACON := 5;
  MTBBUS_CMD_MOSI_GET_INPUT := 16;
  MTBBUS_CMD_MOSI_SET_OUTPUT := 17;
  MTBBUS_CMD_MOSI_RESET_OUTPUTS := 18;
  MTBBUS_CMD_MOSI_CHANGE_ADDR := 32;
  MTBBUS_CMD_MOSI_CHANGE_SPEED := 224;
  MTBBUS_CMD_MOSI_FWUPGD_REQUEST := 240;
  MTBBUS_CMD_MOSI_REBOOT := 244;
  MTBBUS_CMD_MOSI_DIAG_VALUE_REQ := 208;
  MTBBUS_CMD_MISO_ACK := 1;
  MTBBUS_CMD_MISO_ERROR := 2;
  MTBBUS_CMD_MISO_MODULE_INFO := 3;
  MTBBUS_CMD_MISO_MODULE_CONFIG := 4;
  MTBBUS_CMD_MISO_INPUT_CHANGED := 16;
  MTBBUS_CMD_MISO_INPUT_STATE := 17;
  MTBBUS_CMD_MISO_OUTPUT_SET := 18;
  MTBBUS_CMD_MISO_DIAG_VALUE := 208;
  MTBBUS_ERROR_UNKNOWN_COMMAND := 1;
  MTBBUS_ERROR_UNSUPPORTED_COMMAND := 2;
  MTBBUS_DV_VERSION := 0;
  MTBBUS_DV_STATE := 1;
  MTBBUS_DV_UPTIME := 2;
  MTBBUS_DV_WARNINGS := 11;
  MTBBUS_DV_VMCU := 12;
  MTBBUS_DV_MTBBUS_RECEIVED := 128;
  MTBBUS_DV_MTBBUS_BAD_CRC := 129;
  MTBBUS_DV_MTBBUS_SENT := 130;
  MTBBUS_DV_MTBBUS_UNSENT := 131;
  MTBBUS_SPEED_38400 := 1;
  MTBBUS_SPEED_MAX := 4;
  MTBBUS_WARN_MISSED_TIMER := 8;
  CONFIG_MODULE_TYPE := 21;
  CONFIG_FW_MAJOR := 1;
  CONFIG_FW_MINOR := 0;
  CONFIG_PROTO_MAJOR := 4;
  CONFIG_PROTO_MINOR := 1;
  DIAG_UPDATE_PERIOD := 10
|}.

(** The globals right after [init()]: address strap 5, inputs idle, no
    warning raised, a 128-byte output buffer. *)
Definition sample_boot : state := {|
  leds := {| led_gr_counter := 0; led_red_counter := 0;
             led_blue_counter := 0; beacon := false |};
  gate := {| initialized := false; _init_counter := 0 |};
  button := {| btn_pressed := false; btn_press_time := 0 |};
  autospeed := {| mtbbus_auto_speed_in_progress := false;
                  mtbbus_auto_speed_timer := 0; mtbbus_auto_speed_last := 0 |};
  tracker := {| last_input_changed := false; last_diag_changed := false;
                first_scan := true |};
  error_flags := {| addr_zero := false; bad_mtbbus_polarity := false |};
  inputs := {| inputs_logic_state := 0; inputs_old := 0 |};
  config := {| config_safe_state := replicate 16 0;
               config_inputs_delay := replicate 8 0;
               config_mtbbus_speed := 1; config_write := false;
               config_bootloader_version := 258 |};
  mtbbus := {| mtbbus_addr := 5; mtbbus_speed := 1;
               mtbbus_output_buf := replicate 128 0;
               mtbbus_on_sent := None;
               mtbbus_warn_flags := 0; mtbbus_warn_flags_old := 255;
               mtbbus_can_fill_output_buf := true;
               mtbbus_diag := {| diag_received := [0; 0; 0; 0];
                                 diag_bad_crc := [0; 0; 0; 0];
                                 diag_sent := [0; 0; 0; 0];
                                 diag_unsent := [0; 0; 0; 0] |} |};
  diag := {| uptime_seconds := [0; 0; 0; 0]; vcc_voltage := 0; diag_timer := 0 |};
  hw := {| io_addr_raw := 5; pin_uart_rx := true |};
  mtbbus_timeout := 100;
  inputs_debounce_to_update := false;
  outputs_changed_when_setting_scom := false;
  t3_elapsed := false;
  halted := false;
  log := []
|}.

(** The module once the initialization time has elapsed: fifty ticks and
    the check of the main loop. *)
Definition sample_ready : state :=
  run (hdr := sample_hdr) (replicate 50 (IsrTimer3 false) ++ [MainInit]) sample_boot.

(** What the prologue of [mtbbus_received] logs. *)
Definition prologue_events (st : state) : list event :=
  (if led_gr_counter (leds st) =? 0 then [EvLedGreenOn] else []) ++
  [EvDelayUs 2] ++
  (if mtbbus_auto_speed_in_progress (autospeed st) then [EvLedBlueOff] else []).

(** The labels of [mosi_codes], position by position. *)
Definition commands : list command :=
  [ CmdModuleInquiry; CmdInfoReq; CmdSetConfig; CmdGetConfig; CmdBeacon;
    CmdGetInput; CmdSetOutput; CmdResetOutputs; CmdChangeAddr;
    CmdChangeSpeed; CmdFwupgdRequest; CmdReboot; CmdDiagValueReq ].

(** The transport reports a busy output buffer. *)
Definition set_mtbbus_can_fill_output_buf (v : bool) : state -> state :=
  with_mtbbus (fun m => {| mtbbus_addr := mtbbus_addr m; mtbbus_speed := mtbbus_speed m;
                           mtbbus_output_buf := mtbbus_output_buf m;
                           mtbbus_on_sent := mtbbus_on_sent m;
                           mtbbus_warn_flags := mtbbus_warn_flags m;
                           mtbbus_warn_flags_old := mtbbus_warn_flags_old m;
                           mtbbus_can_fill_output_buf := v;
                           mtbbus_diag := mtbbus_diag m |}).

Definition sample_busy : state := set_mtbbus_can_fill_output_buf false sample_ready.

(** ** The request table of the specification

    Section 6 of the specification, as it is written: per request the
    minimum payload length and whether the request may be broadcast. *)

Definition spec_min_payload (c : command) : Z :=
  match c with
  | CmdModuleInquiry => 1
  | CmdInfoReq => 0
  | CmdSetConfig => 24
  | CmdGetConfig => 0
  | CmdBeacon => 1
  | CmdGetInput => 0
  | CmdSetOutput => 4
  | CmdResetOutputs => 0
  | CmdChangeAddr => 1
  | CmdChangeSpeed => 1
  | CmdFwupgdRequest => 1
  | CmdReboot => 0
  | CmdDiagValueReq => 1
  | CmdUnknown => 0
  end.

Definition spec_broadcast_allowed (c : command) : bool :=
  match c with
  | CmdBeacon | CmdResetOutputs | CmdChangeSpeed | CmdReboot => true
  | _ => false
  end.

(** A request violates the table when its code is not recognized, its
    payload is shorter than the minimum, or it is broadcast although the
    request must be addressed. *)
Definition spec_violation (c : command) (broadcast : bool) (data : list Z) : bool :=
  match c with
  | CmdUnknown => true
  | _ => (data_len data <? spec_min_payload c)
         || (broadcast && negb (spec_broadcast_allowed c))
  end.

(** ** Button holds

    While the button is held, anything may happen except that the button
    driver reports another edge; the hold duration is the number of ticks
    in between. *)

Definition is_hold_event (e : sys_event) : bool :=
  match e with
  | BtnPressed | BtnDepressed => false
  | _ => true
  end.

Definition is_tick (e : sys_event) : bool :=
  match e with
  | IsrTimer3 _ => true
  | _ => false
  end.

Definition ticks (evs : list sys_event) : Z :=
  Z.of_nat (length (List.filter is_tick evs)).

(** One press-and-release cycle: the press, the events of the hold, the
    release, and the next pass of the main loop over the button check. *)
Definition button_cycle (hold : list sys_event) : list sys_event :=
  BtnPressed :: hold ++ [BtnDepressed; MainBtn].

(** Where a hold stands after [k] ticks: the counter still counts, or it
    has stopped at the threshold with the long press not yet taken by the
    main loop, or it is latched at 0xFF with the long press fired once. *)
Definition hold_phase (k : Z) (press_time : Z) (fired : nat) : Prop :=
  (k < BTN_PRESS_1S /\ press_time = k /\ fired = 0%nat) \/
  (BTN_PRESS_1S <= k /\
   ((press_time = BTN_PRESS_1S /\ fired = 0%nat) \/
    (press_time = 255 /\ fired = 1%nat))).

(** ** The change-notification tracker of the specification

    Section 4.2 of the specification, as it is written: what the previous
    inquiry was answered with, the last-reported input snapshot and warning
    bitset, and the three-way choice by priority. *)

Inductive notification : Type :=
  | NoteNone | NoteInputs | NoteDiag.

Inductive answer : Type :=
  | AnsInputChanged (snapshot : Z)
  | AnsDiagState
  | AnsAck.

Record spec_tracker_t : Type := {
  sp_first_inquiry : bool;
  sp_reported_inputs : Z;
  sp_reported_warn : Z;
  sp_sent_last_time : notification
}.

Definition spec_inquiry (live_inputs live_warn : Z) (received : bool)
    (t : spec_tracker_t) : answer * spec_tracker_t :=
  let input_sent_last_time :=
    match sp_sent_last_time t with NoteInputs => true | _ => false end in
  let diag_sent_last_time :=
    match sp_sent_last_time t with NoteDiag => true | _ => false end in
  if sp_first_inquiry t
     || negb (live_inputs =? sp_reported_inputs t)
     || (input_sent_last_time && negb received)
  then (AnsInputChanged live_inputs,
        {| sp_first_inquiry := false; sp_reported_inputs := live_inputs;
           sp_reported_warn := sp_reported_warn t;
           sp_sent_last_time := NoteInputs |})
  else if negb (live_warn =? sp_reported_warn t)
          || (diag_sent_last_time && negb received)
  then (AnsDiagState,
        {| sp_first_inquiry := false; sp_reported_inputs := sp_reported_inputs t;
           sp_reported_warn := live_warn; sp_sent_last_time := NoteDiag |})
  else (AnsAck,
        {| sp_first_inquiry := false; sp_reported_inputs := sp_reported_inputs t;
           sp_reported_warn := sp_reported_warn t; sp_sent_last_time := NoteNone |}).

(** The tracker of the specification polled with the given
    "received" bits while inputs and warnings stay as they are. *)
Fixpoint spec_answers (live_inputs live_warn : Z) (bits : list bool)
    (t : spec_tracker_t) : list answer :=
  match bits with
  | [] => []
  | b :: bits =>
      let '(a, t') := spec_inquiry live_inputs live_warn b t in
      a :: spec_answers live_inputs live_warn bits t'
  end.

Section Answers.
Context {hdr : Mtbbus_h}.

(** The frame that carries an answer. *)
Definition answer_frame (warn : Z) (a : answer) : list Z :=
  match a with
  | AnsInputChanged s =>
      [3; MTBBUS_CMD_MISO_INPUT_CHANGED; Z.land (Z.shiftr s 8) 255; Z.land s 255]
  | AnsDiagState =>
      [3; MTBBUS_CMD_MISO_DIAG_VALUE; MTBBUS_DV_STATE; Z.shiftl (Z.b2z (0 <? warn)) 1]
  | AnsAck => [1; MTBBUS_CMD_MISO_ACK]
  end.

(** The responses of the firmware to a sequence of events, one list of
    frames per event. *)
Fixpoint responses (evs : list sys_event) (st : state) : list (list (list Z)) :=
  match evs with
  | [] => []
  | e :: evs => response st (step e st) :: responses evs (step e st)
  end.

(** A unicast module inquiry whose bit 0 is the given "received" bit. *)
Definition inquiry (received : bool) : sys_event :=
  Received false MTBBUS_CMD_MOSI_MODULE_INQUIRY [Z.b2z received].

(** The tracker of the specification at the first inquiry of a module in
    the given state. *)
Definition spec_tracker_of (st : state) : spec_tracker_t :=
  {| sp_first_inquiry := first_scan (tracker st);
     sp_reported_inputs := inputs_old (inputs st);
     sp_reported_warn := mtbbus_warn_flags_old (mtbbus st);
     sp_sent_last_time := NoteNone |}.

End Answers.

(** ** LED indication (lines 421-450) *)

Definition LED_GR_OFF : Z := 2.
Definition LED_RED_OK_OFF : Z := 20.
Definition LED_RED_ERR_ON : Z := 100.
Definition LED_RED_ERR_OFF : Z := 50.
Definition LED_BLUE_BEACON_ON : Z := 100.
Definition LED_BLUE_BEACON_OFF : Z := 50.

Definition set_led_blue_counter (v : Z) : state -> state :=
  with_leds (fun l => {| led_gr_counter := led_gr_counter l;
                         led_red_counter := led_red_counter l;
                         led_blue_counter := v; beacon := beacon l |}).

(** Modelled from the spec: [common.h], which declares [error_flags_t] in
    the current revision, is missing.  The earlier revision declares it as
    the union of the bit struct with the byte [all] (lines 39-44), and the
    bits [main.c] writes are [addr_zero] and [bad_mtbbus_polarity]; the
    spec names the invalid address as the sticky error.  [error_flags.all]
    read as a truth value: some error bit is set. *)
Definition error_flags_all (st : state) : bool :=
  addr_zero (error_flags st) || bad_mtbbus_polarity (error_flags st).

Definition leds_update (st : state) : state :=
  let st :=
    if 0 <? led_gr_counter (leds st) then
      let st := set_led_gr_counter (led_gr_counter (leds st) - 1) st in
      if led_gr_counter (leds st) =? LED_GR_OFF then emit EvLedGreenOff st else st
    else st in
  let led_red_flashing := error_flags_all st in
  let st :=
    if 0 <? led_red_counter (leds st) then
      let st := set_led_red_counter (led_red_counter (leds st) - 1) st in
      if (negb led_red_flashing && (led_red_counter (leds st) =? LED_RED_OK_OFF))
         || (led_red_flashing && (led_red_counter (leds st) =? LED_RED_ERR_OFF))
      then emit EvLedRedOff st else st
    else st in
  let st :=
    if led_red_flashing && (led_red_counter (leds st) =? 0) then
      let st := set_led_red_counter LED_RED_ERR_ON st in
      emit EvLedRedOn st
    else st in
  let st :=
    if 0 <? led_blue_counter (leds st) then
      let st := set_led_blue_counter (led_blue_counter (leds st) - 1) st in
      if led_blue_counter (leds st) =? LED_BLUE_BEACON_OFF then emit EvLedBlueOff st else st
    else st in
  if beacon (leds st) && (led_blue_counter (leds st) =? 0) then
    let st := set_led_blue_counter LED_BLUE_BEACON_ON st in
    emit EvLedBlueOn st
  else st.

(** Which calls switch an LED on. *)
Definition is_led_on (e : event) : bool :=
  match e with
  | EvLedGreenOn | EvLedRedOn | EvLedBlueOn => true
  | _ => false
  end.

(** ** The earlier revision of the receive callback and of the button
    (lines 144-175) *)

Module Rev1.
Section Callbacks.
Context {hdr : Mtbbus_h}.

Definition mtbbus_received
    (broadcast : bool) (command_code : Z) (data : list Z) (st : state) : state :=
  let st :=
    if led_gr_counter (leds st) =? 0 then
      let st := emit EvLedGreenOn st in
      set_led_gr_counter LED_GR_ON st
    else st in
  if (command_code =? MTBBUS_CMD_MOSI_MODULE_INQUIRY) && (1 <=? data_len data) then
    let last_ok := to_bool (Z.land (data_at data 0) 1) in
    if negb (inputs_logic_state (inputs st) =? inputs_old (inputs st))
       || (last_input_changed (tracker st) && negb last_ok)
    then
      (* Send inputs changed *)
      let st := set_last_input_changed true st in
      let st := Earlier.mtbbus_send_inputs MTBBUS_CMD_MISO_INPUT_CHANGED st in
      set_inputs_old (inputs_logic_state (inputs st)) st
    else
      let st := set_last_input_changed false st in
      Earlier.mtbbus_send_ack st
  else st.

Definition btn_on_pressed (st : state) : state :=
  let _mtbbus_addr := io_addr_raw (hw st) in
  let st := set_addr_zero (_mtbbus_addr =? 0) st in
  let st := set_mtbbus_addr _mtbbus_addr st in
  if negb (mtbbus_addr (mtbbus st) =? 0) then led_red_ok st else st.

Definition btn_on_depressed (st : state) : state := st.

End Callbacks.
End Rev1.

(** ** Observations on the dispatcher *)

(** Calls into the output driver. *)
Definition is_driver_call (e : event) : bool :=
  match e with
  | EvOutputsSetZipped _ | EvOutputsSetFull _ => true
  | _ => false
  end.

Definition driver_calls (l : list event) : list event := List.filter is_driver_call l.

(** The 16-bit value carried by two bytes, high byte first. *)
Definition be16 (hi lo : Z) : Z := hi * 256 + lo.

(** The counters of the tick stay where [uint8_t] arithmetic is exact:
    below their thresholds, or latched at 0xFF. *)
Definition counters_in_range (st : state) : Prop :=
  (0 <= _init_counter (gate st) <= INIT_TIME \/ _init_counter (gate st) = 255) /\
  0 <= mtbbus_timeout st <= MTBBUS_TIMEOUT_MAX /\
  (0 <= btn_press_time (button st) <= BTN_PRESS_1S \/ btn_press_time (button st) = 255) /\
  0 <= mtbbus_auto_speed_timer (autospeed st) <= MTBBUS_AUTO_SPEED_TIMEOUT.

Section Observations.
Context {hdr : Mtbbus_h}.

(** While the autodetection runs, the transport runs at the speed being
    probed, and that is a speed of the interval. *)
Definition probe_in_range (st : state) : Prop :=
  mtbbus_auto_speed_in_progress (autospeed st) = true ->
  MTBBUS_SPEED_38400 <= mtbbus_auto_speed_last (autospeed st) <= MTBBUS_SPEED_MAX /\
  mtbbus_speed (mtbbus st) = mtbbus_auto_speed_last (autospeed st).

End Observations.

(** Switches of the transport speed. *)
Definition is_set_speed (e : event) : bool :=
  match e with EvSetSpeed _ => true | _ => false end.

Definition speed_switches (l : list event) : list event := List.filter is_set_speed l.

(** Where the initialization gate stands after [k] ticks: still closed
    with the counter following the ticks up to its threshold, or open. *)
Definition init_phase (k : Z) (st : state) : Prop :=
  (initialized (gate st) = false /\ _init_counter (gate st) = Z.min k INIT_TIME /\
   halted st = false) \/
  (initialized (gate st) = true /\ INIT_TIME <= k).

(** [n] passes of the main loop over [leds_update] with nothing else in
    between. *)
Definition leds_updates (n : nat) (st : state) : state := Nat.iter n leds_update st.

(** Calls that drive the green LED. *)
Definition is_led_green (e : event) : bool :=
  match e with
  | EvLedGreenOn | EvLedGreenOff => true
  | _ => false
  end.

(** ** Further states of the sample module *)

Section SampleStates.
#[local] Existing Instance sample_hdr.

(** The sample module with the tracker at rest: the first report made,
    the warnings read by the master, the last inquiry acknowledged. *)
Definition sample_rest : state :=
  run [inquiry true;
       Received false MTBBUS_CMD_MOSI_DIAG_VALUE_REQ [MTBBUS_DV_WARNINGS];
       inquiry true] sample_ready.

(** The sample module with the button held for [k] ticks. *)
Definition sample_held (k : nat) : state :=
  run (BtnPressed :: replicate k (IsrTimer3 false)) sample_ready.

(** The sample module probing after a long press, the button pressed
    again for ten ticks. *)
Definition sample_probing : state :=
  run ([MainBtn; BtnDepressed; BtnPressed] ++ replicate 10 (IsrTimer3 false))
      (sample_held 100).

End SampleStates.

(** * Proofs *)

#[local] Arguments mtbbus_received_prologue : simpl never.
#[local] Arguments frame_of : simpl never.
#[local] Arguments memcpy : simpl never.

Ltac fw_simpl := cbn in *.

(** Symbolic execution of one conditional: an [if] whose condition holds
    no other conditional is evaluated; it is replaced by its value when a
    hypothesis already decides it, and split otherwise. *)
Ltac fw_cond :=
  match goal with
  | |- context [if ?c then _ else _] =>
      lazymatch c with
      | context [if _ then _ else _] => fail
      | _ => idtac
      end;
      let b := fresh "b" in
      let Hb := fresh "Hb" in
      remember c as b eqn:Hb; cbn in Hb;
      first
        [ match type of Hb with
          | b = true => subst b
          | b = false => subst b
          | b = ?c' =>
              match goal with
              | H : c' = _ |- _ => rewrite H in Hb; subst b
              end
          end
        | symmetry in Hb; destruct b ];
      try match goal with
          | H : false = true |- _ => discriminate H
          | H : true = false |- _ => discriminate H
          end;
      cbv beta iota
  end.

Ltac fw_exec := cbv zeta; repeat fw_cond.

Section Proofs.
Context {hdr : Mtbbus_h}.

(** ** Decoding the [switch] labels *)

Lemma decode_command_unknown (c : Z) :
  c ∉ mosi_codes -> decode_command c = CmdUnknown.
Proof.
  unfold mosi_codes, decode_command. rewrite !not_elem_of_cons.
  intros H. destruct_and!.
  repeat match goal with
         | Hn : c <> ?x |- context [c =? ?x] =>
             rewrite (proj2 (Z.eqb_neq c x) Hn)
         end.
  reflexivity.
Qed.

Lemma decode_command_label (i : nat) (c : Z) :
  NoDup mosi_codes -> mosi_codes !! i = Some c ->
  decode_command c = nth i commands CmdUnknown.
Proof.
  unfold mosi_codes. intros Hnd Hi.
  repeat (apply NoDup_cons in Hnd as [? Hnd]).
  repeat match goal with
         | Hn : _ ∉ _ |- _ => rewrite ?not_elem_of_cons in Hn; destruct_and!
         end.
  do 13 (destruct i as [|i];
         [injection Hi as <-; unfold decode_command;
          repeat (rewrite Z.eqb_refl || rewrite (proj2 (Z.eqb_neq _ _)) by congruence);
          reflexivity|]).
  discriminate.
Qed.


(** ** The log *)

Lemma emitted_app (st st' : state) (l : list event) :
  log st' = log st ++ l -> emitted st st' = l.
Proof. unfold emitted. intros ->. apply drop_app_length. Qed.

Lemma emitted_refl (st : state) : emitted st st = [].
Proof. apply emitted_app. symmetry. apply app_nil_r. Qed.

Lemma frames_app (l k : list event) : frames (l ++ k) = frames l ++ frames k.
Proof. unfold frames. apply omap_app. Qed.

Lemma frames_prologue_events (st : state) : frames (prologue_events st) = [].
Proof. unfold prologue_events. repeat case_match; reflexivity. Qed.

Lemma log_prologue (st : state) :
  log (mtbbus_received_prologue st) = log st ++ prologue_events st.
Proof.
  unfold mtbbus_received_prologue, prologue_events. fw_exec;
    fw_simpl; rewrite <- ?app_assoc; reflexivity || congruence.
Qed.

Lemma buf_prologue (st : state) :
  mtbbus_output_buf (mtbbus (mtbbus_received_prologue st))
  = mtbbus_output_buf (mtbbus st).
Proof.
  unfold mtbbus_received_prologue. fw_exec; reflexivity.
Qed.

(** ** Frames staged by the response routines *)

Lemma frame_ack (buf : list Z) (c : Z) :
  (2 <= length buf)%nat -> frame_of (<[1%nat := c]> (<[0%nat := 1]> buf)) = [1; c].
Proof. destruct buf as [|? [|? ?]]; cbn; intros; try lia; reflexivity. Qed.

Lemma frame_error (buf : list Z) (c e : Z) :
  (3 <= length buf)%nat ->
  frame_of (<[2%nat := e]> (<[1%nat := c]> (<[0%nat := 2]> buf))) = [2; c; e].
Proof. destruct buf as [|? [|? [|? ?]]]; cbn; intros; try lia; reflexivity. Qed.

Lemma frame_inputs (buf : list Z) (c h l : Z) :
  (4 <= length buf)%nat ->
  frame_of (<[3%nat := l]> (<[2%nat := h]> (<[1%nat := c]> (<[0%nat := 3]> buf))))
  = [3; c; h; l].
Proof. destruct buf as [|? [|? [|? [|? ?]]]]; cbn; intros; try lia; reflexivity. Qed.

Lemma log_send_ack (st : state) :
  (2 <= length (mtbbus_output_buf (mtbbus st)))%nat ->
  log (mtbbus_send_ack st) = log st ++ [EvSend [1; MTBBUS_CMD_MISO_ACK]].
Proof. intros Hb. fw_simpl. rewrite frame_ack by assumption. reflexivity. Qed.

Lemma log_send_error (code : Z) (st : state) :
  (3 <= length (mtbbus_output_buf (mtbbus st)))%nat ->
  log (mtbbus_send_error code st) = log st ++ [EvSend [2; MTBBUS_CMD_MISO_ERROR; code]].
Proof. intros Hb. fw_simpl. rewrite frame_error by assumption. reflexivity. Qed.

Lemma log_send_inputs (code : Z) (st : state) :
  (4 <= length (mtbbus_output_buf (mtbbus st)))%nat ->
  log (mtbbus_send_inputs code st)
  = log st ++ [EvSend [3; code;
                       Z.land (Z.shiftr (inputs_logic_state (inputs st)) 8) 255;
                       Z.land (inputs_logic_state (inputs st)) 255]].
Proof. intros Hb. fw_simpl. rewrite frame_inputs by assumption. reflexivity. Qed.

(** ** The initialization gate *)

(** C3: a request received while [initialized] is still false is dropped:
    the dispatcher returns at once, so the whole state, the output buffer
    and the call log included, stays as it was and no response exists. *)
Theorem request_before_initialization_is_dropped
    (broadcast : bool) (command_code : Z) (data : list Z) (st : state) :
  initialized (gate st) = false ->
  mtbbus_received broadcast command_code data st = st /\
  response st (mtbbus_received broadcast command_code data st) = [].
Proof.
  intros Hinit. unfold mtbbus_received. rewrite Hinit. cbn.
  split; [reflexivity|]. unfold response. rewrite emitted_refl. reflexivity.
Qed.


(** ** The dispatcher behind the initialization gate *)

Lemma mtbbus_received_initialized
    (broadcast : bool) (command_code : Z) (data : list Z) (st : state) :
  initialized (gate st) = true ->
  mtbbus_received broadcast command_code data st
  = mtbbus_received_switch broadcast command_code data (mtbbus_received_prologue st).
Proof. intros Hinit. unfold mtbbus_received. rewrite Hinit. reflexivity. Qed.

Lemma config_tables_prologue (st : state) :
  config_safe_state (config (mtbbus_received_prologue st))
  = config_safe_state (config st) /\
  config_inputs_delay (config (mtbbus_received_prologue st))
  = config_inputs_delay (config st).
Proof.
  unfold mtbbus_received_prologue. fw_exec; split; reflexivity.
Qed.

Lemma data_len_cons (b : Z) (rest : list Z) : (1 <=? data_len (b :: rest)) = true.
Proof. unfold data_len. cbn [length]. apply Z.leb_le. lia. Qed.

(** ** CHANGE_SPEED *)

(** C10: a CHANGE_SPEED request with at least one payload byte, unicast or
    broadcast, makes the raw byte the transport speed, stores it into the
    persisted configuration and sets the dirty flag, whatever the byte is;
    the speed switch is the first call after the prologue and the ACK, sent
    only to a unicast request, comes after it. *)
Theorem change_speed_applies_raw_byte_before_ack
    (broadcast : bool) (b : Z) (rest : list Z) (st : state) :
  NoDup mosi_codes ->
  initialized (gate st) = true ->
  (2 <= length (mtbbus_output_buf (mtbbus st)))%nat ->
  let st' := mtbbus_received broadcast MTBBUS_CMD_MOSI_CHANGE_SPEED (b :: rest) st in
  mtbbus_speed (mtbbus st') = b /\
  config_mtbbus_speed (config st') = b /\
  config_write (config st') = true /\
  emitted st st'
  = prologue_events st ++
    EvSetSpeed b :: (if broadcast then [] else [EvSend [1; MTBBUS_CMD_MISO_ACK]]).
Proof.
  intros Hnd Hinit Hbuf st'. subst st'.
  rewrite mtbbus_received_initialized by assumption.
  unfold mtbbus_received_switch.
  rewrite (decode_command_label 9 _ Hnd eq_refl). cbn [nth commands].
  rewrite data_len_cons.
  pose proof (log_prologue st) as Hlog. pose proof (buf_prologue st) as Hb.
  destruct broadcast; fw_simpl.
  - repeat split; try reflexivity.
    apply emitted_app. cbn. rewrite Hlog, <- app_assoc. reflexivity.
  - repeat split; try reflexivity.
    apply emitted_app. cbn. rewrite Hb, frame_ack by assumption.
    rewrite Hlog, <- !app_assoc. reflexivity.
Qed.


(** ** SET_CONFIG *)

Lemma memcpy_whole (dst src : list Z) (n : nat) :
  length dst = n -> (n <= length src)%nat -> memcpy dst 0 src n = take n src.
Proof.
  intros Hd Hs. unfold memcpy.
  rewrite <- (app_nil_r dst), list_inserts_0_r, app_nil_r; [reflexivity|].
  rewrite length_take. lia.
Qed.

(** C5: a SET_CONFIG request shorter than 24 bytes leaves the safe-state
    vector and the debounce-delay table as they were and is answered, when
    unicast, by the ERROR frame; a unicast request of at least 24 bytes
    copies its first [NO_OUTPUTS] bytes into the safe-state table and the
    following [NO_INPUTS/2] bytes into the debounce-delay table, sets the
    dirty flag and is acknowledged within the same call. *)
Theorem set_config_short_rejected_sufficient_stored
    (broadcast : bool) (data : list Z) (st : state) :
  NoDup mosi_codes ->
  initialized (gate st) = true ->
  (3 <= length (mtbbus_output_buf (mtbbus st)))%nat ->
  length (config_safe_state (config st)) = NO_OUTPUTS ->
  length (config_inputs_delay (config st)) = (NO_INPUTS / 2)%nat ->
  let st' := mtbbus_received broadcast MTBBUS_CMD_MOSI_SET_CONFIG data st in
  (data_len data < 24 ->
     config_safe_state (config st') = config_safe_state (config st) /\
     config_inputs_delay (config st') = config_inputs_delay (config st) /\
     response st st'
     = if broadcast then []
       else [[2; MTBBUS_CMD_MISO_ERROR; MTBBUS_ERROR_UNKNOWN_COMMAND]]) /\
  (24 <= data_len data -> broadcast = false ->
     config_safe_state (config st') = take NO_OUTPUTS data /\
     config_inputs_delay (config st') = take (NO_INPUTS / 2) (drop NO_OUTPUTS data) /\
     config_write (config st') = true /\
     emitted st st' = prologue_events st ++ [EvSend [1; MTBBUS_CMD_MISO_ACK]]).
Proof.
  intros Hnd Hinit Hbuf Hsafe Hdelay st'. subst st'.
  rewrite mtbbus_received_initialized by assumption.
  unfold mtbbus_received_switch.
  rewrite (decode_command_label 2 _ Hnd eq_refl). cbn [nth commands].
  pose proof (log_prologue st) as Hlog. pose proof (buf_prologue st) as Hb.
  destruct (config_tables_prologue st) as [Hs Hd].
  split.
  - intros Hshort. apply Z.leb_gt in Hshort. rewrite Hshort. cbn [andb].
    unfold invalid_msg. destruct broadcast; cbn [negb].
    + rewrite Hs, Hd. repeat split. unfold response.
      rewrite (emitted_app _ _ _ Hlog). apply frames_prologue_events.
    + repeat split; try (fw_simpl; congruence).
      unfold response. erewrite emitted_app.
      2:{ rewrite log_send_error by (rewrite Hb; assumption).
          rewrite Hlog, <- app_assoc. reflexivity. }
      rewrite frames_app, frames_prologue_events. reflexivity.
  - intros Hlong ->. apply Z.leb_le in Hlong. rewrite Hlong. cbn [andb negb].
    unfold data_len in Hlong. apply Z.leb_le in Hlong.
    assert (24 <= length data)%nat as Hlen by lia.
    unfold NO_OUTPUTS, NO_INPUTS in *. cbn [Nat.div] in *.
    repeat split.
    + fw_simpl. rewrite Hs. apply memcpy_whole; [assumption | lia].
    + fw_simpl. rewrite Hd. apply memcpy_whole; [assumption |].
      rewrite length_drop. lia.
    + apply emitted_app. fw_simpl. rewrite Hb, frame_ack by lia.
      rewrite Hlog, <- app_assoc. reflexivity.
Qed.

(** ** Response and effect *)

Lemma response_before_effect_prologue (st : state) (l : list event) :
  response_before_effect (prologue_events st ++ l) = response_before_effect l.
Proof. unfold prologue_events. repeat case_match; reflexivity. Qed.

Lemma frame_echo (buf data : list Z) (c : Z) :
  (2 + length data <= length buf)%nat ->
  data_len data < 255 ->
  frame_of (memcpy (<[1%nat := c]> (<[0%nat := u8 (data_len data + 1)]> buf))
                   2 data (length data))
  = (data_len data + 1) :: c :: data.
Proof.
  intros Hfit Hlen. unfold data_len in *.
  destruct buf as [|b0 [|b1 rest]]; cbn [length] in Hfit; try lia.
  cbn [insert list_insert]. unfold memcpy.
  rewrite firstn_all, !list_inserts_cons.
  rewrite <- (take_drop (length data) rest).
  rewrite list_inserts_0_r by (rewrite length_take; lia).
  unfold frame_of, u8. cbn [nth].
  rewrite Z.mod_small by lia.
  replace (Z.to_nat (Z.of_nat (length data) + 1)) with (S (length data)) by lia.
  cbn [take]. rewrite take_app_length. reflexivity.
Qed.

(** C7, as amended: the echo of a valid unicast SET_OUTPUT is handed to
    the transport before the output driver is invoked, and a unicast
    RESET_OUTPUTS is acknowledged before the driver restores the safe
    state; the order is no general rule, since a unicast CHANGE_SPEED
    switches the transport speed and a unicast FWUPGD_REQUEST stores the
    boot flag before the ACK is staged. *)
Theorem response_precedes_output_driver_only
    (data : list Z) (st : state) :
  NoDup mosi_codes ->
  initialized (gate st) = true ->
  (2 + length data <= length (mtbbus_output_buf (mtbbus st)))%nat ->
  data_len data < 255 ->
  let out c := emitted st (mtbbus_received false c data st) in
  (4 <= data_len data ->
     out MTBBUS_CMD_MOSI_SET_OUTPUT
     = prologue_events st ++
       [EvSend ((data_len data + 1) :: MTBBUS_CMD_MISO_OUTPUT_SET :: data);
        EvOutputsSetZipped data] /\
     response_before_effect (out MTBBUS_CMD_MOSI_SET_OUTPUT) = true) /\
  (out MTBBUS_CMD_MOSI_RESET_OUTPUTS
   = prologue_events st ++
     [EvSend [1; MTBBUS_CMD_MISO_ACK];
      EvOutputsSetFull (config_safe_state (config st))] /\
   response_before_effect (out MTBBUS_CMD_MOSI_RESET_OUTPUTS) = true) /\
  (1 <= data_len data ->
     out MTBBUS_CMD_MOSI_CHANGE_SPEED
     = prologue_events st ++
       [EvSetSpeed (data_at data 0); EvSend [1; MTBBUS_CMD_MISO_ACK]] /\
     response_before_effect (out MTBBUS_CMD_MOSI_CHANGE_SPEED) = false) /\
  (1 <= data_len data ->
     out MTBBUS_CMD_MOSI_FWUPGD_REQUEST
     = prologue_events st ++
       [EvConfigBootFwupgd; EvSend [1; MTBBUS_CMD_MISO_ACK]] /\
     response_before_effect (out MTBBUS_CMD_MOSI_FWUPGD_REQUEST) = false).
Proof.
  intros Hnd Hinit Hfit Hlen out. subst out. cbv beta.
  pose proof (log_prologue st) as Hlog. pose proof (buf_prologue st) as Hb.
  destruct (config_tables_prologue st) as [Hs _].
  assert (2 <= length (mtbbus_output_buf (mtbbus st)))%nat as Hbuf by lia.
  rewrite !mtbbus_received_initialized by assumption.
  unfold mtbbus_received_switch.
  rewrite (decode_command_label 6 _ Hnd eq_refl).
  rewrite (decode_command_label 7 _ Hnd eq_refl).
  rewrite (decode_command_label 9 _ Hnd eq_refl).
  rewrite (decode_command_label 10 _ Hnd eq_refl).
  cbn [nth commands negb andb].
  split; [|split; [|split]].
  - intros H4. apply Z.leb_le in H4. rewrite H4. cbn [andb].
    rewrite (emitted_app _ _ (prologue_events st ++
       [EvSend ((data_len data + 1) :: MTBBUS_CMD_MISO_OUTPUT_SET :: data);
        EvOutputsSetZipped data])).
    + split; [reflexivity|]. rewrite response_before_effect_prologue. reflexivity.
    + fw_simpl. rewrite Hb, frame_echo, Hlog by assumption.
      rewrite <- !app_assoc. reflexivity.
  - rewrite (emitted_app _ _ (prologue_events st ++
       [EvSend [1; MTBBUS_CMD_MISO_ACK];
        EvOutputsSetFull (config_safe_state (config st))])).
    + split; [reflexivity|]. rewrite response_before_effect_prologue. reflexivity.
    + fw_simpl. rewrite Hb, frame_ack, Hlog, Hs by assumption.
      rewrite <- !app_assoc. reflexivity.
  - intros H1. apply Z.leb_le in H1. rewrite H1.
    rewrite (emitted_app _ _ (prologue_events st ++
       [EvSetSpeed (data_at data 0); EvSend [1; MTBBUS_CMD_MISO_ACK]])).
    + split; [reflexivity|]. rewrite response_before_effect_prologue. reflexivity.
    + fw_simpl. rewrite Hb, frame_ack, Hlog by assumption.
      rewrite <- !app_assoc. reflexivity.
  - intros H1. apply Z.leb_le in H1. rewrite H1. cbn [andb].
    rewrite (emitted_app _ _ (prologue_events st ++
       [EvConfigBootFwupgd; EvSend [1; MTBBUS_CMD_MISO_ACK]])).
    + split; [reflexivity|]. rewrite response_before_effect_prologue. reflexivity.
    + fw_simpl. rewrite Hb, frame_ack, Hlog by assumption.
      rewrite <- !app_assoc. reflexivity.
Qed.

(** ** The busy output buffer *)

(** C9, as amended: the check that the output buffer can be filled
    belongs to the earlier revision, whose [mtbbus_send_ack] and
    [mtbbus_send_inputs] leave the whole state untouched when the buffer
    is busy; the current [mtbbus_send_ack], [mtbbus_send_inputs] and
    [mtbbus_send_error] make no such check and stage and hand over their
    frame also when the transport reports a busy buffer. *)
Theorem busy_buffer_checked_only_by_earlier_revision
    (code : Z) (st : state) :
  mtbbus_can_fill_output_buf (mtbbus st) = false ->
  (4 <= length (mtbbus_output_buf (mtbbus st)))%nat ->
  Earlier.mtbbus_send_ack st = st /\
  Earlier.mtbbus_send_inputs code st = st /\
  emitted st (mtbbus_send_ack st) = [EvSend [1; MTBBUS_CMD_MISO_ACK]] /\
  emitted st (mtbbus_send_inputs code st)
  = [EvSend [3; code;
             Z.land (Z.shiftr (inputs_logic_state (inputs st)) 8) 255;
             Z.land (inputs_logic_state (inputs st)) 255]] /\
  emitted st (mtbbus_send_error code st) = [EvSend [2; MTBBUS_CMD_MISO_ERROR; code]].
Proof.
  intros Hbusy Hbuf.
  unfold Earlier.mtbbus_send_ack, Earlier.mtbbus_send_inputs. rewrite Hbusy.
  cbn [negb]. repeat split; apply emitted_app.
  - apply log_send_ack. lia.
  - apply log_send_inputs. lia.
  - apply log_send_error. lia.
Qed.

(** ** Broadcast requests *)

Lemma response_app (st st' : state) (l : list event) :
  log st' = log st ++ l -> response st st' = frames l.
Proof. intros H. unfold response. rewrite (emitted_app _ _ _ H). reflexivity. Qed.

(** Behind the prologue, a broadcast request that does not select the
    DIAG_VALUE_REQ label hands no frame to the transport. *)
Lemma switch_broadcast_silent (c : Z) (data : list Z) (p : state) :
  decode_command c <> CmdDiagValueReq ->
  exists l, log (mtbbus_received_switch true c data p) = log p ++ l /\ frames l = [].
Proof.
  intros Hc. unfold mtbbus_received_switch.
  destruct (decode_command c); try congruence;
    cbn [negb andb]; rewrite ?andb_false_r; unfold invalid_msg; cbn [negb];
    fw_exec;
    first [ exists []; split; [symmetry; apply app_nil_r | reflexivity]
          | eexists; split; [cbn; rewrite <- ?app_assoc; reflexivity | reflexivity] ].
Qed.

Lemma broadcast_silent_unless_diag_value_req (c : Z) (data : list Z) (st : state) :
  decode_command c <> CmdDiagValueReq ->
  response st (mtbbus_received true c data st) = [].
Proof.
  intros Hc. unfold mtbbus_received.
  destruct (initialized (gate st)); cbn [negb].
  - destruct (switch_broadcast_silent c data (mtbbus_received_prologue st) Hc)
      as (l & Hl & Hf).
    rewrite log_prologue, <- app_assoc in Hl.
    rewrite (response_app _ _ _ Hl), frames_app, frames_prologue_events, Hf.
    reflexivity.
  - unfold response. rewrite emitted_refl. reflexivity.
Qed.

Lemma log_send_diag_value (i : Z) (st : state) :
  exists f, log (send_diag_value i st) = log st ++ [EvSend f].
Proof.
  unfold send_diag_value.
  destruct (decode_diag_index i); cbn; eexists; reflexivity.
Qed.

(** The DIAG_VALUE_REQ label has no test of the broadcast flag: with one
    payload byte or more a frame is handed to the transport, whatever the
    flag. *)
Lemma diag_value_req_answers_any_destination
    (broadcast : bool) (i : Z) (rest : list Z) (st : state) :
  NoDup mosi_codes ->
  initialized (gate st) = true ->
  exists f,
    response st (mtbbus_received broadcast MTBBUS_CMD_MOSI_DIAG_VALUE_REQ (i :: rest) st)
    = [f].
Proof.
  intros Hnd Hinit.
  rewrite mtbbus_received_initialized by assumption.
  unfold mtbbus_received_switch.
  rewrite (decode_command_label 12 _ Hnd eq_refl). cbn [nth commands].
  rewrite data_len_cons.
  destruct (log_send_diag_value (data_at (i :: rest) 0) (mtbbus_received_prologue st))
    as (f & Hf).
  rewrite log_prologue, <- app_assoc in Hf.
  exists f. rewrite (response_app _ _ _ Hf), frames_app, frames_prologue_events.
  reflexivity.
Qed.

(** ** The transition system *)

Lemma run_app (evs1 evs2 : list sys_event) (st : state) :
  run (evs1 ++ evs2) st = run evs2 (run evs1 st).
Proof. unfold run. apply fold_left_app. Qed.

Lemma run_cons (e : sys_event) (evs : list sys_event) (st : state) :
  run (e :: evs) st = run evs (step e st).
Proof. reflexivity. Qed.

Lemma step_halted (e : sys_event) (st : state) : halted st = true -> step e st = st.
Proof. intros H. unfold step. rewrite H. reflexivity. Qed.

Lemma run_halted (evs : list sys_event) (st : state) :
  halted st = true -> run evs st = st.
Proof.
  intros H. induction evs as [|e evs IH]; [reflexivity|].
  rewrite run_cons, step_halted; assumption.
Qed.

Lemma step_running (e : sys_event) (st : state) :
  halted st = false ->
  step e st =
  match e with
  | IsrTimer3 m => isr_timer3 m st
  | MainBtn => main_btn st
  | MainAutoSpeed => main_auto_speed st
  | MainInit => main_init st
  | Received b c d => mtbbus_received b c d st
  | BtnPressed => io_btn_pressed st
  | BtnDepressed => io_btn_depressed st
  | InputsDebounced v => set_inputs_logic_state v st
  end.
Proof. intros H. unfold step. rewrite H. reflexivity. Qed.

(** What one tick does to the fields the checks of the main loop read. *)
Lemma isr_timer3_autospeed (m : bool) (st : state) :
  autospeed (isr_timer3 m st) =
  if mtbbus_auto_speed_in_progress (autospeed st)
     && (mtbbus_auto_speed_timer (autospeed st) <? MTBBUS_AUTO_SPEED_TIMEOUT)
  then {| mtbbus_auto_speed_in_progress := mtbbus_auto_speed_in_progress (autospeed st);
          mtbbus_auto_speed_timer := mtbbus_auto_speed_timer (autospeed st) + 1;
          mtbbus_auto_speed_last := mtbbus_auto_speed_last (autospeed st) |}
  else autospeed st.
Proof. unfold isr_timer3. fw_exec; reflexivity. Qed.

Lemma isr_timer3_button (m : bool) (st : state) :
  button (isr_timer3 m st) =
  if btn_pressed (button st) && (btn_press_time (button st) <? BTN_PRESS_1S)
  then {| btn_pressed := btn_pressed (button st);
          btn_press_time := btn_press_time (button st) + 1 |}
  else button st.
Proof. unfold isr_timer3. fw_exec; reflexivity. Qed.

Lemma isr_timer3_gate (m : bool) (st : state) :
  gate (isr_timer3 m st) =
  if _init_counter (gate st) <? INIT_TIME
  then {| initialized := initialized (gate st);
          _init_counter := _init_counter (gate st) + 1 |}
  else gate st.
Proof. unfold isr_timer3. fw_exec; reflexivity. Qed.

Lemma isr_timer3_frame (m : bool) (st : state) :
  log (isr_timer3 m st) = log st /\
  halted (isr_timer3 m st) = halted st /\
  mtbbus_speed (mtbbus (isr_timer3 m st)) = mtbbus_speed (mtbbus st) /\
  config (isr_timer3 m st) = config st.
Proof. unfold isr_timer3. fw_exec; repeat split; reflexivity. Qed.

(** ** Speed autodetection *)

Lemma next_speed_mod (M j : Z) :
  1 <= M < 255 -> 0 <= j ->
  (if u8 (1 + j mod M + 1) >? M then 1 else u8 (1 + j mod M + 1))
  = 1 + (j + 1) mod M.
Proof.
  intros HM Hj. unfold u8.
  pose proof (Z.mod_pos_bound j M ltac:(lia)) as Hr.
  rewrite (Z.mod_small (1 + j mod M + 1)) by lia.
  pose proof (Z.div_mod j M ltac:(lia)) as Hdm.
  destruct (Z.gtb_spec (1 + j mod M + 1) M) as [Hgt|Hle].
  - assert ((j + 1) mod M = 0) as ->; [|reflexivity].
    symmetry. apply (Z.mod_unique_pos _ _ (j / M + 1)); lia.
  - assert ((j + 1) mod M = j mod M + 1) as ->; [|lia].
    symmetry. apply (Z.mod_unique_pos _ _ (j / M)); lia.
Qed.

Lemma mtbbus_auto_speed_next_fields (st : state) :
  let nxt := if u8 (mtbbus_auto_speed_last (autospeed st) + 1) >? MTBBUS_SPEED_MAX
             then MTBBUS_SPEED_38400
             else u8 (mtbbus_auto_speed_last (autospeed st) + 1) in
  autospeed (mtbbus_auto_speed_next st)
  = {| mtbbus_auto_speed_in_progress := mtbbus_auto_speed_in_progress (autospeed st);
       mtbbus_auto_speed_timer := 0;
       mtbbus_auto_speed_last := nxt |} /\
  mtbbus_speed (mtbbus (mtbbus_auto_speed_next st)) = nxt /\
  halted (mtbbus_auto_speed_next st) = halted st /\
  log (mtbbus_auto_speed_next st) = log st ++ [EvSetSpeed nxt].
Proof. unfold mtbbus_auto_speed_next. fw_exec; repeat split; reflexivity. Qed.

Lemma ticks_advance_probe_timer (k : nat) (st : state) :
  halted st = false ->
  mtbbus_auto_speed_in_progress (autospeed st) = true ->
  mtbbus_auto_speed_timer (autospeed st) + Z.of_nat k <= MTBBUS_AUTO_SPEED_TIMEOUT ->
  let st' := run (replicate k (IsrTimer3 false)) st in
  autospeed st'
  = {| mtbbus_auto_speed_in_progress := true;
       mtbbus_auto_speed_timer := mtbbus_auto_speed_timer (autospeed st) + Z.of_nat k;
       mtbbus_auto_speed_last := mtbbus_auto_speed_last (autospeed st) |} /\
  halted st' = false /\
  mtbbus_speed (mtbbus st') = mtbbus_speed (mtbbus st) /\
  log st' = log st.
Proof.
  revert st. induction k as [|k IH]; intros st Hh Hp Ht st'; subst st'.
  - cbn [replicate run fold_left]. rewrite Z.add_0_r, <- Hp.
    destruct (autospeed st); repeat split; assumption || reflexivity.
  - cbn [replicate]. rewrite run_cons, step_running by assumption.
    destruct (isr_timer3_frame false st) as (Hl' & Hh' & Hs' & _).
    pose proof (isr_timer3_autospeed false st) as Ha.
    rewrite Hp in Ha. cbn [andb] in Ha.
    replace (mtbbus_auto_speed_timer (autospeed st) <? MTBBUS_AUTO_SPEED_TIMEOUT)
      with true in Ha by (symmetry; apply Z.ltb_lt; lia).
    destruct (IH (isr_timer3 false st)) as (IHa & IHh & IHs & IHl).
    + congruence.
    + rewrite Ha. reflexivity.
    + rewrite Ha. cbn. lia.
    + rewrite IHa, IHh, IHs, IHl, Hs', Hl', Ha. cbn.
      repeat split. f_equal. lia.
Qed.

(** One elapsed probe timeout moves the probe to the next speed of the
    interval; behind the last speed comes the first one again. *)
Lemma probe_timeout_advances (j : Z) (st : state) :
  MTBBUS_SPEED_38400 = 1 -> 1 <= MTBBUS_SPEED_MAX < 255 -> 0 <= j ->
  halted st = false ->
  autospeed st
  = {| mtbbus_auto_speed_in_progress := true; mtbbus_auto_speed_timer := 0;
       mtbbus_auto_speed_last := 1 + j mod MTBBUS_SPEED_MAX |} ->
  let st' := run probe_timeout st in
  autospeed st'
  = {| mtbbus_auto_speed_in_progress := true; mtbbus_auto_speed_timer := 0;
       mtbbus_auto_speed_last := 1 + (j + 1) mod MTBBUS_SPEED_MAX |} /\
  mtbbus_speed (mtbbus st') = 1 + (j + 1) mod MTBBUS_SPEED_MAX /\
  halted st' = false /\
  log st' = log st ++ [EvSetSpeed (1 + (j + 1) mod MTBBUS_SPEED_MAX)].
Proof.
  intros H1 HM Hj Hh Ha st'. subst st'. unfold probe_timeout.
  rewrite run_app.
  destruct (ticks_advance_probe_timer 20 st) as (Ha' & Hh' & _ & Hl');
    [assumption | rewrite Ha; reflexivity
    | rewrite Ha; unfold MTBBUS_AUTO_SPEED_TIMEOUT; cbn [mtbbus_auto_speed_timer]; lia |].
  set (st1 := run (replicate 20 (IsrTimer3 false)) st) in *.
  rewrite Ha in Ha'. cbn [mtbbus_auto_speed_timer mtbbus_auto_speed_last] in Ha'.
  change (0 + Z.of_nat 20) with 20 in Ha'.
  cbn [run fold_left]. rewrite step_running by assumption.
  unfold main_auto_speed. rewrite Ha'.
  cbn [mtbbus_auto_speed_in_progress mtbbus_auto_speed_timer andb].
  change (20 =? MTBBUS_AUTO_SPEED_TIMEOUT) with true. cbv iota.
  destruct (mtbbus_auto_speed_next_fields st1) as (Hn & Hs & Hhn & Hln).
  rewrite Hn, Hs, Hhn, Hln, Hl', Ha'.
  cbn [mtbbus_auto_speed_in_progress mtbbus_auto_speed_last].
  rewrite H1, next_speed_mod by assumption.
  repeat split; assumption.
Qed.

(** The speeds of the interval, as the probe meets them from the [j]-th
    timeout on. *)
Lemma probe_timeouts_advance (n : nat) (j : Z) (st : state) :
  MTBBUS_SPEED_38400 = 1 -> 1 <= MTBBUS_SPEED_MAX < 255 -> 0 <= j ->
  halted st = false ->
  autospeed st
  = {| mtbbus_auto_speed_in_progress := true; mtbbus_auto_speed_timer := 0;
       mtbbus_auto_speed_last := 1 + j mod MTBBUS_SPEED_MAX |} ->
  mtbbus_speed (mtbbus st) = 1 + j mod MTBBUS_SPEED_MAX ->
  let st' := run (probe_timeouts n) st in
  autospeed st'
  = {| mtbbus_auto_speed_in_progress := true; mtbbus_auto_speed_timer := 0;
       mtbbus_auto_speed_last := 1 + (j + Z.of_nat n) mod MTBBUS_SPEED_MAX |} /\
  mtbbus_speed (mtbbus st') = 1 + (j + Z.of_nat n) mod MTBBUS_SPEED_MAX /\
  halted st' = false /\
  log st' = log st ++
    map (fun k => EvSetSpeed (1 + (j + Z.of_nat k) mod MTBBUS_SPEED_MAX)) (seq 1 n).
Proof.
  intros H1 HM. revert j st.
  induction n as [|n IH]; intros j st Hj Hh Ha Hs st'; subst st'.
  - cbn [probe_timeouts run fold_left seq map].
    rewrite Z.add_0_r, app_nil_r. repeat split; assumption.
  - cbn [probe_timeouts]. rewrite run_app.
    destruct (probe_timeout_advances j st H1 HM Hj Hh Ha) as (Ha' & Hs' & Hh' & Hl').
    destruct (IH (j + 1) (run probe_timeout st)) as (IHa & IHs & IHh & IHl);
      [lia | assumption..|].
    replace (j + Z.of_nat (S n)) with (j + 1 + Z.of_nat n) by lia.
    split; [assumption|]. split; [assumption|]. split; [assumption|].
    rewrite IHl, Hl', <- app_assoc. f_equal.
    cbn [seq map app]. f_equal.
    rewrite <- (seq_shift n 1), map_map. apply map_ext. intros k.
    do 3 f_equal. lia.
Qed.

Lemma autodetect_mtbbus_speed_fields (st : state) :
  MTBBUS_SPEED_38400 = 1 -> 1 <= MTBBUS_SPEED_MAX < 255 ->
  autospeed (autodetect_mtbbus_speed st)
  = {| mtbbus_auto_speed_in_progress := true; mtbbus_auto_speed_timer := 0;
       mtbbus_auto_speed_last := 1 |} /\
  mtbbus_speed (mtbbus (autodetect_mtbbus_speed st)) = 1 /\
  halted (autodetect_mtbbus_speed st) = halted st /\
  log (autodetect_mtbbus_speed st) = log st ++ [EvLedBlueOn; EvSetSpeed 1].
Proof.
  intros H1 HM. unfold autodetect_mtbbus_speed, mtbbus_auto_speed_next.
  fw_exec.
  - exfalso. change (u8 (0 + 1)) with 1 in Hb. apply Z.gtb_lt in Hb. lia.
  - cbn. rewrite <- app_assoc. repeat split; reflexivity.
Qed.

(** What the [switch] leaves alone. *)
Lemma switch_autospeed (b : bool) (c : Z) (data : list Z) (p : state) :
  autospeed (mtbbus_received_switch b c data p) = autospeed p.
Proof.
  unfold mtbbus_received_switch, module_inquiry, send_diag_value, invalid_msg.
  destruct (decode_command c); fw_exec;
    try match goal with
        | |- context [decode_diag_index ?i] => destruct (decode_diag_index i)
        end; reflexivity.
Qed.

Lemma switch_config_write (b : bool) (c : Z) (data : list Z) (p : state) :
  config_write (config p) = true ->
  config_write (config (mtbbus_received_switch b c data p)) = true.
Proof.
  intros Hw. unfold mtbbus_received_switch, module_inquiry, send_diag_value, invalid_msg.
  destruct (decode_command c); fw_exec;
    try match goal with
        | |- context [decode_diag_index ?i] => destruct (decode_diag_index i)
        end; assumption || reflexivity.
Qed.

Lemma switch_config_mtbbus_speed (b : bool) (c : Z) (data : list Z) (p : state) :
  decode_command c <> CmdChangeSpeed ->
  config_mtbbus_speed (config (mtbbus_received_switch b c data p))
  = config_mtbbus_speed (config p).
Proof.
  intros Hc. unfold mtbbus_received_switch, module_inquiry, send_diag_value, invalid_msg.
  destruct (decode_command c); try congruence; fw_exec;
    try match goal with
        | |- context [decode_diag_index ?i] => destruct (decode_diag_index i)
        end; reflexivity.
Qed.

Lemma prologue_commits_probed_speed (st : state) :
  mtbbus_auto_speed_in_progress (autospeed st) = true ->
  mtbbus_auto_speed_in_progress (autospeed (mtbbus_received_prologue st)) = false /\
  config_mtbbus_speed (config (mtbbus_received_prologue st)) = mtbbus_speed (mtbbus st) /\
  config_write (config (mtbbus_received_prologue st)) = true.
Proof.
  intros Hp. unfold mtbbus_received_prologue. fw_exec; repeat split; reflexivity.
Qed.

(** C4: the autodetection starts at the first speed; every elapsed probe
    timeout without a frame moves it to the next speed of the interval and
    from the last speed back to the first, for any number of timeouts,
    while it stays in progress, so that the transport is switched to the
    speeds in their order, round after round; a frame received while probing ends the
    autodetection, stores the speed the transport runs at into the
    persisted configuration and sets the dirty flag, before the command of
    the frame is dispatched (only a CHANGE_SPEED command then stores its
    own speed). *)
Theorem autodetect_probes_speeds_in_order_until_a_frame
    (n : nat) (st probing : state)
    (broadcast : bool) (command_code : Z) (data : list Z) :
  MTBBUS_SPEED_38400 = 1 ->
  1 <= MTBBUS_SPEED_MAX < 255 ->
  halted st = false ->
  initialized (gate probing) = true ->
  mtbbus_auto_speed_in_progress (autospeed probing) = true ->
  let st0 := autodetect_mtbbus_speed st in
  let stn := run (probe_timeouts n) st0 in
  let st' := mtbbus_received broadcast command_code data probing in
  (mtbbus_auto_speed_in_progress (autospeed st0) = true /\
   mtbbus_speed (mtbbus st0) = MTBBUS_SPEED_38400) /\
  (mtbbus_auto_speed_in_progress (autospeed stn) = true /\
   mtbbus_speed (mtbbus stn) = MTBBUS_SPEED_38400 + Z.of_nat n mod MTBBUS_SPEED_MAX /\
   mtbbus_auto_speed_last (autospeed stn) = mtbbus_speed (mtbbus stn) /\
   emitted st0 stn
   = map (fun k => EvSetSpeed (MTBBUS_SPEED_38400 + Z.of_nat k mod MTBBUS_SPEED_MAX))
         (seq 1 n)) /\
  (mtbbus_auto_speed_in_progress (autospeed st') = false /\
   config_write (config st') = true /\
   config_mtbbus_speed (config (mtbbus_received_prologue probing))
   = mtbbus_speed (mtbbus probing) /\
   (decode_command command_code <> CmdChangeSpeed ->
    config_mtbbus_speed (config st') = mtbbus_speed (mtbbus probing))).
Proof.
  intros H1 HM Hh Hinit Hp st0 stn st'. subst st0 stn st'.
  destruct (autodetect_mtbbus_speed_fields st H1 HM) as (Ha & Hs & Hh0 & _).
  split; [|split].
  - rewrite Ha, Hs, H1. split; reflexivity.
  - destruct (probe_timeouts_advance n 0 (autodetect_mtbbus_speed st) H1 HM)
      as (Han & Hsn & _ & Hln).
    + lia.
    + congruence.
    + rewrite Ha, Z.mod_0_l by lia. reflexivity.
    + rewrite Hs, Z.mod_0_l by lia. reflexivity.
    + rewrite Han, Hsn, H1, (emitted_app _ _ _ Hln). cbn. repeat split.
  - destruct (prologue_commits_probed_speed probing Hp) as (Hq & Hc & Hw).
    rewrite mtbbus_received_initialized by assumption.
    rewrite switch_autospeed.
    split; [assumption|]. split; [apply switch_config_write; assumption|].
    split; [assumption|].
    intros Hc'. rewrite switch_config_mtbbus_speed; assumption.
Qed.

(** ** The button *)

Lemma halted_run_false (evs : list sys_event) (st : state) :
  halted (run evs st) = false -> halted st = false.
Proof.
  intros H. destruct (halted st) eqn:Hh; [|reflexivity].
  rewrite run_halted in H by assumption. congruence.
Qed.

Lemma long_presses_app (l k : list event) :
  long_presses (l ++ k) = (long_presses l + long_presses k)%nat.
Proof. unfold long_presses. rewrite List.filter_app, length_app. reflexivity. Qed.

Lemma short_presses_app (l k : list event) :
  short_presses (l ++ k) = (short_presses l + short_presses k)%nat.
Proof. unfold short_presses. rewrite List.filter_app, length_app. reflexivity. Qed.

Lemma presses_prologue_events (st : state) :
  long_presses (prologue_events st) = 0%nat /\
  short_presses (prologue_events st) = 0%nat.
Proof. unfold prologue_events. repeat case_match; split; reflexivity. Qed.

Lemma button_prologue (st : state) :
  button (mtbbus_received_prologue st) = button st.
Proof. unfold mtbbus_received_prologue. fw_exec; reflexivity. Qed.

Lemma switch_button (b : bool) (c : Z) (data : list Z) (p : state) :
  button (mtbbus_received_switch b c data p) = button p.
Proof.
  unfold mtbbus_received_switch, module_inquiry, send_diag_value, invalid_msg.
  destruct (decode_command c); fw_exec;
    try match goal with
        | |- context [decode_diag_index ?i] => destruct (decode_diag_index i)
        end; reflexivity.
Qed.

(** The dispatcher only appends to the log, and never a button action. *)
Lemma switch_log (b : bool) (c : Z) (data : list Z) (p : state) :
  exists l, log (mtbbus_received_switch b c data p) = log p ++ l /\
            long_presses l = 0%nat /\ short_presses l = 0%nat.
Proof.
  unfold mtbbus_received_switch, module_inquiry, send_diag_value, invalid_msg.
  destruct (decode_command c); fw_exec;
    try match goal with
        | |- context [decode_diag_index ?i] => destruct (decode_diag_index i)
        end;
    first [ exists []; split; [symmetry; apply app_nil_r | split; reflexivity]
          | eexists; split;
            [cbn; rewrite <- ?app_assoc; reflexivity | split; reflexivity] ].
Qed.

Lemma mtbbus_received_button_log (b : bool) (c : Z) (data : list Z) (st : state) :
  button (mtbbus_received b c data st) = button st /\
  exists l, log (mtbbus_received b c data st) = log st ++ l /\
            long_presses l = 0%nat /\ short_presses l = 0%nat.
Proof.
  unfold mtbbus_received. destruct (initialized (gate st)); cbn [negb].
  - rewrite switch_button, button_prologue. split; [reflexivity|].
    destruct (switch_log b c data (mtbbus_received_prologue st)) as (l & Hl & H1 & H2).
    destruct (presses_prologue_events st) as [P1 P2].
    exists (prologue_events st ++ l).
    rewrite Hl, log_prologue, <- app_assoc, long_presses_app, short_presses_app.
    rewrite H1, H2, P1, P2. repeat split.
  - split; [reflexivity|]. exists []. rewrite app_nil_r. repeat split.
Qed.

Lemma main_btn_cases (st : state) :
  btn_pressed (button (main_btn st)) = btn_pressed (button st) /\
  exists l, log (main_btn st) = log st ++ l /\ short_presses l = 0%nat /\
    if btn_press_time (button st) =? BTN_PRESS_1S
    then btn_press_time (button (main_btn st)) = 255 /\ long_presses l = 1%nat
    else btn_press_time (button (main_btn st)) = btn_press_time (button st) /\
         long_presses l = 0%nat.
Proof.
  unfold main_btn, btn_long_press, autodetect_mtbbus_speed, mtbbus_auto_speed_next.
  fw_exec;
    first [ solve [split; [reflexivity|]; exists []; rewrite app_nil_r; repeat split]
          | split; [reflexivity|]; eexists; split;
            [cbn; rewrite <- ?app_assoc; reflexivity
            |split; [reflexivity|split; reflexivity]] ].
Qed.

Lemma main_auto_speed_button_log (st : state) :
  button (main_auto_speed st) = button st /\
  exists l, log (main_auto_speed st) = log st ++ l /\
            long_presses l = 0%nat /\ short_presses l = 0%nat.
Proof.
  unfold main_auto_speed, mtbbus_auto_speed_next.
  fw_exec;
    first [ solve [split; [reflexivity|]; exists []; rewrite app_nil_r; repeat split]
          | split; [reflexivity|]; eexists; split;
            [cbn; rewrite <- ?app_assoc; reflexivity | split; reflexivity] ].
Qed.

Lemma main_init_button_log (st : state) :
  button (main_init st) = button st /\
  exists l, log (main_init st) = log st ++ l /\
            long_presses l = 0%nat /\ short_presses l = 0%nat.
Proof.
  unfold main_init, on_initialized.
  fw_exec;
    first [ solve [split; [reflexivity|]; exists []; rewrite app_nil_r; repeat split]
          | split; [reflexivity|]; eexists; split;
            [cbn; rewrite <- ?app_assoc; reflexivity | split; reflexivity] ].
Qed.

Lemma io_btn_depressed_cases (st : state) :
  btn_press_time (button (io_btn_depressed st)) = btn_press_time (button st) /\
  exists l, log (io_btn_depressed st) = log st ++ l /\ long_presses l = 0%nat /\
    short_presses l = if btn_press_time (button st) <? BTN_PRESS_1S then 1%nat else 0%nat.
Proof.
  unfold io_btn_depressed, btn_on_depressed, btn_short_press,
    autodetect_mtbbus_speed_stop, led_red_ok, update_mtbbus_polarity.
  fw_exec;
    first [ solve [split; [reflexivity|]; exists []; rewrite app_nil_r; repeat split]
          | split; [reflexivity|]; eexists; split;
            [cbn; rewrite <- ?app_assoc; reflexivity | split; reflexivity] ].
Qed.

(** One event of a hold keeps the hold in phase. *)
Lemma hold_step (e : sys_event) (k : Z) (fired : nat) (st : state) :
  is_hold_event e = true ->
  halted st = false ->
  btn_pressed (button st) = true ->
  hold_phase k (btn_press_time (button st)) fired ->
  exists l, log (step e st) = log st ++ l /\ short_presses l = 0%nat /\
    btn_pressed (button (step e st)) = true /\
    hold_phase (k + Z.b2z (is_tick e)) (btn_press_time (button (step e st)))
               (fired + long_presses l).
Proof.
  intros He Hh Hp Hph. rewrite step_running by assumption.
  unfold hold_phase, BTN_PRESS_1S in *.
  destruct e as [m| | | |b c d| | |v]; try discriminate He; cbn [is_tick Z.b2z].
  - destruct (isr_timer3_frame m st) as (Hl & _).
    pose proof (isr_timer3_button m st) as Hb. rewrite Hp in Hb. cbn [andb] in Hb.
    exists []. rewrite app_nil_r, Hb. unfold BTN_PRESS_1S.
    split; [assumption|]. split; [reflexivity|].
    destruct (Z.ltb_spec (btn_press_time (button st)) 100);
      cbn [btn_pressed btn_press_time long_presses List.filter length];
      (split; [assumption || reflexivity|]); lia.
  - destruct (main_btn_cases st) as (Hbp & l & Hl & Hs & Hc).
    exists l. rewrite Hbp. unfold BTN_PRESS_1S in Hc.
    split; [assumption|]. split; [assumption|]. split; [assumption|].
    destruct (Z.eqb_spec (btn_press_time (button st)) 100); lia.
  - destruct (main_auto_speed_button_log st) as (Hb & l & Hl & H1 & H2).
    exists l. rewrite Hb, H1. repeat split; try assumption. lia.
  - destruct (main_init_button_log st) as (Hb & l & Hl & H1 & H2).
    exists l. rewrite Hb, H1. repeat split; try assumption. lia.
  - destruct (mtbbus_received_button_log b c d st) as (Hb & l & Hl & H1 & H2).
    exists l. rewrite Hb, H1. repeat split; try assumption. lia.
  - exists []. rewrite app_nil_r. cbn. repeat split; try assumption. lia.
Qed.

Lemma ticks_cons (e : sys_event) (evs : list sys_event) :
  ticks (e :: evs) = Z.b2z (is_tick e) + ticks evs.
Proof. unfold ticks. cbn [List.filter]. destruct (is_tick e); cbn [length Z.b2z]; lia. Qed.

Lemma hold_invariant (evs : list sys_event) (k : Z) (fired : nat) (st : state) :
  forallb is_hold_event evs = true ->
  halted (run evs st) = false ->
  btn_pressed (button st) = true ->
  hold_phase k (btn_press_time (button st)) fired ->
  exists l, log (run evs st) = log st ++ l /\ short_presses l = 0%nat /\
    hold_phase (k + ticks evs) (btn_press_time (button (run evs st)))
               (fired + long_presses l).
Proof.
  revert k fired st.
  induction evs as [|e evs IH]; intros k fired st Hev Hh Hp Hph.
  - exists []. rewrite app_nil_r. cbn [run fold_left].
    change (ticks []) with 0. rewrite Z.add_0_r, Nat.add_0_r. repeat split. assumption.
  - cbn [forallb] in Hev. apply andb_true_iff in Hev as [He Hev].
    rewrite run_cons in *.
    pose proof (halted_run_false _ _ Hh) as Hh1.
    assert (halted st = false) as Hh0.
    { destruct (halted st) eqn:E; [|reflexivity].
      rewrite step_halted in Hh1 by assumption. congruence. }
    destruct (hold_step e k fired st He Hh0 Hp Hph) as (l1 & Hl1 & Hs1 & Hp1 & Hph1).
    destruct (IH _ _ _ Hev Hh Hp1 Hph1) as (l2 & Hl2 & Hs2 & Hph2).
    exists (l1 ++ l2).
    rewrite Hl2, Hl1, <- app_assoc, short_presses_app, long_presses_app, Hs1, Hs2.
    rewrite ticks_cons, Z.add_assoc, Nat.add_assoc. repeat split. assumption.
Qed.

Lemma io_btn_pressed_fields (st : state) :
  log (io_btn_pressed st) = log st /\
  btn_pressed (button (io_btn_pressed st)) = true /\
  btn_press_time (button (io_btn_pressed st)) = 0.
Proof. repeat split. Qed.

(** C8: in a press-and-release cycle whose hold lasts fewer ticks than the
    threshold, the long press never fires and the short press fires once,
    at the release and not before; in a cycle whose hold reaches the
    threshold, the long press fires exactly once, however long the button
    stays held and however often the main loop passes, and the short
    press does not fire. *)
Theorem button_cycle_fires_exactly_one_action
    (hold : list sys_event) (st : state) :
  forallb is_hold_event hold = true ->
  halted (run (button_cycle hold) st) = false ->
  let held := run (BtnPressed :: hold) st in
  let done := run (button_cycle hold) st in
  (ticks hold < BTN_PRESS_1S ->
     long_presses (emitted st done) = 0%nat /\
     short_presses (emitted st done) = 1%nat /\
     short_presses (emitted st held) = 0%nat) /\
  (BTN_PRESS_1S <= ticks hold ->
     long_presses (emitted st done) = 1%nat /\
     short_presses (emitted st done) = 0%nat).
Proof.
  intros Hev Hh held done. subst held done. unfold button_cycle in *.
  change (BtnPressed :: hold ++ [BtnDepressed; MainBtn])
    with ((BtnPressed :: hold) ++ [BtnDepressed] ++ [MainBtn]) in *.
  rewrite !run_app in *.
  set (st2 := run (BtnPressed :: hold) st) in *.
  set (st3 := run [BtnDepressed] st2) in *.
  pose proof (halted_run_false _ _ Hh) as Hh3.
  pose proof (halted_run_false _ _ Hh3) as Hh2.
  pose proof (halted_run_false _ _ Hh2) as Hh0.
  destruct (io_btn_pressed_fields st) as (Hl1 & Hp1 & Ht1).
  assert (step BtnPressed st = io_btn_pressed st) as Hs1
    by (apply (step_running BtnPressed); assumption).
  destruct (hold_invariant hold 0 0 (io_btn_pressed st)) as (l & Hl & Hs & Hph).
  { assumption. }
  { rewrite <- Hs1. exact Hh2. }
  { assumption. }
  { left. rewrite Ht1. unfold BTN_PRESS_1S. repeat split; lia. }
  rewrite <- Hs1, <- run_cons in Hl, Hph. fold st2 in Hl, Hph.
  rewrite Hs1, Hl1 in Hl. cbn [Nat.add] in Hph. rewrite Z.add_0_l in Hph.
  assert (st3 = io_btn_depressed st2) as E3
    by (apply (step_running BtnDepressed); assumption).
  destruct (io_btn_depressed_cases st2) as (Ht3 & l3 & Hl3 & Hlong3 & Hshort3).
  rewrite <- E3 in Ht3, Hl3.
  assert (run [MainBtn] st3 = main_btn st3) as E4
    by (apply (step_running MainBtn); assumption).
  destruct (main_btn_cases st3) as (_ & l4 & Hl4 & Hshort4 & Hc4).
  rewrite <- E4 in Hl4. rewrite Ht3 in Hc4.
  assert (log (run [MainBtn] st3) = log st ++ (l ++ l3 ++ l4)) as Hlog
    by (rewrite Hl4, Hl3, Hl, <- !app_assoc; reflexivity).
  rewrite (emitted_app _ _ _ Hlog), (emitted_app _ _ _ Hl).
  rewrite !long_presses_app, !short_presses_app, Hs, Hlong3, Hshort3, Hshort4.
  unfold hold_phase, BTN_PRESS_1S in *.
  destruct (Z.eqb_spec (btn_press_time (button st2)) 100) as [E|E];
    destruct (Z.ltb_spec (btn_press_time (button st2)) 100) as [L|L];
    destruct Hc4 as [_ Hlong4]; rewrite Hlong4;
    split; intros Hk; repeat split; lia.
Qed.

(** ** The change-notification tracker *)

Lemma decode_diag_index_state :
  NoDup dv_codes -> decode_diag_index MTBBUS_DV_STATE = DvState.
Proof.
  unfold dv_codes. intros Hnd.
  apply NoDup_cons in Hnd as [Hn _]. rewrite !not_elem_of_cons in Hn.
  destruct Hn as (Hv & _). unfold decode_diag_index.
  rewrite (proj2 (Z.eqb_neq _ _)) by congruence. rewrite Z.eqb_refl. reflexivity.
Qed.

Lemma frame_diag_state (buf : list Z) (c i v : Z) :
  (4 <= length buf)%nat ->
  frame_of (<[3%nat := v]> (<[0%nat := 2 + 1]> (<[2%nat := i]> (<[1%nat := c]> buf))))
  = [3; c; i; v].
Proof. destruct buf as [|? [|? [|? [|? ?]]]]; cbn; intros; try lia; reflexivity. Qed.

Lemma module_inquiry_step (data : list Z) (p : state) :
  NoDup dv_codes ->
  (4 <= length (mtbbus_output_buf (mtbbus p)))%nat ->
  let last_ok := to_bool (Z.land (data_at data 0) 1) in
  let input_due :=
    negb (inputs_logic_state (inputs p) =? inputs_old (inputs p))
    || (last_input_changed (tracker p) && negb last_ok)
    || first_scan (tracker p) in
  let diag_due :=
    negb (mtbbus_warn_flags (mtbbus p) =? mtbbus_warn_flags_old (mtbbus p))
    || (last_diag_changed (tracker p) && negb last_ok) in
  let p' := module_inquiry data p in
  log p' = log p ++
    [EvSend (answer_frame (mtbbus_warn_flags (mtbbus p))
               (if input_due then AnsInputChanged (inputs_logic_state (inputs p))
                else if diag_due then AnsDiagState else AnsAck))] /\
  last_input_changed (tracker p') = input_due /\
  first_scan (tracker p') = first_scan (tracker p) && negb input_due /\
  inputs_old (inputs p') =
    (if input_due then inputs_logic_state (inputs p) else inputs_old (inputs p)) /\
  inputs_logic_state (inputs p') = inputs_logic_state (inputs p) /\
  last_diag_changed (tracker p') =
    last_diag_changed (tracker p) || (negb input_due && diag_due).
Proof.
  intros Hdv Hbuf. unfold module_inquiry, send_diag_value.
  rewrite (decode_diag_index_state Hdv).
  fw_exec; cbn;
    rewrite ?frame_inputs, ?frame_diag_state, ?frame_ack by (assumption || lia);
    rewrite ?orb_false_r, ?orb_true_r, ?andb_false_r, ?andb_true_r;
    repeat split; reflexivity.
Qed.

Lemma prologue_tracker_inputs_mtbbus (st : state) :
  tracker (mtbbus_received_prologue st) = tracker st /\
  inputs (mtbbus_received_prologue st) = inputs st /\
  mtbbus (mtbbus_received_prologue st) = mtbbus st /\
  gate (mtbbus_received_prologue st) = gate st.
Proof. unfold mtbbus_received_prologue. fw_exec; repeat split; reflexivity. Qed.

(** What an accepted module inquiry is answered with, and what it leaves
    in the statics of the tracker. *)
Lemma inquiry_answer (data : list Z) (st : state) :
  NoDup mosi_codes -> NoDup dv_codes ->
  initialized (gate st) = true ->
  (4 <= length (mtbbus_output_buf (mtbbus st)))%nat ->
  1 <= data_len data ->
  let last_ok := to_bool (Z.land (data_at data 0) 1) in
  let input_due :=
    negb (inputs_logic_state (inputs st) =? inputs_old (inputs st))
    || (last_input_changed (tracker st) && negb last_ok)
    || first_scan (tracker st) in
  let diag_due :=
    negb (mtbbus_warn_flags (mtbbus st) =? mtbbus_warn_flags_old (mtbbus st))
    || (last_diag_changed (tracker st) && negb last_ok) in
  let st' := mtbbus_received false MTBBUS_CMD_MOSI_MODULE_INQUIRY data st in
  response st st' =
    [answer_frame (mtbbus_warn_flags (mtbbus st))
       (if input_due then AnsInputChanged (inputs_logic_state (inputs st))
        else if diag_due then AnsDiagState else AnsAck)] /\
  last_input_changed (tracker st') = input_due /\
  first_scan (tracker st') = first_scan (tracker st) && negb input_due /\
  inputs_old (inputs st') =
    (if input_due then inputs_logic_state (inputs st) else inputs_old (inputs st)) /\
  inputs_logic_state (inputs st') = inputs_logic_state (inputs st) /\
  last_diag_changed (tracker st') =
    last_diag_changed (tracker st) || (negb input_due && diag_due).
Proof.
  intros Hnd Hdv Hinit Hbuf Hlen. cbv zeta.
  rewrite mtbbus_received_initialized by assumption.
  unfold mtbbus_received_switch.
  rewrite (decode_command_label 0 _ Hnd eq_refl). cbn [nth commands negb andb].
  apply Z.leb_le in Hlen. rewrite Hlen.
  destruct (prologue_tracker_inputs_mtbbus st) as (Ht & Hi & Hm & _).
  pose proof (module_inquiry_step data (mtbbus_received_prologue st) Hdv) as Hstep.
  cbv zeta in Hstep. rewrite Ht, Hi, Hm in Hstep.
  destruct (Hstep Hbuf) as (Hlog & Hrest).
  split; [|exact Hrest].
  rewrite log_prologue, <- app_assoc in Hlog.
  rewrite (response_app _ _ _ Hlog), frames_app, frames_prologue_events.
  reflexivity.
Qed.

Lemma switch_gate (b : bool) (c : Z) (data : list Z) (p : state) :
  gate (mtbbus_received_switch b c data p) = gate p.
Proof.
  unfold mtbbus_received_switch, module_inquiry, send_diag_value, invalid_msg.
  destruct (decode_command c); fw_exec;
    try match goal with
        | |- context [decode_diag_index ?i] => destruct (decode_diag_index i)
        end; reflexivity.
Qed.

Lemma switch_buf_length (b : bool) (c : Z) (data : list Z) (p : state) :
  length (mtbbus_output_buf (mtbbus (mtbbus_received_switch b c data p)))
  = length (mtbbus_output_buf (mtbbus p)).
Proof.
  unfold mtbbus_received_switch, module_inquiry, send_diag_value, invalid_msg.
  destruct (decode_command c); fw_exec;
    try match goal with
        | |- context [decode_diag_index ?i] => destruct (decode_diag_index i)
        end;
    cbn; unfold memcpy; rewrite ?length_insert, ?length_inserts, ?length_insert;
    reflexivity.
Qed.

Lemma mtbbus_received_gate_buf (b : bool) (c : Z) (data : list Z) (st : state) :
  gate (mtbbus_received b c data st) = gate st /\
  length (mtbbus_output_buf (mtbbus (mtbbus_received b c data st)))
  = length (mtbbus_output_buf (mtbbus st)).
Proof.
  unfold mtbbus_received. destruct (initialized (gate st)); cbn [negb].
  - rewrite switch_gate, switch_buf_length, buf_prologue.
    destruct (prologue_tracker_inputs_mtbbus st) as (_ & _ & _ & Hg).
    rewrite Hg. split; reflexivity.
  - split; reflexivity.
Qed.

(** The input part of the tracker: an INPUT_CHANGED notification that the
    next poll reports as not received is sent again with the same
    snapshot, as long as the debouncer stores nothing new in between. *)
Lemma input_notification_is_repeated (data1 data2 : list Z) (st : state) :
  NoDup mosi_codes -> NoDup dv_codes ->
  initialized (gate st) = true ->
  (4 <= length (mtbbus_output_buf (mtbbus st)))%nat ->
  1 <= data_len data1 -> 1 <= data_len data2 ->
  let st1 := mtbbus_received false MTBBUS_CMD_MOSI_MODULE_INQUIRY data1 st in
  let st2 := mtbbus_received false MTBBUS_CMD_MOSI_MODULE_INQUIRY data2 st1 in
  last_input_changed (tracker st1) = true ->
  to_bool (Z.land (data_at data2 0) 1) = false ->
  response st1 st2
  = [answer_frame (mtbbus_warn_flags (mtbbus st1))
       (AnsInputChanged (inputs_logic_state (inputs st)))] /\
  response st st1 = response st1 st2.
Proof.
  intros Hnd Hdv Hinit Hbuf Hl1 Hl2 st1 st2 Hsent Hnot. subst st2.
  destruct (inquiry_answer data1 st Hnd Hdv Hinit Hbuf Hl1)
    as (Hr1 & Hlic & _ & _ & Hils & _).
  fold st1 in Hr1, Hlic, Hils.
  rewrite Hlic in Hsent. rewrite Hsent in Hr1.
  destruct (mtbbus_received_gate_buf false MTBBUS_CMD_MOSI_MODULE_INQUIRY data1 st)
    as (Hg1 & Hb1).
  fold st1 in Hg1, Hb1.
  assert (initialized (gate st1) = true) as Hinit1 by (rewrite Hg1; assumption).
  assert (4 <= length (mtbbus_output_buf (mtbbus st1)))%nat as Hbuf1
    by (rewrite Hb1; assumption).
  destruct (inquiry_answer data2 st1 Hnd Hdv Hinit1 Hbuf1 Hl2) as (Hr2 & _).
  rewrite Hlic, Hsent, Hnot in Hr2. cbn [negb andb orb] in Hr2.
  rewrite orb_true_r in Hr2. cbn [orb] in Hr2. rewrite Hils in Hr2.
  split; [exact Hr2|]. rewrite Hr1, Hr2. reflexivity.
Qed.

(** ** Violations of the request table *)

Lemma data_len_nonneg (data : list Z) : 0 <= data_len data.
Proof. unfold data_len. lia. Qed.

(** Apart from the broadcast flag of DIAG_VALUE_REQ, the guards of the
    [switch] are those of the request table: a unicast request that
    violates the table is answered by exactly the "unknown command" ERROR
    frame. *)
Lemma unicast_violation_answered_with_unknown_command
    (c : Z) (data : list Z) (st : state) :
  initialized (gate st) = true ->
  (3 <= length (mtbbus_output_buf (mtbbus st)))%nat ->
  spec_violation (decode_command c) false data = true ->
  response st (mtbbus_received false c data st)
  = [[2; MTBBUS_CMD_MISO_ERROR; MTBBUS_ERROR_UNKNOWN_COMMAND]].
Proof.
  intros Hinit Hbuf Hv.
  rewrite mtbbus_received_initialized by assumption.
  pose proof (data_len_nonneg data) as Hnn.
  assert (log (invalid_msg false (mtbbus_received_prologue st))
          = log st ++ prologue_events st ++
            [EvSend [2; MTBBUS_CMD_MISO_ERROR; MTBBUS_ERROR_UNKNOWN_COMMAND]]) as Hlog.
  { unfold invalid_msg. cbn [negb].
    rewrite log_send_error by (rewrite buf_prologue; assumption).
    rewrite log_prologue, <- app_assoc. reflexivity. }
  assert (response st (invalid_msg false (mtbbus_received_prologue st))
          = [[2; MTBBUS_CMD_MISO_ERROR; MTBBUS_ERROR_UNKNOWN_COMMAND]]) as Hresp.
  { rewrite (response_app _ _ _ Hlog), frames_app, frames_prologue_events. reflexivity. }
  unfold mtbbus_received_switch, spec_violation in *.
  destruct (decode_command c);
    cbn [spec_min_payload spec_broadcast_allowed negb andb orb] in Hv;
    rewrite ?orb_false_r in Hv; try apply Z.ltb_lt in Hv; try lia;
    cbn [negb andb];
    match goal with
    | |- context [?k <=? data_len data] =>
        replace (k <=? data_len data) with false by (symmetry; apply Z.leb_gt; lia)
    | _ => idtac
    end; cbn [andb]; exact Hresp.
Qed.

(** In particular every code that is no [case] label of the [switch]. *)
Lemma unrecognized_unicast_answered_with_unknown_command
    (c : Z) (data : list Z) (st : state) :
  c ∉ mosi_codes ->
  initialized (gate st) = true ->
  (3 <= length (mtbbus_output_buf (mtbbus st)))%nat ->
  response st (mtbbus_received false c data st)
  = [[2; MTBBUS_CMD_MISO_ERROR; MTBBUS_ERROR_UNKNOWN_COMMAND]].
Proof.
  intros Hc Hinit Hbuf.
  apply unicast_violation_answered_with_unknown_command; try assumption.
  rewrite (decode_command_unknown c Hc). reflexivity.
Qed.

(** ** The initialization gate and the tick counter *)

Lemma gate_step (e : sys_event) (st : state) :
  gate (step e st) = gate st \/
  (exists m, e = IsrTimer3 m /\ _init_counter (gate st) < INIT_TIME /\
     gate (step e st) = {| initialized := initialized (gate st);
                           _init_counter := _init_counter (gate st) + 1 |}) \/
  (e = MainInit /\ _init_counter (gate st) = INIT_TIME /\
     gate (step e st) = {| initialized := true; _init_counter := 255 |}).
Proof.
  unfold step. destruct (halted st); [left; reflexivity|].
  destruct e as [m| | | |b c d| | |v].
  - rewrite isr_timer3_gate.
    destruct (Z.ltb_spec (_init_counter (gate st)) INIT_TIME);
      [right; left; exists m; repeat split; assumption | left; reflexivity].
  - left. unfold main_btn, btn_long_press, autodetect_mtbbus_speed,
      mtbbus_auto_speed_next. fw_exec; reflexivity.
  - left. unfold main_auto_speed, mtbbus_auto_speed_next. fw_exec; reflexivity.
  - unfold main_init, on_initialized.
    destruct (Z.eqb_spec (_init_counter (gate st)) INIT_TIME);
      [right; right; repeat split; assumption | left; reflexivity].
  - left. apply mtbbus_received_gate_buf.
  - left. reflexivity.
  - left. unfold io_btn_depressed, btn_on_depressed, btn_short_press,
      autodetect_mtbbus_speed_stop, led_red_ok, update_mtbbus_polarity.
    fw_exec; reflexivity.
  - left. reflexivity.
Qed.

(** In every run from the booted state the module is initialized only
    once the tick counter has reached its threshold and the main loop has
    latched it at 0xFF. *)
Lemma gate_invariant (evs : list sys_event) (st : state) :
  (initialized (gate st) = false /\ 0 <= _init_counter (gate st) <= INIT_TIME) \/
  (initialized (gate st) = true /\ _init_counter (gate st) = 255) ->
  (initialized (gate (run evs st)) = false /\
   0 <= _init_counter (gate (run evs st)) <= INIT_TIME) \/
  (initialized (gate (run evs st)) = true /\ _init_counter (gate (run evs st)) = 255).
Proof.
  revert st. induction evs as [|e evs IH]; intros st Hst; [exact Hst|].
  rewrite run_cons. apply IH.
  unfold INIT_TIME in *.
  destruct (gate_step e st) as [Hg|[(m & _ & Hlt & Hg)|(_ & Heq & Hg)]];
    rewrite Hg; cbn [initialized _init_counter]; unfold INIT_TIME in *.
  - exact Hst.
  - destruct Hst as [[Hi Hc]|[Hi Hc]]; [left; split; [assumption|lia] | lia].
  - right. split; reflexivity.
Qed.

Lemma not_initialized_below_threshold (evs : list sys_event) (st : state) :
  booted st ->
  _init_counter (gate (run evs st)) < INIT_TIME ->
  initialized (gate (run evs st)) = false.
Proof.
  intros (Hi & Hc & _) Hlt.
  destruct (gate_invariant evs st) as [[H _]|[_ H]].
  - left. rewrite Hi, Hc. unfold INIT_TIME. split; [reflexivity|lia].
  - exact H.
  - unfold INIT_TIME in Hlt. lia.
Qed.

(** ** The flag of the diagnostic retry *)

Lemma switch_last_diag_changed (b : bool) (c : Z) (data : list Z) (p : state) :
  last_diag_changed (tracker p) = true ->
  last_diag_changed (tracker (mtbbus_received_switch b c data p)) = true.
Proof.
  intros Hd. unfold mtbbus_received_switch, module_inquiry, send_diag_value, invalid_msg.
  destruct (decode_command c); fw_exec;
    try match goal with
        | |- context [decode_diag_index ?i] => destruct (decode_diag_index i)
        end; assumption || reflexivity.
Qed.

Lemma step_last_diag_changed (e : sys_event) (st : state) :
  last_diag_changed (tracker st) = true ->
  last_diag_changed (tracker (step e st)) = true.
Proof.
  intros Hd. unfold step. destruct (halted st); [assumption|].
  destruct e as [m| | | |b c d| | |v].
  - unfold isr_timer3. fw_exec; assumption.
  - unfold main_btn, btn_long_press, autodetect_mtbbus_speed, mtbbus_auto_speed_next.
    fw_exec; assumption.
  - unfold main_auto_speed, mtbbus_auto_speed_next. fw_exec; assumption.
  - unfold main_init, on_initialized. fw_exec; assumption.
  - unfold mtbbus_received. destruct (initialized (gate st)); cbn [negb]; [|assumption].
    apply switch_last_diag_changed.
    destruct (prologue_tracker_inputs_mtbbus st) as (Ht & _). rewrite Ht. assumption.
  - assumption.
  - unfold io_btn_depressed, btn_on_depressed, btn_short_press,
      autodetect_mtbbus_speed_stop, led_red_ok, update_mtbbus_polarity.
    fw_exec; assumption.
  - assumption.
Qed.

(** Once a diagnostic push has been sent, [last_diag_changed] stays set:
    no statement of the firmware ever clears it. *)
Lemma last_diag_changed_is_never_cleared (evs : list sys_event) (st : state) :
  last_diag_changed (tracker st) = true ->
  last_diag_changed (tracker (run evs st)) = true.
Proof.
  revert st. induction evs as [|e evs IH]; intros st Hd; [assumption|].
  rewrite run_cons. apply IH, step_last_diag_changed, Hd.
Qed.

(** Hence, whenever inputs and warnings are at rest and no input
    notification is in flight, a poll with a clear bit 0 is answered with
    a diagnostic push, however long ago the last push was acknowledged. *)
Lemma stale_diag_flag_forces_diag_value (data : list Z) (st : state) :
  NoDup mosi_codes -> NoDup dv_codes ->
  initialized (gate st) = true ->
  (4 <= length (mtbbus_output_buf (mtbbus st)))%nat ->
  1 <= data_len data ->
  to_bool (Z.land (data_at data 0) 1) = false ->
  inputs_logic_state (inputs st) = inputs_old (inputs st) ->
  mtbbus_warn_flags (mtbbus st) = mtbbus_warn_flags_old (mtbbus st) ->
  first_scan (tracker st) = false ->
  last_input_changed (tracker st) = false ->
  last_diag_changed (tracker st) = true ->
  response st (mtbbus_received false MTBBUS_CMD_MOSI_MODULE_INQUIRY data st)
  = [answer_frame (mtbbus_warn_flags (mtbbus st)) AnsDiagState].
Proof.
  intros Hnd Hdv Hinit Hbuf Hlen Hbit Hin Hw Hfs Hli Hld.
  destruct (inquiry_answer data st Hnd Hdv Hinit Hbuf Hlen) as (Hr & _).
  rewrite Hr, Hbit, Hin, Hw, Hfs, Hli, Hld, !Z.eqb_refl. reflexivity.
Qed.

End Proofs.

(** * The sample module

    The defects of the dispatcher and the theorems above, run on the
    sample instance. *)

Section Sample.
#[local] Existing Instance sample_hdr.

Lemma sample_mosi_codes_distinct : NoDup mosi_codes.
Proof. apply (bool_decide_unpack _). vm_compute. exact I. Qed.

Lemma sample_dv_codes_distinct : NoDup dv_codes.
Proof. apply (bool_decide_unpack _). vm_compute. exact I. Qed.

Lemma sample_ready_initialized : initialized (gate sample_ready) = true.
Proof. vm_compute. reflexivity. Qed.

Lemma sample_boot_booted : booted sample_boot.
Proof. unfold booted. cbn. repeat split; reflexivity || lia. Qed.

(** C2: a broadcast DIAG_VALUE_REQ with one payload byte is answered: the
    case has no test of the broadcast flag, unlike every other case that
    stages a response, so a DIAG_VALUE frame is staged and handed to the
    transport. *)
Theorem broadcast_diag_value_req_is_answered :
  response sample_ready
    (mtbbus_received true MTBBUS_CMD_MOSI_DIAG_VALUE_REQ [MTBBUS_DV_STATE] sample_ready)
  = [[3; MTBBUS_CMD_MISO_DIAG_VALUE; MTBBUS_DV_STATE; 0]].
Proof. vm_compute. reflexivity. Qed.

(** C6: a broadcast DIAG_VALUE_REQ violates the request table of the
    specification, which allows the request only addressed, and yet the
    dispatcher does not stay silent. *)
Theorem broadcast_violation_diag_value_req_not_silent :
  spec_violation (decode_command MTBBUS_CMD_MOSI_DIAG_VALUE_REQ) true [MTBBUS_DV_VERSION]
  = true /\
  response sample_ready
    (mtbbus_received true MTBBUS_CMD_MOSI_DIAG_VALUE_REQ [MTBBUS_DV_VERSION] sample_ready)
  = [[3; MTBBUS_CMD_MISO_DIAG_VALUE; MTBBUS_DV_VERSION; 16]].
Proof. vm_compute. split; reflexivity. Qed.

(** C1: with inputs and warnings at rest the module answers four polls
    with INPUT_CHANGED (first inquiry), DIAG_VALUE (warning bitset not yet
    reported), ACK, and, when the fourth poll carries a clear bit 0,
    DIAG_VALUE again, although the push was acknowledged by the third poll
    and nothing is pending: [last_diag_changed] is never cleared.  The
    tracker of the specification answers the fourth poll with ACK. *)
Theorem stale_diag_flag_repeats_acknowledged_push :
  let bits := [true; true; true; false] in
  let input_changed := answer_frame 0 (AnsInputChanged 0) in
  let diag_value := answer_frame 0 AnsDiagState in
  let ack := answer_frame 0 AnsAck in
  responses (map inquiry bits) sample_ready
  = [[input_changed]; [diag_value]; [ack]; [diag_value]] /\
  map (answer_frame 0) (spec_answers 0 0 bits (spec_tracker_of sample_ready))
  = [input_changed; diag_value; ack; ack] /\
  last_diag_changed (tracker (run (map inquiry [true; true; true]) sample_ready)) = true.
Proof. vm_compute. repeat split; reflexivity. Qed.

(** ** Where the code departs from the specification by design *)

(** C7, as stated: a unicast CHANGE_SPEED has an acknowledgment and an
    effect, and the effect, the speed switch, is invoked before the
    response is handed over. *)
Lemma change_speed_effect_precedes_response :
  let out := emitted sample_ready
               (mtbbus_received false MTBBUS_CMD_MOSI_CHANGE_SPEED [2] sample_ready) in
  out = [EvLedGreenOn; EvDelayUs 2; EvSetSpeed 2; EvSend [1; MTBBUS_CMD_MISO_ACK]] /\
  response_before_effect out = false.
Proof. vm_compute. split; reflexivity. Qed.

(** C9, as stated: with the output buffer reported busy, the current
    [mtbbus_send_ack] still overwrites the buffer and hands the frame to
    the transport. *)
Lemma busy_buffer_is_overwritten_by_send_ack :
  mtbbus_can_fill_output_buf (mtbbus sample_busy) = false /\
  mtbbus_output_buf (mtbbus (mtbbus_send_ack sample_busy))
  <> mtbbus_output_buf (mtbbus sample_busy) /\
  emitted sample_busy (mtbbus_send_ack sample_busy)
  = [EvSend [1; MTBBUS_CMD_MISO_ACK]].
Proof.
  vm_compute. split; [reflexivity|]. split; [discriminate | reflexivity].
Qed.

(** ** The theorems at concrete inputs

    Each theorem that has hypotheses is applied to the sample module. *)

Lemma request_before_initialization_is_dropped_witness :
  initialized (gate sample_boot) = false /\
  mtbbus_received false MTBBUS_CMD_MOSI_SET_OUTPUT [1; 2; 3; 4] sample_boot = sample_boot /\
  response sample_boot
    (mtbbus_received false MTBBUS_CMD_MOSI_SET_OUTPUT [1; 2; 3; 4] sample_boot) = [].
Proof.
  split; [reflexivity|].
  apply (request_before_initialization_is_dropped
           false MTBBUS_CMD_MOSI_SET_OUTPUT [1; 2; 3; 4] sample_boot).
  reflexivity.
Defined.

Lemma autodetect_probes_speeds_in_order_until_a_frame_witness :
  MTBBUS_SPEED_38400 = 1 /\ 1 <= MTBBUS_SPEED_MAX < 255 /\
  halted sample_ready = false /\
  initialized (gate (autodetect_mtbbus_speed sample_ready)) = true /\
  mtbbus_auto_speed_in_progress (autospeed (autodetect_mtbbus_speed sample_ready)) = true /\
  mtbbus_speed (mtbbus (run (probe_timeouts 6) (autodetect_mtbbus_speed sample_ready)))
  = MTBBUS_SPEED_38400 + 6 mod MTBBUS_SPEED_MAX /\
  emitted (autodetect_mtbbus_speed sample_ready)
    (run (probe_timeouts 6) (autodetect_mtbbus_speed sample_ready))
  = map EvSetSpeed [2; 3; 4; 1; 2; 3] /\
  mtbbus_auto_speed_in_progress
    (autospeed (mtbbus_received false MTBBUS_CMD_MOSI_GET_INPUT []
                  (autodetect_mtbbus_speed sample_ready))) = false.
Proof.
  assert (MTBBUS_SPEED_38400 = 1) as H1 by reflexivity.
  assert (1 <= MTBBUS_SPEED_MAX < 255) as HM by (cbn; lia).
  assert (halted sample_ready = false) as Hh by (vm_compute; reflexivity).
  assert (initialized (gate (autodetect_mtbbus_speed sample_ready)) = true) as Hi
    by (vm_compute; reflexivity).
  assert (mtbbus_auto_speed_in_progress (autospeed (autodetect_mtbbus_speed sample_ready))
          = true) as Hp by (vm_compute; reflexivity).
  pose proof (autodetect_probes_speeds_in_order_until_a_frame
                6 sample_ready (autodetect_mtbbus_speed sample_ready)
                false MTBBUS_CMD_MOSI_GET_INPUT [] H1 HM Hh Hi Hp)
    as (_ & (_ & Hs & _ & Hv) & (Hq & _)).
  repeat split; assumption || apply HM.
Defined.

Lemma set_config_short_rejected_sufficient_stored_witness :
  NoDup mosi_codes /\ initialized (gate sample_ready) = true /\
  (response sample_ready
     (mtbbus_received false MTBBUS_CMD_MOSI_SET_CONFIG (replicate 23 1) sample_ready)
   = [[2; MTBBUS_CMD_MISO_ERROR; MTBBUS_ERROR_UNKNOWN_COMMAND]]) /\
  (config_inputs_delay
     (config (mtbbus_received false MTBBUS_CMD_MOSI_SET_CONFIG
                (replicate 16 1 ++ replicate 8 2) sample_ready))
   = take (NO_INPUTS / 2) (drop NO_OUTPUTS (replicate 16 1 ++ replicate 8 2))).
Proof.
  assert (3 <= length (mtbbus_output_buf (mtbbus sample_ready)))%nat as Hbuf
    by (vm_compute; lia).
  assert (length (config_safe_state (config sample_ready)) = NO_OUTPUTS) as Hs
    by (vm_compute; reflexivity).
  assert (length (config_inputs_delay (config sample_ready)) = (NO_INPUTS / 2)%nat) as Hd
    by (vm_compute; reflexivity).
  split; [exact sample_mosi_codes_distinct|].
  split; [exact sample_ready_initialized|]. split.
  - destruct (set_config_short_rejected_sufficient_stored
                false (replicate 23 1) sample_ready
                sample_mosi_codes_distinct sample_ready_initialized Hbuf Hs Hd)
      as [Hshort _].
    apply Hshort. vm_compute. reflexivity.
  - destruct (set_config_short_rejected_sufficient_stored
                false (replicate 16 1 ++ replicate 8 2) sample_ready
                sample_mosi_codes_distinct sample_ready_initialized Hbuf Hs Hd)
      as [_ Hlong].
    apply Hlong; [vm_compute; discriminate | reflexivity].
Defined.

Lemma response_precedes_output_driver_only_witness :
  NoDup mosi_codes /\ initialized (gate sample_ready) = true /\
  emitted sample_ready
    (mtbbus_received false MTBBUS_CMD_MOSI_SET_OUTPUT [1; 2; 3; 4] sample_ready)
  = prologue_events sample_ready ++
    [EvSend [5; MTBBUS_CMD_MISO_OUTPUT_SET; 1; 2; 3; 4];
     EvOutputsSetZipped [1; 2; 3; 4]].
Proof.
  split; [exact sample_mosi_codes_distinct|].
  split; [exact sample_ready_initialized|].
  assert (2 + length [1; 2; 3; 4] <= length (mtbbus_output_buf (mtbbus sample_ready)))%nat
    as Hfit by (vm_compute; lia).
  assert (data_len [1; 2; 3; 4] < 255) as Hlen by (vm_compute; reflexivity).
  destruct (response_precedes_output_driver_only
              [1; 2; 3; 4] sample_ready
              sample_mosi_codes_distinct sample_ready_initialized Hfit Hlen)
    as (Hset & _).
  apply Hset. vm_compute. discriminate.
Defined.

Lemma button_cycle_fires_exactly_one_action_witness :
  let short_hold := replicate 40 (IsrTimer3 false) ++ [MainBtn] in
  let long_hold :=
    replicate 150 (IsrTimer3 false) ++
    [MainBtn; MainBtn; inquiry true] ++ replicate 30 (IsrTimer3 false) ++ [MainBtn] in
  (short_presses (emitted sample_ready (run (button_cycle short_hold) sample_ready)) = 1%nat /\
   long_presses (emitted sample_ready (run (button_cycle short_hold) sample_ready)) = 0%nat) /\
  (long_presses (emitted sample_ready (run (button_cycle long_hold) sample_ready)) = 1%nat /\
   short_presses (emitted sample_ready (run (button_cycle long_hold) sample_ready)) = 0%nat).
Proof.
  intros short_hold long_hold. split.
  - destruct (button_cycle_fires_exactly_one_action short_hold sample_ready)
      as [Hshort _]; [reflexivity | vm_compute; reflexivity |].
    destruct Hshort as (Hl & Hs & _); [vm_compute; reflexivity|].
    split; assumption.
  - destruct (button_cycle_fires_exactly_one_action long_hold sample_ready)
      as [_ Hlong]; [reflexivity | vm_compute; reflexivity |].
    apply Hlong. vm_compute. discriminate.
Defined.

Lemma busy_buffer_checked_only_by_earlier_revision_witness :
  mtbbus_can_fill_output_buf (mtbbus sample_busy) = false /\
  Earlier.mtbbus_send_ack sample_busy = sample_busy /\
  emitted sample_busy (mtbbus_send_error MTBBUS_ERROR_UNKNOWN_COMMAND sample_busy)
  = [EvSend [2; MTBBUS_CMD_MISO_ERROR; MTBBUS_ERROR_UNKNOWN_COMMAND]].
Proof.
  assert (mtbbus_can_fill_output_buf (mtbbus sample_busy) = false) as Hbusy
    by (vm_compute; reflexivity).
  assert (4 <= length (mtbbus_output_buf (mtbbus sample_busy)))%nat as Hbuf
    by (vm_compute; lia).
  destruct (busy_buffer_checked_only_by_earlier_revision
              MTBBUS_ERROR_UNKNOWN_COMMAND sample_busy Hbusy Hbuf)
    as (Hack & _ & _ & _ & Herr).
  repeat split; assumption.
Defined.

Lemma change_speed_applies_raw_byte_before_ack_witness :
  NoDup mosi_codes /\ initialized (gate sample_ready) = true /\
  config_mtbbus_speed
    (config (mtbbus_received true MTBBUS_CMD_MOSI_CHANGE_SPEED [200] sample_ready)) = 200 /\
  emitted sample_ready
    (mtbbus_received false MTBBUS_CMD_MOSI_CHANGE_SPEED [200] sample_ready)
  = prologue_events sample_ready ++ [EvSetSpeed 200; EvSend [1; MTBBUS_CMD_MISO_ACK]].
Proof.
  assert (2 <= length (mtbbus_output_buf (mtbbus sample_ready)))%nat as Hbuf
    by (vm_compute; lia).
  split; [exact sample_mosi_codes_distinct|].
  split; [exact sample_ready_initialized|]. split.
  - apply (change_speed_applies_raw_byte_before_ack true 200 [] sample_ready
             sample_mosi_codes_distinct sample_ready_initialized Hbuf).
  - apply (change_speed_applies_raw_byte_before_ack false 200 [] sample_ready
             sample_mosi_codes_distinct sample_ready_initialized Hbuf).
Defined.

End Sample.

(** * Further properties of the firmware *)

Section Extras.
Context {hdr : Mtbbus_h}.

(** ** One response per addressed request *)

Lemma switch_unicast_one_frame (c : Z) (data : list Z) (p : state) :
  exists l f, log (mtbbus_received_switch false c data p) = log p ++ l /\ frames l = [f].
Proof.
  unfold mtbbus_received_switch, module_inquiry, send_diag_value, invalid_msg.
  destruct (decode_command c); fw_exec;
    try match goal with
        | |- context [decode_diag_index ?i] => destruct (decode_diag_index i)
        end;
    eexists; eexists; (split; [cbn; rewrite <- ?app_assoc; reflexivity | reflexivity]).
Qed.

(** X1: an initialized module answers every unicast request, whatever its
    command code and payload, with exactly one frame. *)
Theorem unicast_request_gets_exactly_one_frame
    (command_code : Z) (data : list Z) (st : state) :
  initialized (gate st) = true ->
  exists f, response st (mtbbus_received false command_code data st) = [f].
Proof.
  intros Hinit. rewrite mtbbus_received_initialized by assumption.
  destruct (switch_unicast_one_frame command_code data (mtbbus_received_prologue st))
    as (l & f & Hl & Hf).
  rewrite log_prologue, <- app_assoc in Hl.
  exists f. rewrite (response_app _ _ _ Hl), frames_app, frames_prologue_events.
  exact Hf.
Qed.

(** ** What the dispatcher leaves alone *)

Lemma switch_never_touches (b : bool) (c : Z) (data : list Z) (p : state) :
  mtbbus_addr (mtbbus (mtbbus_received_switch b c data p)) = mtbbus_addr (mtbbus p) /\
  inputs_logic_state (inputs (mtbbus_received_switch b c data p))
  = inputs_logic_state (inputs p) /\
  hw (mtbbus_received_switch b c data p) = hw p /\
  mtbbus_warn_flags (mtbbus (mtbbus_received_switch b c data p))
  = mtbbus_warn_flags (mtbbus p).
Proof.
  unfold mtbbus_received_switch, module_inquiry, send_diag_value, invalid_msg.
  destruct (decode_command c); fw_exec;
    try match goal with
        | |- context [decode_diag_index ?i] => destruct (decode_diag_index i)
        end; repeat split; reflexivity.
Qed.

Lemma prologue_never_touches (st : state) :
  hw (mtbbus_received_prologue st) = hw st /\
  button (mtbbus_received_prologue st) = button st.
Proof. unfold mtbbus_received_prologue. fw_exec; repeat split; reflexivity. Qed.

Lemma mtbbus_received_untouched
    (broadcast : bool) (command_code : Z) (data : list Z) (st : state) :
  let st' := mtbbus_received broadcast command_code data st in
  mtbbus_addr (mtbbus st') = mtbbus_addr (mtbbus st) /\
  inputs_logic_state (inputs st') = inputs_logic_state (inputs st) /\
  mtbbus_warn_flags (mtbbus st') = mtbbus_warn_flags (mtbbus st) /\
  gate st' = gate st /\
  button st' = button st.
Proof.
  cbv zeta. unfold mtbbus_received.
  destruct (initialized (gate st)) eqn:Hinit; cbn [negb]; [|repeat split].
  destruct (switch_never_touches broadcast command_code data (mtbbus_received_prologue st))
    as (Ha & Hi & _ & Hw).
  destruct (prologue_tracker_inputs_mtbbus st) as (_ & Hpi & Hpm & Hpg).
  rewrite Ha, Hi, Hw, switch_gate, switch_button, button_prologue, Hpi, Hpm, Hpg.
  repeat split.
Qed.

(** X2: no request, of whatever command code, destination and payload,
    changes the module address, the input snapshot, the warning flags, the
    readiness flag with its counter, or the button state. *)
Theorem dispatcher_never_changes_address_inputs_gate_button
    (broadcast : bool) (command_code : Z) (data : list Z) (st : state) :
  let st' := mtbbus_received broadcast command_code data st in
  mtbbus_addr (mtbbus st') = mtbbus_addr (mtbbus st) /\
  inputs_logic_state (inputs st') = inputs_logic_state (inputs st) /\
  mtbbus_warn_flags (mtbbus st') = mtbbus_warn_flags (mtbbus st) /\
  gate st' = gate st /\
  button st' = button st.
Proof. apply mtbbus_received_untouched. Qed.

(** X3: a request to change the address is never obeyed: addressed and
    with a payload it is answered by the "unsupported command" ERROR frame,
    addressed without payload by the "unknown command" ERROR frame, and
    broadcast it is ignored in silence. *)
Theorem change_addr_is_always_rejected
    (broadcast : bool) (data : list Z) (st : state) :
  NoDup mosi_codes ->
  initialized (gate st) = true ->
  (3 <= length (mtbbus_output_buf (mtbbus st)))%nat ->
  let st' := mtbbus_received broadcast MTBBUS_CMD_MOSI_CHANGE_ADDR data st in
  mtbbus_addr (mtbbus st') = mtbbus_addr (mtbbus st) /\
  response st st' =
    if broadcast then []
    else if 1 <=? data_len data
         then [[2; MTBBUS_CMD_MISO_ERROR; MTBBUS_ERROR_UNSUPPORTED_COMMAND]]
         else [[2; MTBBUS_CMD_MISO_ERROR; MTBBUS_ERROR_UNKNOWN_COMMAND]].
Proof.
  intros Hnd Hinit Hbuf st'. subst st'.
  split; [apply mtbbus_received_untouched|].
  rewrite mtbbus_received_initialized by assumption.
  unfold mtbbus_received_switch.
  rewrite (decode_command_label 8 _ Hnd eq_refl). cbn [nth commands].
  pose proof (log_prologue st) as Hlog. pose proof (buf_prologue st) as Hb.
  assert (forall code,
           response st (mtbbus_send_error code (mtbbus_received_prologue st))
           = [[2; MTBBUS_CMD_MISO_ERROR; code]]) as Herr.
  { intros code. erewrite response_app.
    2:{ rewrite log_send_error by (rewrite Hb; assumption).
        rewrite Hlog, <- app_assoc. reflexivity. }
    rewrite frames_app, frames_prologue_events. reflexivity. }
  unfold invalid_msg.
  destruct broadcast; cbn [negb andb]; rewrite ?andb_false_r, ?andb_true_r.
  - rewrite (response_app _ _ _ Hlog). apply frames_prologue_events.
  - destruct (1 <=? data_len data); apply Herr.
Qed.

(** ** Who writes the configuration and who drives the outputs *)

Lemma switch_config_tables (b : bool) (c : Z) (data : list Z) (p : state) :
  decode_command c <> CmdSetConfig \/ b = true \/ data_len data < 24 ->
  config_safe_state (config (mtbbus_received_switch b c data p))
  = config_safe_state (config p) /\
  config_inputs_delay (config (mtbbus_received_switch b c data p))
  = config_inputs_delay (config p).
Proof.
  intros H. unfold mtbbus_received_switch, module_inquiry, send_diag_value, invalid_msg.
  destruct (decode_command c) eqn:Hc;
    try (fw_exec;
         try match goal with
             | |- context [decode_diag_index ?i] => destruct (decode_diag_index i)
             end; split; reflexivity).
  destruct H as [H|[->|H]]; [congruence| |].
  - rewrite andb_false_r. split; reflexivity.
  - apply Z.leb_gt in H. rewrite H. cbn [andb]. fw_exec; split; reflexivity.
Qed.

(** X4: the persisted safe-state vector and debounce-delay table are
    written by nothing but an addressed SET_CONFIG request of at least 24
    bytes: every other request leaves both as they are. *)
Theorem config_tables_written_only_by_set_config
    (broadcast : bool) (command_code : Z) (data : list Z) (st : state) :
  decode_command command_code <> CmdSetConfig \/ broadcast = true \/ data_len data < 24 ->
  let st' := mtbbus_received broadcast command_code data st in
  config_safe_state (config st') = config_safe_state (config st) /\
  config_inputs_delay (config st') = config_inputs_delay (config st).
Proof.
  intros H st'. subst st'. unfold mtbbus_received.
  destruct (initialized (gate st)); cbn [negb]; [|split; reflexivity].
  destruct (switch_config_tables broadcast command_code data
              (mtbbus_received_prologue st) H) as (Hs & Hd).
  destruct (config_tables_prologue st) as (Hps & Hpd).
  rewrite Hs, Hd, Hps, Hpd. split; reflexivity.
Qed.

Lemma switch_speed (b : bool) (c : Z) (data : list Z) (p : state) :
  decode_command c <> CmdChangeSpeed ->
  mtbbus_speed (mtbbus (mtbbus_received_switch b c data p)) = mtbbus_speed (mtbbus p) /\
  exists l, log (mtbbus_received_switch b c data p) = log p ++ l /\
            speed_switches l = [].
Proof.
  intros Hc. unfold mtbbus_received_switch, module_inquiry, send_diag_value, invalid_msg.
  destruct (decode_command c); try congruence; fw_exec;
    try match goal with
        | |- context [decode_diag_index ?i] => destruct (decode_diag_index i)
        end;
    (split; [reflexivity|]);
    first [ exists []; split; [symmetry; apply app_nil_r | reflexivity]
          | eexists; split; [cbn; rewrite <- ?app_assoc; reflexivity | reflexivity] ].
Qed.

Lemma prologue_idle_config (st : state) :
  mtbbus_auto_speed_in_progress (autospeed st) = false ->
  config (mtbbus_received_prologue st) = config st /\
  speed_switches (prologue_events st) = [].
Proof.
  intros Hp. unfold mtbbus_received_prologue, prologue_events.
  rewrite Hp. fw_exec; split; reflexivity.
Qed.

(** X5: unless it is a CHANGE_SPEED request, a frame received while no
    autodetection runs neither switches the transport speed nor touches the
    persisted speed. *)
Theorem speed_changed_only_by_change_speed
    (broadcast : bool) (command_code : Z) (data : list Z) (st : state) :
  decode_command command_code <> CmdChangeSpeed ->
  mtbbus_auto_speed_in_progress (autospeed st) = false ->
  let st' := mtbbus_received broadcast command_code data st in
  mtbbus_speed (mtbbus st') = mtbbus_speed (mtbbus st) /\
  config_mtbbus_speed (config st') = config_mtbbus_speed (config st) /\
  speed_switches (emitted st st') = [].
Proof.
  intros Hc Hp st'. subst st'. unfold mtbbus_received.
  destruct (initialized (gate st)); cbn [negb];
    [|rewrite emitted_refl; repeat split].
  destruct (switch_speed broadcast command_code data (mtbbus_received_prologue st) Hc)
    as (Hs & l & Hl & Hf).
  destruct (prologue_idle_config st Hp) as (Hcfg & Hpe).
  destruct (prologue_tracker_inputs_mtbbus st) as (_ & _ & Hm & _).
  rewrite Hs, Hm, switch_config_mtbbus_speed, Hcfg by assumption.
  rewrite log_prologue, <- app_assoc in Hl.
  rewrite (emitted_app _ _ _ Hl). unfold speed_switches in *.
  rewrite List.filter_app, Hpe, Hf. repeat split.
Qed.

Lemma driver_calls_prologue (st : state) : driver_calls (prologue_events st) = [].
Proof. unfold prologue_events. repeat case_match; reflexivity. Qed.

Lemma switch_driver_calls (b : bool) (c : Z) (data : list Z) (p : state) :
  exists l, log (mtbbus_received_switch b c data p) = log p ++ l /\
    driver_calls l =
      match decode_command c with
      | CmdSetOutput =>
          if (4 <=? data_len data) && negb b then [EvOutputsSetZipped data] else []
      | CmdResetOutputs => [EvOutputsSetFull (config_safe_state (config p))]
      | _ => []
      end.
Proof.
  unfold mtbbus_received_switch, module_inquiry, send_diag_value, invalid_msg.
  destruct (decode_command c); fw_exec;
    try match goal with
        | |- context [decode_diag_index ?i] => destruct (decode_diag_index i)
        end;
    first [ exists []; split; [symmetry; apply app_nil_r | reflexivity]
          | eexists; split; [cbn; rewrite <- ?app_assoc; reflexivity | reflexivity] ].
Qed.

(** X6: the output driver is invoked by two requests only: once, with the
    payload, by an addressed SET_OUTPUT of at least 4 bytes, and once, with
    the persisted safe state, by RESET_OUTPUTS; a rejected SET_OUTPUT and
    every other request never reach the driver. *)
Theorem output_driver_invoked_only_by_set_and_reset_outputs
    (broadcast : bool) (command_code : Z) (data : list Z) (st : state) :
  initialized (gate st) = true ->
  driver_calls (emitted st (mtbbus_received broadcast command_code data st)) =
    match decode_command command_code with
    | CmdSetOutput =>
        if (4 <=? data_len data) && negb broadcast
        then [EvOutputsSetZipped data] else []
    | CmdResetOutputs => [EvOutputsSetFull (config_safe_state (config st))]
    | _ => []
    end.
Proof.
  intros Hinit. rewrite mtbbus_received_initialized by assumption.
  destruct (switch_driver_calls broadcast command_code data (mtbbus_received_prologue st))
    as (l & Hl & Hd).
  destruct (config_tables_prologue st) as (Hs & _). rewrite Hs in Hd.
  rewrite log_prologue, <- app_assoc in Hl.
  rewrite (emitted_app _ _ _ Hl). unfold driver_calls in *.
  rewrite List.filter_app. fold (driver_calls (prologue_events st)).
  rewrite driver_calls_prologue. exact Hd.
Qed.

(** ** Reading back *)

Lemma frame_config (buf safe delay : list Z) (c : Z) :
  (26 <= length buf)%nat -> length safe = 16%nat -> length delay = 8%nat ->
  frame_of (memcpy (memcpy (<[1%nat := c]> (<[0%nat := 25]> buf)) 2 safe 16) 18 delay 8)
  = 25 :: c :: safe ++ delay.
Proof.
  intros Hb Hs Hd. unfold memcpy.
  rewrite (take_ge safe) by lia. rewrite (take_ge delay) by lia.
  destruct buf as [|b0 [|b1 rest]]; cbn [length] in Hb; try lia.
  cbn [insert list_insert].
  rewrite !list_inserts_cons.
  rewrite <- (take_drop 16 rest).
  rewrite list_inserts_0_r by (rewrite length_take; lia).
  replace 16%nat with (length safe + 0)%nat at 1 by lia.
  rewrite list_inserts_app_r.
  rewrite <- (take_drop 8 (drop 16 rest)).
  rewrite list_inserts_0_r by (rewrite length_take, length_drop; lia).
  unfold frame_of. cbn [nth]. change (S (Z.to_nat 25)) with (2 + 24)%nat.
  cbn [Nat.add take]. do 2 f_equal.
  rewrite app_assoc. apply take_app_length'. rewrite length_app. lia.
Qed.

Lemma be16_bytes (s : Z) :
  0 <= s < 65536 ->
  be16 (Z.land (Z.shiftr s 8) 255) (Z.land s 255) = s.
Proof.
  intros Hs. unfold be16.
  change 255 with (Z.ones 8). rewrite !Z.land_ones, Z.shiftr_div_pow2 by lia.
  change (2 ^ 8) with 256.
  rewrite (Z.mod_small (s / 256)) by (split; [apply Z.div_pos; lia | apply Z.div_lt_upper_bound; lia]).
  pose proof (Z.div_mod s 256 ltac:(lia)). lia.
Qed.

(** X7: what an addressed SET_CONFIG request of at least 24 bytes stores,
    the next GET_CONFIG request reads back: its response is the
    MODULE_CONFIG frame with the first 24 bytes of the SET_CONFIG
    payload. *)
Theorem get_config_returns_what_set_config_stored
    (data any : list Z) (st : state) :
  NoDup mosi_codes ->
  initialized (gate st) = true ->
  (26 <= length (mtbbus_output_buf (mtbbus st)))%nat ->
  length (config_safe_state (config st)) = NO_OUTPUTS ->
  length (config_inputs_delay (config st)) = (NO_INPUTS / 2)%nat ->
  24 <= data_len data ->
  let st1 := mtbbus_received false MTBBUS_CMD_MOSI_SET_CONFIG data st in
  let st2 := mtbbus_received false MTBBUS_CMD_MOSI_GET_CONFIG any st1 in
  response st1 st2 = [25 :: MTBBUS_CMD_MISO_MODULE_CONFIG :: take 24 data].
Proof.
  intros Hnd Hinit Hbuf Hsafe Hdelay Hlen st1 st2. subst st2.
  destruct (mtbbus_received_gate_buf false MTBBUS_CMD_MOSI_SET_CONFIG data st)
    as (Hg1 & Hb1).
  fold st1 in Hg1, Hb1.
  assert (config_safe_state (config st1) = take 16 data /\
          config_inputs_delay (config st1) = take 8 (drop 16 data)) as (Hs1 & Hd1).
  { subst st1. rewrite mtbbus_received_initialized by assumption.
    unfold mtbbus_received_switch.
    rewrite (decode_command_label 2 _ Hnd eq_refl). cbn [nth commands].
    apply Z.leb_le in Hlen. rewrite Hlen. cbn [andb negb].
    destruct (config_tables_prologue st) as (Hs & Hd).
    unfold data_len in Hlen. apply Z.leb_le in Hlen.
    unfold NO_OUTPUTS, NO_INPUTS in *. cbn [Nat.div] in *.
    split; fw_simpl.
    - rewrite Hs. apply memcpy_whole; [assumption | lia].
    - rewrite Hd. apply memcpy_whole; [assumption | rewrite length_drop; lia]. }
  rewrite mtbbus_received_initialized by (rewrite Hg1; assumption).
  unfold mtbbus_received_switch.
  rewrite (decode_command_label 3 _ Hnd eq_refl). cbn [nth commands negb].
  destruct (config_tables_prologue st1) as (Hs & Hd).
  pose proof (log_prologue st1) as Hlog. pose proof (buf_prologue st1) as Hb.
  unfold data_len in Hlen.
  erewrite response_app.
  2:{ fw_simpl. unfold NO_OUTPUTS, NO_INPUTS. cbn [Nat.div Nat.add].
      change (Nat.divmod 16 1 0 1) with (8%nat, 1%nat). cbn [fst].
      rewrite Hb, Hs, Hd, Hs1, Hd1, frame_config, Hlog.
      - rewrite <- app_assoc. reflexivity.
      - lia.
      - rewrite length_take. lia.
      - rewrite length_take, length_drop. lia. }
  rewrite frames_app, frames_prologue_events. cbn [frames omap app].
  do 3 f_equal. rewrite <- (take_drop 16 (take 24 data)) at 1.
  rewrite take_take, take_drop_commute. reflexivity.
Qed.

(** X8: an addressed GET_INPUT request is answered with the live input
    snapshot, high byte first, and leaves the change-notification tracker
    and the last-reported snapshot alone: reading the inputs does not
    count as receipt of a pending notification. *)
Theorem get_input_reports_live_inputs_without_acknowledging
    (data : list Z) (st : state) :
  NoDup mosi_codes ->
  initialized (gate st) = true ->
  (4 <= length (mtbbus_output_buf (mtbbus st)))%nat ->
  0 <= inputs_logic_state (inputs st) < 65536 ->
  let st' := mtbbus_received false MTBBUS_CMD_MOSI_GET_INPUT data st in
  (exists hi lo,
     response st st' = [[3; MTBBUS_CMD_MISO_INPUT_STATE; hi; lo]] /\
     be16 hi lo = inputs_logic_state (inputs st)) /\
  inputs st' = inputs st /\
  tracker st' = tracker st.
Proof.
  intros Hnd Hinit Hbuf Hrange st'. subst st'.
  rewrite mtbbus_received_initialized by assumption.
  unfold mtbbus_received_switch.
  rewrite (decode_command_label 5 _ Hnd eq_refl). cbn [nth commands negb].
  destruct (prologue_tracker_inputs_mtbbus st) as (Ht & Hi & Hm & _).
  split; [|split].
  - eexists _, _. split.
    + erewrite response_app.
      2:{ rewrite log_send_inputs by (rewrite buf_prologue; assumption).
          rewrite log_prologue, <- app_assoc. reflexivity. }
      rewrite frames_app, frames_prologue_events. reflexivity.
    + rewrite Hi. apply be16_bytes. assumption.
  - rewrite <- Hi. reflexivity.
  - rewrite <- Ht. reflexivity.
Qed.

(** ** Reboot *)

Lemma halted_prologue (st : state) :
  halted (mtbbus_received_prologue st) = halted st.
Proof.
  unfold mtbbus_received_prologue, mtbbus_auto_speed_received.
  fw_exec; reflexivity.
Qed.

Lemma effects_prologue_events (st : state) :
  List.filter is_effect (prologue_events st) = [].
Proof. unfold prologue_events. repeat case_match; reflexivity. Qed.

(** X9: an addressed REBOOT request is acknowledged and the jump to the
    bootloader is only registered with the transport, to run once the
    acknowledgment has been sent; a broadcast REBOOT request arms the
    watchdog at once, sends nothing, and nothing runs afterwards. *)
Theorem reboot_is_deferred_when_addressed_and_immediate_when_broadcast
    (data : list Z) (evs : list sys_event) (st : state) :
  NoDup mosi_codes ->
  initialized (gate st) = true ->
  halted st = false ->
  (2 <= length (mtbbus_output_buf (mtbbus st)))%nat ->
  let uni := mtbbus_received false MTBBUS_CMD_MOSI_REBOOT data st in
  let bc := mtbbus_received true MTBBUS_CMD_MOSI_REBOOT data st in
  (response st uni = [[1; MTBBUS_CMD_MISO_ACK]] /\
   mtbbus_on_sent (mtbbus uni) = Some cb_goto_bootloader /\
   halted uni = false /\
   List.filter is_effect (emitted st uni) = []) /\
  (response st bc = [] /\
   halted bc = true /\
   emitted st bc = prologue_events st ++ [EvConfigIntWdrf true; EvWdtEnable] /\
   run evs bc = bc).
Proof.
  intros Hnd Hinit Hrun Hbuf uni bc. subst uni bc.
  rewrite !mtbbus_received_initialized by assumption.
  unfold mtbbus_received_switch.
  rewrite (decode_command_label 11 _ Hnd eq_refl). cbn [nth commands].
  pose proof (log_prologue st) as Hlog.
  pose proof (buf_prologue st) as Hb.
  pose proof (halted_prologue st) as Hh.
  set (p := mtbbus_received_prologue st) in *.
  assert (log (mtbbus_send_ack (set_mtbbus_on_sent (Some cb_goto_bootloader) p))
          = log st ++ prologue_events st ++ [EvSend [1; MTBBUS_CMD_MISO_ACK]]) as Hu.
  { rewrite log_send_ack by (fw_simpl; rewrite Hb; assumption).
    fw_simpl. rewrite Hlog, <- app_assoc. reflexivity. }
  assert (log (goto_bootloader p)
          = log st ++ prologue_events st ++ [EvConfigIntWdrf true; EvWdtEnable]) as Hg.
  { fw_simpl. rewrite Hlog, <- !app_assoc. reflexivity. }
  split; [split; [|split; [|split]] | split; [|split; [|split]]].
  - rewrite (response_app _ _ _ Hu), frames_app, frames_prologue_events. reflexivity.
  - reflexivity.
  - fw_simpl. rewrite Hh. assumption.
  - rewrite (emitted_app _ _ _ Hu), List.filter_app, effects_prologue_events. reflexivity.
  - rewrite (response_app _ _ _ Hg), frames_app, frames_prologue_events. reflexivity.
  - reflexivity.
  - apply (emitted_app _ _ _ Hg).
  - apply run_halted. reflexivity.
Qed.

(** ** Diagnostics and the tracker *)

Lemma decode_diag_index_label (k : nat) (i : Z) :
  NoDup dv_codes -> dv_codes !! k = Some i ->
  decode_diag_index i
  = nth k [DvVersion; DvState; DvUptime; DvWarnings; DvVmcu; DvMtbbusReceived;
           DvMtbbusBadCrc; DvMtbbusSent; DvMtbbusUnsent] DvOther.
Proof.
  intros Hnd Hk. unfold dv_codes in *.
  repeat (apply NoDup_cons in Hnd; destruct Hnd as [? Hnd]).
  repeat match goal with
         | H : _ ∉ _ :: _ |- _ => apply not_elem_of_cons in H; destruct H
         end.
  unfold decode_diag_index.
  do 9 (destruct k as [|k]; [injection Hk as <-;
    repeat match goal with
           | |- context [?a =? ?b] =>
               first [ rewrite (Z.eqb_refl a)
                     | rewrite (proj2 (Z.eqb_neq a b)) by congruence ]
           end; reflexivity|]).
  discriminate Hk.
Qed.

Lemma decode_diag_index_other (i : Z) :
  i ∉ dv_codes -> decode_diag_index i = DvOther.
Proof.
  intros Hi. unfold dv_codes in Hi.
  repeat match goal with
         | H : _ ∉ _ :: _ |- _ => apply not_elem_of_cons in H; destruct H
         end.
  unfold decode_diag_index.
  repeat match goal with
         | |- context [?a =? ?b] => rewrite (proj2 (Z.eqb_neq a b)) by congruence
         end.
  reflexivity.
Qed.

Lemma frame_diag_empty (buf : list Z) (c i : Z) :
  (3 <= length buf)%nat ->
  frame_of (<[0%nat := 2 + 0]> (<[2%nat := i]> (<[1%nat := c]> buf))) = [2; c; i].
Proof.
  intros Hb. destruct buf as [|b0 [|b1 [|b2 rest]]]; cbn [length] in Hb; try lia.
  reflexivity.
Qed.

(** What [send_diag_value] does to the fields the tracker reads. *)
Lemma send_diag_value_marker (i : Z) (p : state) :
  mtbbus_warn_flags (mtbbus (send_diag_value i p)) = mtbbus_warn_flags (mtbbus p) /\
  mtbbus_warn_flags_old (mtbbus (send_diag_value i p))
  = (match decode_diag_index i with
     | DvWarnings | DvOther => mtbbus_warn_flags (mtbbus p)
     | _ => mtbbus_warn_flags_old (mtbbus p)
     end) /\
  tracker (send_diag_value i p) = tracker p /\
  inputs (send_diag_value i p) = inputs p /\
  gate (send_diag_value i p) = gate p /\
  length (mtbbus_output_buf (mtbbus (send_diag_value i p)))
  = length (mtbbus_output_buf (mtbbus p)).
Proof.
  unfold send_diag_value, diag_from_var.
  destruct (decode_diag_index i); fw_simpl;
    repeat split; unfold memcpy;
    rewrite ?length_inserts, ?length_insert; reflexivity.
Qed.

(** X10: reading the full warning bitset, or an index the firmware does
    not know, counts as receipt of the warnings: whatever the warnings
    were, the next inquiry that confirms receipt is answered with a plain
    ACK as long as the inputs stay as reported.  An unknown index is
    answered with a DIAG_VALUE frame that carries no value. *)
Theorem reading_warnings_cancels_the_pending_diag_push
    (broadcast : bool) (i : Z) (rest data : list Z) (st : state) :
  NoDup mosi_codes -> NoDup dv_codes ->
  initialized (gate st) = true ->
  (4 <= length (mtbbus_output_buf (mtbbus st)))%nat ->
  i = MTBBUS_DV_WARNINGS \/ i ∉ dv_codes ->
  inputs_logic_state (inputs st) = inputs_old (inputs st) ->
  first_scan (tracker st) = false ->
  1 <= data_len data ->
  to_bool (Z.land (data_at data 0) 1) = true ->
  let st1 := mtbbus_received broadcast MTBBUS_CMD_MOSI_DIAG_VALUE_REQ (i :: rest) st in
  let st2 := mtbbus_received false MTBBUS_CMD_MOSI_MODULE_INQUIRY data st1 in
  mtbbus_warn_flags_old (mtbbus st1) = mtbbus_warn_flags (mtbbus st) /\
  (i ∉ dv_codes -> response st st1 = [[2; MTBBUS_CMD_MISO_DIAG_VALUE; i]]) /\
  response st1 st2 = [[1; MTBBUS_CMD_MISO_ACK]].
Proof.
  intros Hnd Hdv Hinit Hbuf Hi Hin Hfs Hlen Hok st1 st2.
  assert (decode_diag_index i = DvWarnings \/ decode_diag_index i = DvOther) as Hd.
  { destruct Hi as [-> | Hi].
    - left. apply (decode_diag_index_label 3 _ Hdv eq_refl).
    - right. apply decode_diag_index_other, Hi. }
  assert (st1 = send_diag_value i (mtbbus_received_prologue st)) as Hst1.
  { subst st1. rewrite mtbbus_received_initialized by assumption.
    unfold mtbbus_received_switch.
    rewrite (decode_command_label 12 _ Hnd eq_refl). cbn [nth commands].
    rewrite data_len_cons. reflexivity. }
  destruct (prologue_tracker_inputs_mtbbus st) as (Ht & Hii & Hm & Hg).
  destruct (send_diag_value_marker i (mtbbus_received_prologue st))
    as (Hw & Hwo & Htr & Hinp & Hga & Hbl).
  rewrite <- Hst1, ?Ht, ?Hii, ?Hm, ?Hg in *.
  assert (mtbbus_warn_flags_old (mtbbus st1) = mtbbus_warn_flags (mtbbus st)) as Hold.
  { rewrite Hwo. destruct Hd as [-> | ->]; reflexivity. }
  split; [exact Hold|]. split.
  - intros Hni. rewrite Hst1.
    erewrite response_app.
    2:{ unfold send_diag_value. rewrite (decode_diag_index_other _ Hni).
        fw_simpl. rewrite buf_prologue, frame_diag_empty by lia.
        rewrite log_prologue, <- app_assoc. reflexivity. }
    rewrite frames_app, frames_prologue_events. reflexivity.
  - subst st2.
    destruct (inquiry_answer data st1 Hnd Hdv) as (Hr & _); try assumption.
    { rewrite Hga. assumption. }
    { rewrite Hbl. assumption. }
    rewrite Hr, Hok, Hinp, Htr, Hin, Hfs, Hw, Hold, !Z.eqb_refl.
    cbn [negb andb orb]. rewrite !andb_false_r. reflexivity.
Qed.

(** What an accepted module inquiry leaves in the warning snapshot. *)
Lemma inquiry_marker (data : list Z) (st : state) :
  NoDup mosi_codes ->
  initialized (gate st) = true ->
  1 <= data_len data ->
  let last_ok := to_bool (Z.land (data_at data 0) 1) in
  let input_due :=
    negb (inputs_logic_state (inputs st) =? inputs_old (inputs st))
    || (last_input_changed (tracker st) && negb last_ok)
    || first_scan (tracker st) in
  let diag_due :=
    negb (mtbbus_warn_flags (mtbbus st) =? mtbbus_warn_flags_old (mtbbus st))
    || (last_diag_changed (tracker st) && negb last_ok) in
  let st' := mtbbus_received false MTBBUS_CMD_MOSI_MODULE_INQUIRY data st in
  mtbbus_warn_flags (mtbbus st') = mtbbus_warn_flags (mtbbus st) /\
  mtbbus_warn_flags_old (mtbbus st')
  = (if negb input_due && diag_due then mtbbus_warn_flags (mtbbus st)
     else mtbbus_warn_flags_old (mtbbus st)) /\
  halted st' = halted st.
Proof.
  intros Hnd Hinit Hlen. cbv zeta.
  rewrite mtbbus_received_initialized by assumption.
  unfold mtbbus_received_switch.
  rewrite (decode_command_label 0 _ Hnd eq_refl). cbn [nth commands negb andb].
  apply Z.leb_le in Hlen. rewrite Hlen.
  destruct (prologue_tracker_inputs_mtbbus st) as (Ht & Hi & Hm & _).
  pose proof (halted_prologue st) as Hh.
  rewrite <- Ht, <- Hi, <- Hm, <- Hh.
  generalize (mtbbus_received_prologue st). intros p.
  unfold module_inquiry, send_diag_value.
  fw_exec;
    try match goal with
        | |- context [decode_diag_index ?i] => destruct (decode_diag_index i)
        end; cbn; repeat split; reflexivity.
Qed.

(** The tracker at rest: nothing is due and nothing awaits confirmation
    of the inputs. *)
Lemma inquiry_at_rest (data : list Z) (st : state) :
  NoDup mosi_codes -> NoDup dv_codes ->
  initialized (gate st) = true ->
  (4 <= length (mtbbus_output_buf (mtbbus st)))%nat ->
  1 <= data_len data ->
  to_bool (Z.land (data_at data 0) 1) = true ->
  inputs_logic_state (inputs st) = inputs_old (inputs st) ->
  first_scan (tracker st) = false ->
  mtbbus_warn_flags (mtbbus st) = mtbbus_warn_flags_old (mtbbus st) ->
  let st' := mtbbus_received false MTBBUS_CMD_MOSI_MODULE_INQUIRY data st in
  response st st' = [[1; MTBBUS_CMD_MISO_ACK]] /\
  inputs_logic_state (inputs st') = inputs_old (inputs st') /\
  first_scan (tracker st') = false /\
  mtbbus_warn_flags (mtbbus st') = mtbbus_warn_flags_old (mtbbus st').
Proof.
  intros Hnd Hdv Hinit Hbuf Hlen Hok Hin Hfs Hw st'. subst st'.
  destruct (inquiry_answer data st Hnd Hdv Hinit Hbuf Hlen)
    as (Hr & _ & Hf & Ho & Hl & _).
  destruct (inquiry_marker data st Hnd Hinit Hlen) as (Hw' & Hwo' & _).
  rewrite Hr, Hf, Ho, Hl, Hw', Hwo'.
  rewrite Hok, Hin, Hfs, Hw, !Z.eqb_refl.
  cbn [negb andb orb]. rewrite !andb_false_r. cbn [negb andb orb].
  repeat split; reflexivity.
Qed.

(** X11: with inputs and warnings steady, at most two notifications are
    outstanding: from the third inquiry on, every inquiry that confirms
    receipt is answered with a plain ACK. *)
Theorem confirmed_inquiries_settle_to_ack_after_two
    (n : nat) (st : state) :
  NoDup mosi_codes -> NoDup dv_codes ->
  initialized (gate st) = true ->
  halted st = false ->
  (4 <= length (mtbbus_output_buf (mtbbus st)))%nat ->
  responses (replicate n (inquiry true)) (run [inquiry true; inquiry true] st)
  = replicate n [[1; MTBBUS_CMD_MISO_ACK]].
Proof.
  intros Hnd Hdv Hinit Hrun Hbuf.
  assert (Hdata : 1 <= data_len [Z.b2z true]) by (unfold data_len; cbn [length]; lia).
  assert (Hok : to_bool (Z.land (data_at [Z.b2z true] 0) 1) = true) by reflexivity.
  set (q := fun s : state =>
    initialized (gate s) = true /\ halted s = false /\
    (4 <= length (mtbbus_output_buf (mtbbus s)))%nat).
  assert (Hq : forall s, q s -> q (step (inquiry true) s) /\
            step (inquiry true) s
            = mtbbus_received false MTBBUS_CMD_MOSI_MODULE_INQUIRY [Z.b2z true] s).
  { intros s (Hi & Hh & Hb). unfold inquiry. rewrite step_running by assumption.
    split; [|reflexivity].
    destruct (mtbbus_received_gate_buf false MTBBUS_CMD_MOSI_MODULE_INQUIRY
                [Z.b2z true] s) as (Hg & Hl).
    destruct (inquiry_marker [Z.b2z true] s Hnd Hi Hdata) as (_ & _ & Hh').
    unfold q. rewrite Hg, Hl, Hh'. auto. }
  assert (Hq0 : q st) by (unfold q; auto).
  rewrite !run_cons. cbn [run fold_left].
  destruct (Hq _ Hq0) as (Hq1 & E1).
  destruct (Hq _ Hq1) as (Hq2 & E2).
  set (st1 := step (inquiry true) st) in *.
  set (st2 := step (inquiry true) st1) in *.
  (* after the first inquiry the snapshot is reported and the first scan is over *)
  assert (inputs_logic_state (inputs st1) = inputs_old (inputs st1) /\
          first_scan (tracker st1) = false) as (Hin1 & Hfs1).
  { destruct Hq0 as (Hi & _ & Hb).
    destruct (inquiry_answer [Z.b2z true] st Hnd Hdv Hi Hb Hdata)
      as (_ & _ & Hf & Ho & Hl & _).
    rewrite E1, Hf, Ho, Hl, Hok. cbn [negb andb orb].
    rewrite andb_false_r, orb_false_r.
    destruct (inputs_logic_state (inputs st) =? inputs_old (inputs st)) eqn:E;
      cbn [negb orb andb].
    - apply Z.eqb_eq in E.
      destruct (first_scan (tracker st)); cbn [negb andb]; auto.
    - rewrite andb_false_r. auto. }
  (* after the second the warnings are reported as well *)
  assert (inputs_logic_state (inputs st2) = inputs_old (inputs st2) /\
          first_scan (tracker st2) = false /\
          mtbbus_warn_flags (mtbbus st2) = mtbbus_warn_flags_old (mtbbus st2))
    as (Hin2 & Hfs2 & Hw2).
  { destruct Hq1 as (Hi & _ & Hb).
    destruct (inquiry_answer [Z.b2z true] st1 Hnd Hdv Hi Hb Hdata)
      as (_ & _ & Hf & Ho & Hl & _).
    destruct (inquiry_marker [Z.b2z true] st1 Hnd Hi Hdata) as (Hw' & Hwo' & _).
    rewrite E2, Hf, Ho, Hl, Hw', Hwo', Hok, Hin1, Hfs1, Z.eqb_refl.
    cbn [negb andb orb]. rewrite !andb_false_r, !orb_false_r. cbn [negb andb orb].
    split; [reflexivity|]. split; [reflexivity|].
    destruct (mtbbus_warn_flags (mtbbus st1) =? mtbbus_warn_flags_old (mtbbus st1)) eqn:E;
      cbn [negb]; [apply Z.eqb_eq in E; exact E | reflexivity]. }
  clearbody st2. clear E1 E2 Hin1 Hfs1 Hq1 Hq0 st1.
  revert st2 Hq2 Hin2 Hfs2 Hw2.
  induction n as [|n IH]; intros s Hqs Hin Hfs Hw; [reflexivity|].
  cbn [replicate responses].
  destruct (Hq _ Hqs) as (Hq' & E).
  destruct Hqs as (Hi & _ & Hb).
  destruct (inquiry_at_rest [Z.b2z true] s Hnd Hdv Hi Hb Hdata Hok Hin Hfs Hw)
    as (Hr & Hin' & Hfs' & Hw').
  rewrite <- E in Hr, Hin', Hfs', Hw'.
  rewrite Hr. f_equal. apply IH; assumption.
Qed.

(** What the tick leaves of the fields the tracker reads. *)
Lemma isr_timer3_tracker_view (m : bool) (st : state) :
  tracker (isr_timer3 m st) = tracker st /\
  inputs (isr_timer3 m st) = inputs st /\
  initialized (gate (isr_timer3 m st)) = initialized (gate st) /\
  mtbbus_output_buf (mtbbus (isr_timer3 m st)) = mtbbus_output_buf (mtbbus st) /\
  mtbbus_warn_flags_old (mtbbus (isr_timer3 m st)) = mtbbus_warn_flags_old (mtbbus st) /\
  mtbbus_warn_flags (mtbbus (isr_timer3 m st))
  = (if m then Z.lor (mtbbus_warn_flags (mtbbus st)) MTBBUS_WARN_MISSED_TIMER
     else mtbbus_warn_flags (mtbbus st)).
Proof.
  unfold isr_timer3. destruct m; fw_exec; repeat split; reflexivity.
Qed.

Lemma missed_timer_raises_warning (w M : Z) :
  0 <= w -> 0 < M -> Z.land w M = 0 ->
  Z.lor w M <> w /\ 0 < Z.lor w M.
Proof.
  intros Hw HM Hl. split.
  - intros E.
    assert (Z.land (Z.lor w M) M = M) as H.
    { rewrite Z.land_lor_distr_l, Hl, Z.land_diag. reflexivity. }
    rewrite E, Hl in H. lia.
  - assert (0 <= Z.lor w M) by (apply Z.lor_nonneg; lia).
    assert (Z.lor w M <> 0) by (rewrite Z.lor_eq_0_iff; lia).
    lia.
Qed.

(** X12: a timer deadline missed by the tick raises a warning that the
    next inquiry reports: with the tracker at rest, the inquiry after the
    tick is answered with the DIAG_VALUE frame of the state index, whose
    value says that warnings are present. *)
Theorem missed_timer_deadline_is_reported_at_the_next_inquiry
    (received : bool) (st : state) :
  NoDup mosi_codes -> NoDup dv_codes ->
  initialized (gate st) = true ->
  halted st = false ->
  (4 <= length (mtbbus_output_buf (mtbbus st)))%nat ->
  inputs_logic_state (inputs st) = inputs_old (inputs st) ->
  first_scan (tracker st) = false ->
  last_input_changed (tracker st) = false ->
  mtbbus_warn_flags (mtbbus st) = mtbbus_warn_flags_old (mtbbus st) ->
  0 <= mtbbus_warn_flags (mtbbus st) ->
  0 < MTBBUS_WARN_MISSED_TIMER ->
  Z.land (mtbbus_warn_flags (mtbbus st)) MTBBUS_WARN_MISSED_TIMER = 0 ->
  responses [IsrTimer3 true; inquiry received] st
  = [[]; [[3; MTBBUS_CMD_MISO_DIAG_VALUE; MTBBUS_DV_STATE; 2]]].
Proof.
  intros Hnd Hdv Hinit Hrun Hbuf Hin Hfs Hlic Hw Hw0 HM Hland.
  cbn [responses]. rewrite (step_running (IsrTimer3 true)) by assumption.
  destruct (isr_timer3_frame true st) as (Hlog & Hh & _).
  destruct (isr_timer3_tracker_view true st) as (Ht & Hi & Hg & Hb & Hwo & Hwn).
  destruct (missed_timer_raises_warning _ _ Hw0 HM Hland) as (Hne & Hpos).
  set (st1 := isr_timer3 true st) in *.
  unfold inquiry. rewrite step_running by (rewrite Hh; assumption).
  assert (Hdata : 1 <= data_len [Z.b2z received])
    by (unfold data_len; cbn [length]; lia).
  destruct (inquiry_answer [Z.b2z received] st1 Hnd Hdv) as (Hr & _);
    try assumption; try congruence.
  rewrite Hr, (response_app st st1 []) by (rewrite Hlog, app_nil_r; reflexivity).
  rewrite Ht, Hi, Hin, Hfs, Hlic, Hwo, Hwn, <- Hw, Z.eqb_refl.
  rewrite (proj2 (Z.eqb_neq _ _) Hne).
  cbn [negb andb orb answer_frame frames omap].
  rewrite (proj2 (Z.ltb_lt _ _) Hpos). reflexivity.
Qed.

(** X13: what [init] leaves in the last-reported warning snapshot makes
    the module report itself: the first inquiry after startup is answered
    with the input snapshot and the next one, once receipt is confirmed,
    with the DIAG_VALUE frame of the state index, whether or not a
    warning is raised. *)
Theorem first_inquiries_report_inputs_then_state
    (received : bool) (st : state) :
  NoDup mosi_codes -> NoDup dv_codes ->
  initialized (gate st) = true ->
  halted st = false ->
  (4 <= length (mtbbus_output_buf (mtbbus st)))%nat ->
  first_scan (tracker st) = true ->
  mtbbus_warn_flags_old (mtbbus st) = 255 ->
  0 <= mtbbus_warn_flags (mtbbus st) <= 15 ->
  responses [inquiry received; inquiry true] st
  = [[[3; MTBBUS_CMD_MISO_INPUT_CHANGED;
       Z.land (Z.shiftr (inputs_logic_state (inputs st)) 8) 255;
       Z.land (inputs_logic_state (inputs st)) 255]];
     [[3; MTBBUS_CMD_MISO_DIAG_VALUE; MTBBUS_DV_STATE;
       Z.shiftl (Z.b2z (0 <? mtbbus_warn_flags (mtbbus st))) 1]]].
Proof.
  intros Hnd Hdv Hinit Hrun Hbuf Hfs Hold Hw.
  cbn [responses]. unfold inquiry. rewrite step_running by assumption.
  assert (Hdata : forall b, 1 <= data_len [Z.b2z b])
    by (intros b; unfold data_len; cbn [length]; lia).
  destruct (inquiry_answer [Z.b2z received] st Hnd Hdv Hinit Hbuf (Hdata _))
    as (Hr & Hlic & Hf & Ho & Hl & _).
  destruct (inquiry_marker [Z.b2z received] st Hnd Hinit (Hdata _)) as (Hw' & Hwo' & Hh').
  destruct (mtbbus_received_gate_buf false MTBBUS_CMD_MOSI_MODULE_INQUIRY
              [Z.b2z received] st) as (Hg & Hbl).
  rewrite Hfs, orb_true_r in *. cbn [negb andb] in *.
  set (st1 := mtbbus_received false MTBBUS_CMD_MOSI_MODULE_INQUIRY [Z.b2z received] st) in *.
  rewrite step_running by congruence.
  destruct (inquiry_answer [Z.b2z true] st1 Hnd Hdv) as (Hr2 & _);
    try solve [congruence | apply Hdata | rewrite Hbl; assumption].
  rewrite Hr, Hr2. cbn [answer_frame].
  rewrite Hl, Ho, Z.eqb_refl, Hf, Hw', Hwo', Hold.
  change (to_bool (Z.land (data_at [Z.b2z true] 0) 1)) with true.
  rewrite (proj2 (Z.eqb_neq (mtbbus_warn_flags (mtbbus st)) 255)) by lia.
  cbn [negb andb orb]. rewrite andb_false_r. reflexivity.
Qed.

(** ** The button *)

(** X14: releasing the button after a short hold while the autodetection
    runs cancels it without committing anything: the configuration is not
    touched, the address is not reloaded, and the transport stays at the
    speed that was being probed. *)
Theorem short_press_cancels_autodetection_without_commit (st : state) :
  halted st = false ->
  mtbbus_auto_speed_in_progress (autospeed st) = true ->
  btn_press_time (button st) < BTN_PRESS_1S ->
  let st' := step BtnDepressed st in
  mtbbus_auto_speed_in_progress (autospeed st') = false /\
  config st' = config st /\
  mtbbus st' = mtbbus st /\
  error_flags st' = error_flags st /\
  emitted st st' = [EvBtnShortPress; EvLedBlueOff].
Proof.
  intros Hrun Hprog Hshort st'. subst st'.
  rewrite step_running by assumption.
  unfold io_btn_depressed, btn_on_depressed, btn_short_press,
    autodetect_mtbbus_speed_stop.
  apply Z.ltb_lt in Hshort.
  fw_exec. cbn. repeat split.
  apply (emitted_app st). cbn. rewrite <- app_assoc. reflexivity.
Qed.

(** X15: releasing the button after a short hold while no autodetection
    runs reloads the address from the strap, raises the address error
    exactly when the strap reads zero, refreshes the bus polarity error,
    and starts the red "ok" pulse only for a valid address and only when
    no red pulse is running. *)
Theorem short_press_reloads_the_address (st : state) :
  halted st = false ->
  mtbbus_auto_speed_in_progress (autospeed st) = false ->
  btn_press_time (button st) < BTN_PRESS_1S ->
  let st' := step BtnDepressed st in
  mtbbus_addr (mtbbus st') = io_addr_raw (hw st) /\
  addr_zero (error_flags st') = (io_addr_raw (hw st) =? 0) /\
  bad_mtbbus_polarity (error_flags st') = negb (pin_uart_rx (hw st)) /\
  mtbbus_speed (mtbbus st') = mtbbus_speed (mtbbus st) /\
  config st' = config st /\
  autospeed st' = autospeed st /\
  emitted st st'
  = EvBtnShortPress ::
    (if negb (io_addr_raw (hw st) =? 0) && (led_red_counter (leds st) =? 0)
     then [EvLedRedOn] else []).
Proof.
  intros Hrun Hprog Hshort st'. subst st'.
  rewrite step_running by assumption.
  unfold io_btn_depressed, btn_on_depressed, btn_short_press, led_red_ok,
    update_mtbbus_polarity.
  apply Z.ltb_lt in Hshort.
  destruct (io_addr_raw (hw st) =? 0) eqn:E1,
    (led_red_counter (leds st) =? 0) eqn:E2;
    fw_exec; cbn in *; rewrite ?E1, ?E2 in *; cbn in *; try discriminate;
    repeat split; try assumption;
    try (apply (emitted_app st); cbn; rewrite <- ?app_assoc; reflexivity).
Qed.

Lemma ticks_advance_timeout (m : bool) (k : nat) (st : state) :
  halted st = false ->
  0 <= mtbbus_timeout st <= MTBBUS_TIMEOUT_MAX ->
  let st' := run (replicate k (IsrTimer3 m)) st in
  mtbbus_timeout st' = Z.min MTBBUS_TIMEOUT_MAX (mtbbus_timeout st + Z.of_nat k) /\
  halted st' = false.
Proof.
  revert st. induction k as [|k IH]; intros st Hrun Ht.
  - cbn [replicate run fold_left]. split; [lia | assumption].
  - cbn [replicate]. rewrite run_cons, step_running by assumption.
    destruct (isr_timer3_frame m st) as (_ & Hh & _).
    assert (mtbbus_timeout (isr_timer3 m st)
            = Z.min MTBBUS_TIMEOUT_MAX (mtbbus_timeout st + 1)) as Hto.
    { unfold isr_timer3, MTBBUS_TIMEOUT_MAX in *. fw_exec; cbn; lia. }
    destruct (IH (isr_timer3 m st)) as (Ht' & Hh'); [congruence | lia |].
    split; [|exact Hh']. rewrite Ht', Hto. lia.
Qed.

Lemma timeout_prologue (st : state) :
  mtbbus_timeout (mtbbus_received_prologue st) = 0.
Proof.
  unfold mtbbus_received_prologue, mtbbus_auto_speed_received.
  fw_exec; reflexivity.
Qed.

Lemma switch_timeout (b : bool) (c : Z) (data : list Z) (p : state) :
  mtbbus_timeout (mtbbus_received_switch b c data p) = mtbbus_timeout p.
Proof.
  unfold mtbbus_received_switch, module_inquiry, send_diag_value, invalid_msg.
  destruct (decode_command c); fw_exec;
    try match goal with
        | |- context [decode_diag_index ?i] => destruct (decode_diag_index i)
        end; reflexivity.
Qed.

(** X16: a long press starts the autodetection only when the module has
    not been addressed for a second: when the hold reaches its threshold
    less than a hundred ticks after a received frame, the long press is
    taken but neither the autodetection state nor the transport speed
    changes; a hundred ticks or more after it, the autodetection runs. *)
Theorem long_press_starts_autodetection_only_when_not_addressed
    (broadcast : bool) (command_code : Z) (data : list Z) (m : bool) (k : nat)
    (st : state) :
  initialized (gate st) = true ->
  let st1 := run (replicate k (IsrTimer3 m))
                 (mtbbus_received broadcast command_code data st) in
  halted st1 = false ->
  btn_press_time (button st1) = BTN_PRESS_1S ->
  let st2 := step MainBtn st1 in
  long_presses (emitted st1 st2) = 1%nat /\
  ((k < 100)%nat ->
     autospeed st2 = autospeed st1 /\ mtbbus st2 = mtbbus st1 /\
     emitted st1 st2 = [EvBtnLongPress]) /\
  ((100 <= k)%nat ->
     mtbbus_auto_speed_in_progress (autospeed st2) = true).
Proof.
  intros Hinit st1 Hrun Hbtn st2.
  assert (halted (mtbbus_received broadcast command_code data st) = false) as Hrun0.
  { apply (halted_run_false (replicate k (IsrTimer3 m))). exact Hrun. }
  assert (mtbbus_timeout st1 = Z.min MTBBUS_TIMEOUT_MAX (Z.of_nat k)) as Hto.
  { destruct (ticks_advance_timeout m k
                (mtbbus_received broadcast command_code data st) Hrun0) as (Ht & _).
    - rewrite mtbbus_received_initialized, switch_timeout, timeout_prologue
        by assumption. unfold MTBBUS_TIMEOUT_MAX. lia.
    - fold st1 in Ht. rewrite Ht.
      rewrite mtbbus_received_initialized, switch_timeout, timeout_prologue
        by assumption. reflexivity. }
  subst st2. rewrite step_running by assumption.
  clearbody st1. unfold main_btn. rewrite Hbtn, Z.eqb_refl.
  unfold btn_long_press, mtbbus_addressed, autodetect_mtbbus_speed,
    mtbbus_auto_speed_next, mtbbus_set_speed, MTBBUS_TIMEOUT_MAX in *.
  split; [|split].
  - fw_exec; erewrite emitted_app by (cbn; rewrite <- ?app_assoc; reflexivity);
      reflexivity.
  - intros Hk.
    assert (negb (mtbbus_timeout st1 <? 100) = false) as E
      by (apply negb_false_iff, Z.ltb_lt; lia).
    fw_exec; cbn in *; try congruence.
    repeat split. apply (emitted_app st1). reflexivity.
  - intros Hk.
    assert (negb (mtbbus_timeout st1 <? 100) = true) as E
      by (apply negb_true_iff, Z.ltb_ge; lia).
    fw_exec; cbn in *; congruence.
Qed.

(** ** Invariants of the counters *)

Ltac fw_arith :=
  repeat match goal with
         | H : (_ =? _) = true |- _ => apply Z.eqb_eq in H
         | H : (_ =? _) = false |- _ => apply Z.eqb_neq in H
         | H : (_ <? _) = true |- _ => apply Z.ltb_lt in H
         | H : (_ <? _) = false |- _ => apply Z.ltb_ge in H
         | H : (_ >? _) = true |- _ => rewrite Z.gtb_ltb in H; apply Z.ltb_lt in H
         | H : (_ >? _) = false |- _ => rewrite Z.gtb_ltb in H; apply Z.ltb_ge in H
         | H : negb _ = true |- _ => apply negb_true_iff in H
         | H : negb _ = false |- _ => apply negb_false_iff in H
         | H : _ && _ = true |- _ => apply andb_true_iff in H; destruct H
         end.

Lemma isr_timer3_timeout (m : bool) (st : state) :
  mtbbus_timeout (isr_timer3 m st)
  = (if mtbbus_timeout st <? MTBBUS_TIMEOUT_MAX then mtbbus_timeout st + 1
     else mtbbus_timeout st).
Proof. unfold isr_timer3. fw_exec; reflexivity. Qed.

Lemma counters_isr_timer3 (m : bool) (st : state) :
  counters_in_range st -> counters_in_range (isr_timer3 m st).
Proof.
  unfold counters_in_range, INIT_TIME, MTBBUS_TIMEOUT_MAX, BTN_PRESS_1S,
    MTBBUS_AUTO_SPEED_TIMEOUT.
  intros (Hg & Ht & Hb & Ha).
  rewrite isr_timer3_gate, isr_timer3_button, isr_timer3_autospeed, isr_timer3_timeout.
  unfold INIT_TIME, MTBBUS_TIMEOUT_MAX, BTN_PRESS_1S, MTBBUS_AUTO_SPEED_TIMEOUT.
  destruct (btn_pressed (button st)),
    (mtbbus_auto_speed_in_progress (autospeed st)); cbn [andb];
    repeat match goal with
           | |- context [?a <? ?b] => destruct (Z.ltb_spec a b)
           end; cbn; lia.
Qed.

Lemma counters_received (b : bool) (c : Z) (data : list Z) (st : state) :
  counters_in_range st -> counters_in_range (mtbbus_received b c data st).
Proof.
  intros H. unfold mtbbus_received. destruct (initialized (gate st)); [|exact H].
  cbn [negb]. unfold counters_in_range in *.
  rewrite switch_gate, switch_button, switch_autospeed, switch_timeout, timeout_prologue.
  rewrite button_prologue.
  destruct (prologue_tracker_inputs_mtbbus st) as (_ & _ & _ & ->).
  assert (mtbbus_auto_speed_timer (autospeed (mtbbus_received_prologue st))
          = mtbbus_auto_speed_timer (autospeed st)) as ->.
  { unfold mtbbus_received_prologue, mtbbus_auto_speed_received.
    fw_exec; reflexivity. }
  unfold MTBBUS_TIMEOUT_MAX. intuition lia.
Qed.

Lemma counters_step (e : sys_event) (st : state) :
  counters_in_range st -> counters_in_range (step e st).
Proof.
  intros H. unfold step. destruct (halted st); [exact H|].
  destruct e.
  - apply counters_isr_timer3, H.
  - revert H.
    unfold counters_in_range, main_btn, btn_long_press, autodetect_mtbbus_speed,
      mtbbus_auto_speed_next, mtbbus_set_speed, INIT_TIME, MTBBUS_TIMEOUT_MAX,
      BTN_PRESS_1S, MTBBUS_AUTO_SPEED_TIMEOUT.
    intros H. fw_exec; cbn; intuition lia.
  - revert H.
    unfold counters_in_range, main_auto_speed, mtbbus_auto_speed_next,
      mtbbus_set_speed, INIT_TIME, MTBBUS_TIMEOUT_MAX,
      BTN_PRESS_1S, MTBBUS_AUTO_SPEED_TIMEOUT.
    intros H. fw_exec; cbn; intuition lia.
  - revert H.
    unfold counters_in_range, main_init, on_initialized, INIT_TIME,
      MTBBUS_TIMEOUT_MAX, BTN_PRESS_1S, MTBBUS_AUTO_SPEED_TIMEOUT.
    intros H. fw_exec; cbn; intuition lia.
  - apply counters_received, H.
  - revert H.
    unfold counters_in_range, io_btn_pressed, btn_on_pressed, INIT_TIME,
      MTBBUS_TIMEOUT_MAX, BTN_PRESS_1S, MTBBUS_AUTO_SPEED_TIMEOUT.
    cbn. intuition lia.
  - revert H.
    unfold counters_in_range, io_btn_depressed, btn_on_depressed, btn_short_press,
      autodetect_mtbbus_speed_stop, led_red_ok, update_mtbbus_polarity, INIT_TIME,
      MTBBUS_TIMEOUT_MAX, BTN_PRESS_1S, MTBBUS_AUTO_SPEED_TIMEOUT.
    intros H. fw_exec; cbn; intuition lia.
  - exact H.
Qed.

(** X17: the four counters of the tick never leave the range in which
    the arithmetic on [uint8_t] is exact: whatever happens, each stays
    between zero and its threshold, or is latched at 0xFF. *)
Theorem tick_counters_stay_in_range (evs : list sys_event) (st : state) :
  counters_in_range st -> counters_in_range (run evs st).
Proof.
  revert st. induction evs as [|e evs IH]; intros st H; [exact H|].
  rewrite run_cons. apply IH, counters_step, H.
Qed.

(** ** Invariant of the autodetection *)

Lemma prologue_ends_autodetection (st : state) :
  mtbbus_auto_speed_in_progress (autospeed (mtbbus_received_prologue st)) = false.
Proof.
  unfold mtbbus_received_prologue, mtbbus_auto_speed_received.
  fw_exec; cbn; congruence.
Qed.

Lemma probe_step (e : sys_event) (st : state) :
  MTBBUS_SPEED_38400 = 1 -> 1 <= MTBBUS_SPEED_MAX < 255 ->
  probe_in_range st -> probe_in_range (step e st).
Proof.
  intros H1 HM H. unfold step. destruct (halted st); [exact H|].
  unfold probe_in_range in *.
  destruct e.
  - rewrite isr_timer3_autospeed.
    destruct (isr_timer3_frame tcnt1_mid st) as (_ & _ & -> & _).
    case_match; exact H.
  - unfold main_btn, btn_long_press. fw_exec; try exact H.
    intros _.
    destruct (autodetect_mtbbus_speed_fields
                (emit EvBtnLongPress (set_btn_press_time 255 st)) H1 HM)
      as (-> & -> & _).
    cbn. split; [lia | reflexivity].
  - unfold main_auto_speed. fw_exec; try exact H. fw_arith.
    destruct (H H0) as (Hr & Hs).
    destruct (mtbbus_auto_speed_next_fields st) as (-> & -> & _).
    cbn. intros _. unfold u8.
    rewrite Z.mod_small by lia.
    destruct (Z.gtb_spec (mtbbus_auto_speed_last (autospeed st) + 1) MTBBUS_SPEED_MAX);
      split; (lia || reflexivity).
  - unfold main_init, on_initialized. fw_exec; exact H.
  - unfold mtbbus_received. fw_exec; try exact H.
    rewrite switch_autospeed, prologue_ends_autodetection. discriminate.
  - exact H.
  - unfold io_btn_depressed, btn_on_depressed, btn_short_press,
      autodetect_mtbbus_speed_stop, led_red_ok, update_mtbbus_polarity.
    fw_exec; cbn in *; try exact H; congruence.
  - exact H.
Qed.

(** X18: while the autodetection runs, the transport runs at the speed
    being probed and that speed lies in the interval of supported speeds,
    whatever else happens in between. *)
Theorem probed_speed_stays_in_range (evs : list sys_event) (st : state) :
  MTBBUS_SPEED_38400 = 1 -> 1 <= MTBBUS_SPEED_MAX < 255 ->
  probe_in_range st -> probe_in_range (run evs st).
Proof.
  intros H1 HM. revert st. induction evs as [|e evs IH]; intros st H; [exact H|].
  rewrite run_cons. apply IH, probe_step; assumption.
Qed.

(** ** The initialization gate *)

Lemma halted_step_uninitialized (e : sys_event) (st : state) :
  initialized (gate st) = false -> halted st = false ->
  halted (step e st) = false.
Proof.
  intros Hi Hh. rewrite step_running by assumption.
  destruct e.
  - destruct (isr_timer3_frame tcnt1_mid st) as (_ & -> & _). exact Hh.
  - unfold main_btn, btn_long_press, autodetect_mtbbus_speed, mtbbus_auto_speed_next,
      mtbbus_set_speed. fw_exec; exact Hh.
  - unfold main_auto_speed, mtbbus_auto_speed_next, mtbbus_set_speed.
    fw_exec; exact Hh.
  - unfold main_init, on_initialized. fw_exec; exact Hh.
  - unfold mtbbus_received. rewrite Hi. exact Hh.
  - exact Hh.
  - unfold io_btn_depressed, btn_on_depressed, btn_short_press,
      autodetect_mtbbus_speed_stop, led_red_ok, update_mtbbus_polarity.
    fw_exec; exact Hh.
  - exact Hh.
Qed.

Lemma init_phase_step (e : sys_event) (k : Z) (st : state) :
  0 <= k -> init_phase k st -> init_phase (k + Z.b2z (is_tick e)) (step e st).
Proof.
  intros Hk [(Hi & Hc & Hh) | (Hi & Hle)].
  - pose proof (halted_step_uninitialized e st Hi Hh) as Hh'.
    destruct (is_tick e) eqn:Et; cbn [Z.b2z].
    + destruct e; try discriminate Et.
      left. rewrite step_running in * by assumption.
      rewrite isr_timer3_gate. unfold INIT_TIME in *.
      destruct (Z.ltb_spec (_init_counter (gate st)) 50); cbn;
        (split; [assumption | split; [lia | assumption]]).
    + rewrite Z.add_0_r.
      destruct (gate_step e st) as [Hg | [(m & Hm & _) | (He & Hc' & Hg)]].
      * left. rewrite Hg. auto.
      * subst e. discriminate Et.
      * right. rewrite Hg. cbn. split; [reflexivity | lia].
  - right. split; [|destruct (is_tick e); cbn; lia].
    destruct (gate_step e st) as [-> | [(m & _ & _ & ->) | (_ & _ & ->)]];
      cbn; auto.
Qed.

Lemma init_phase_run (evs : list sys_event) (k : Z) (st : state) :
  0 <= k -> init_phase k st -> init_phase (k + ticks evs) (run evs st).
Proof.
  revert k st. induction evs as [|e evs IH]; intros k st Hk H.
  - unfold ticks. cbn. rewrite Z.add_0_r. exact H.
  - rewrite run_cons, ticks_cons, Z.add_assoc.
    apply IH; [destruct (is_tick e); cbn; lia | apply init_phase_step; assumption].
Qed.

(** X19: the module opens its gate after fifty ticks and not earlier:
    whatever happens after startup, the module is not initialized before
    the fiftieth tick; once fifty ticks have passed, the next pass of the
    main loop over the check finds it initialized; and an open gate never
    closes again. *)
Theorem gate_opens_after_fifty_ticks_and_stays_open
    (evs more : list sys_event) (st : state) :
  booted st ->
  (initialized (gate (run evs st)) = true -> INIT_TIME <= ticks evs) /\
  (INIT_TIME <= ticks evs ->
   initialized (gate (run (evs ++ [MainInit]) st)) = true) /\
  (initialized (gate (run evs st)) = true ->
   initialized (gate (run (evs ++ more) st)) = true).
Proof.
  intros Hb.
  assert (init_phase 0 st) as H0.
  { destruct Hb as (Hi & Hc & _ & _ & _ & _ & _ & _ & _ & _ & _ & Hh).
    left. rewrite Hc. unfold INIT_TIME. auto. }
  pose proof (init_phase_run evs 0 st ltac:(lia) H0) as H. cbn [Z.add] in H.
  assert (0 <= ticks evs) as Hk by (unfold ticks; lia).
  split; [|split].
  - intros Hi. destruct H as [(Hi' & _) | (_ & Hle)]; [congruence | exact Hle].
  - intros Hle. rewrite run_app. cbn [run fold_left].
    destruct H as [(Hi & Hc & Hh) | (Hi & _)].
    + rewrite step_running by assumption. unfold main_init.
      rewrite Hc, Z.min_r, Z.eqb_refl by lia. reflexivity.
    + destruct (gate_step MainInit (run evs st))
        as [-> | [(m & _ & _ & ->) | (_ & _ & ->)]]; cbn; auto.
  - intros Hi. rewrite run_app.
    pose proof (init_phase_run more (ticks evs) (run evs st) Hk) as Hm.
    destruct Hm as [(Hi' & Hc' & _) | (Hi' & _)]; [| |exact Hi'].
    + destruct H as [(Hn & _) | H]; [congruence | right; exact H].
    + exfalso.
      destruct H as [(Hn & _) | (_ & Hle)]; [congruence|].
      clear Hc'. revert Hi'.
      generalize (run evs st) Hi. clear. intros s Hs.
      induction more as [|e more IH] in s, Hs |- *; [cbn; congruence|].
      rewrite run_cons. apply IH.
      destruct (gate_step e s) as [-> | [(m & _ & _ & ->) | (_ & _ & ->)]];
        cbn; auto.
Qed.

(** ** LED indication *)

(** The blocks of [leds_update], one by one, on an arbitrary state. *)
Lemma leds_green_block (s : state) :
  let g := led_gr_counter (leds s) in
  let s' :=
    if 0 <? led_gr_counter (leds s) then
      let s1 := set_led_gr_counter (led_gr_counter (leds s) - 1) s in
      if led_gr_counter (leds s1) =? LED_GR_OFF then emit EvLedGreenOff s1 else s1
    else s in
  led_gr_counter (leds s') = (if 0 <? g then g - 1 else g) /\
  led_red_counter (leds s') = led_red_counter (leds s) /\
  led_blue_counter (leds s') = led_blue_counter (leds s) /\
  beacon (leds s') = beacon (leds s) /\
  error_flags s' = error_flags s /\
  log s' = log s ++
    (if 0 <? g then if g - 1 =? LED_GR_OFF then [EvLedGreenOff] else [] else []).
Proof.
  cbv zeta.
  destruct (0 <? led_gr_counter (leds s)); [|rewrite app_nil_r; repeat split].
  cbn [leds set_led_gr_counter with_leds led_gr_counter].
  destruct (led_gr_counter (leds s) - 1 =? LED_GR_OFF); cbn;
    rewrite ?app_nil_r; repeat split.
Qed.

Lemma leds_red_block (f : bool) (s : state) :
  let r := led_red_counter (leds s) in
  let r1 := if 0 <? r then r - 1 else r in
  let s' :=
    if 0 <? led_red_counter (leds s) then
      let s1 := set_led_red_counter (led_red_counter (leds s) - 1) s in
      if (negb f && (led_red_counter (leds s1) =? LED_RED_OK_OFF))
         || (f && (led_red_counter (leds s1) =? LED_RED_ERR_OFF))
      then emit EvLedRedOff s1 else s1
    else s in
  let s'' :=
    if f && (led_red_counter (leds s') =? 0) then
      let s2 := set_led_red_counter LED_RED_ERR_ON s' in
      emit EvLedRedOn s2
    else s' in
  led_gr_counter (leds s'') = led_gr_counter (leds s) /\
  led_red_counter (leds s'') = (if f && (r1 =? 0) then LED_RED_ERR_ON else r1) /\
  led_blue_counter (leds s'') = led_blue_counter (leds s) /\
  beacon (leds s'') = beacon (leds s) /\
  error_flags s'' = error_flags s /\
  log s'' = log s ++
    (if 0 <? r
     then if (negb f && (r - 1 =? LED_RED_OK_OFF)) || (f && (r - 1 =? LED_RED_ERR_OFF))
          then [EvLedRedOff] else []
     else []) ++
    (if f && (r1 =? 0) then [EvLedRedOn] else []).
Proof.
  cbv zeta.
  destruct (0 <? led_red_counter (leds s)).
  - cbn [leds set_led_red_counter with_leds led_red_counter].
    destruct (negb f && (led_red_counter (leds s) - 1 =? LED_RED_OK_OFF)
              || f && (led_red_counter (leds s) - 1 =? LED_RED_ERR_OFF));
      cbn;
      destruct (f && (led_red_counter (leds s) - 1 =? 0)); cbn;
      rewrite <- ?app_assoc, ?app_nil_r; repeat split.
  - destruct (f && (led_red_counter (leds s) =? 0)); cbn;
      rewrite ?app_nil_r; repeat split.
Qed.

Lemma leds_blue_block (s : state) :
  let b := led_blue_counter (leds s) in
  let b1 := if 0 <? b then b - 1 else b in
  let s' :=
    if 0 <? led_blue_counter (leds s) then
      let s1 := set_led_blue_counter (led_blue_counter (leds s) - 1) s in
      if led_blue_counter (leds s1) =? LED_BLUE_BEACON_OFF then emit EvLedBlueOff s1 else s1
    else s in
  let s'' :=
    if beacon (leds s') && (led_blue_counter (leds s') =? 0) then
      let s2 := set_led_blue_counter LED_BLUE_BEACON_ON s' in
      emit EvLedBlueOn s2
    else s' in
  led_gr_counter (leds s'') = led_gr_counter (leds s) /\
  led_red_counter (leds s'') = led_red_counter (leds s) /\
  led_blue_counter (leds s'')
  = (if beacon (leds s) && (b1 =? 0) then LED_BLUE_BEACON_ON else b1) /\
  beacon (leds s'') = beacon (leds s) /\
  error_flags s'' = error_flags s /\
  log s'' = log s ++
    (if 0 <? b then if b - 1 =? LED_BLUE_BEACON_OFF then [EvLedBlueOff] else [] else []) ++
    (if beacon (leds s) && (b1 =? 0) then [EvLedBlueOn] else []).
Proof.
  cbv zeta.
  destruct (0 <? led_blue_counter (leds s)).
  - cbn [leds set_led_blue_counter with_leds led_blue_counter].
    destruct (led_blue_counter (leds s) - 1 =? LED_BLUE_BEACON_OFF);
      cbn;
      destruct (beacon (leds s) && (led_blue_counter (leds s) - 1 =? 0)); cbn;
      rewrite <- ?app_assoc, ?app_nil_r; repeat split.
  - destruct (beacon (leds s) && (led_blue_counter (leds s) =? 0)); cbn;
      rewrite ?app_nil_r; repeat split.
Qed.

(** One pass of [leds_update], block by block. *)
Lemma leds_update_step (st : state) :
  let g := led_gr_counter (leds st) in
  let r := led_red_counter (leds st) in
  let b := led_blue_counter (leds st) in
  let f := error_flags_all st in
  let r1 := if 0 <? r then r - 1 else r in
  let b1 := if 0 <? b then b - 1 else b in
  led_gr_counter (leds (leds_update st)) = (if 0 <? g then g - 1 else g) /\
  led_red_counter (leds (leds_update st))
  = (if f && (r1 =? 0) then LED_RED_ERR_ON else r1) /\
  led_blue_counter (leds (leds_update st))
  = (if beacon (leds st) && (b1 =? 0) then LED_BLUE_BEACON_ON else b1) /\
  beacon (leds (leds_update st)) = beacon (leds st) /\
  error_flags (leds_update st) = error_flags st /\
  log (leds_update st)
  = log st ++
    (if 0 <? g then if g - 1 =? LED_GR_OFF then [EvLedGreenOff] else [] else []) ++
    (if 0 <? r
     then if (negb f && (r - 1 =? LED_RED_OK_OFF)) || (f && (r - 1 =? LED_RED_ERR_OFF))
          then [EvLedRedOff] else []
     else []) ++
    (if f && (r1 =? 0) then [EvLedRedOn] else []) ++
    (if 0 <? b then if b - 1 =? LED_BLUE_BEACON_OFF then [EvLedBlueOff] else [] else []) ++
    (if beacon (leds st) && (b1 =? 0) then [EvLedBlueOn] else []).
Proof.
  cbv zeta. unfold leds_update. cbv zeta.
  pose proof (leds_green_block st) as G. cbv zeta in G.
  match type of G with
  | led_gr_counter (leds ?s) = _ /\ _ => set (s1 := s) in *
  end.
  destruct G as (Gg & Gr & Gb & Gbc & Ge & Gl). clearbody s1.
  pose proof (leds_red_block (error_flags_all s1) s1) as R. cbv zeta in R.
  match type of R with
  | led_gr_counter (leds ?s) = _ /\ _ => set (s2 := s) in *
  end.
  destruct R as (Rg & Rr & Rb & Rbc & Re & Rl). clearbody s2.
  pose proof (leds_blue_block s2) as B. cbv zeta in B.
  destruct B as (Bg & Br & Bb & Bbc & Be & Bl).
  assert (error_flags_all s1 = error_flags_all st) as Hf
    by (unfold error_flags_all; rewrite Ge; reflexivity).
  rewrite Bg, Br, Bb, Bbc, Be, Bl, Rg, Rr, Rb, Rbc, Re, Rl, Gg, Gr, Gb, Gbc, Ge, Gl, Hf.
  rewrite <- !app_assoc. repeat split.
Qed.

Lemma leds_updates_S (n : nat) (st : state) :
  leds_updates (S n) st = leds_update (leds_updates n st).
Proof. reflexivity. Qed.

Lemma error_flags_all_leds_updates (n : nat) (st : state) :
  error_flags_all (leds_updates n st) = error_flags_all st /\
  beacon (leds (leds_updates n st)) = beacon (leds st).
Proof.
  induction n as [|n (IHe & IHb)]; [split; reflexivity|].
  rewrite leds_updates_S.
  destruct (leds_update_step (leds_updates n st)) as (_ & _ & _ & Hb & He & _).
  unfold error_flags_all in *. rewrite He, Hb. auto.
Qed.

(** X20: without an error flag and without the beacon, the LED pulses
    run out: each pass of [leds_update] takes one off every running
    counter until it rests at zero, and no pass switches an LED on. *)
Theorem led_pulses_run_out_when_nothing_is_indicated (n : nat) (st : state) :
  error_flags_all st = false ->
  beacon (leds st) = false ->
  0 <= led_gr_counter (leds st) ->
  0 <= led_red_counter (leds st) ->
  0 <= led_blue_counter (leds st) ->
  let st' := leds_updates n st in
  led_gr_counter (leds st') = Z.max 0 (led_gr_counter (leds st) - Z.of_nat n) /\
  led_red_counter (leds st') = Z.max 0 (led_red_counter (leds st) - Z.of_nat n) /\
  led_blue_counter (leds st') = Z.max 0 (led_blue_counter (leds st) - Z.of_nat n) /\
  List.filter is_led_on (emitted st st') = [].
Proof.
  intros Hf Hbc Hg Hr Hb. cbv zeta.
  assert (exists l, log (leds_updates n st) = log st ++ l /\
                    List.filter is_led_on l = [] /\
    led_gr_counter (leds (leds_updates n st))
    = Z.max 0 (led_gr_counter (leds st) - Z.of_nat n) /\
    led_red_counter (leds (leds_updates n st))
    = Z.max 0 (led_red_counter (leds st) - Z.of_nat n) /\
    led_blue_counter (leds (leds_updates n st))
    = Z.max 0 (led_blue_counter (leds st) - Z.of_nat n)) as (l & Hl & Hon & H).
  { induction n as [|n (l & Hl & Hon & Hg' & Hr' & Hb')].
    - exists []. change (leds_updates 0 st) with st. rewrite app_nil_r.
      repeat split; try reflexivity; lia.
    - rewrite leds_updates_S.
      destruct (error_flags_all_leds_updates n st) as (Hfn & Hbn).
      destruct (leds_update_step (leds_updates n st))
        as (Sg & Sr & Sb & _ & _ & Slog).
      cbv zeta in *. rewrite Hfn, Hf, Hbn, Hbc in *. cbn [andb negb orb] in *.
      eexists. split; [rewrite Slog, Hl, <- app_assoc; reflexivity|].
      split.
      + rewrite List.filter_app, Hon. repeat case_match; reflexivity.
      + rewrite Sg, Sr, Sb, Hg', Hr', Hb'.
        repeat match goal with
               | |- context [?a <? ?b] => destruct (Z.ltb_spec a b)
               end; repeat split; lia. }
  repeat split; try apply H. rewrite (emitted_app _ _ _ Hl). exact Hon.
Qed.

Lemma flash_counter_step (y : Z) :
  let x := y mod 100 + 1 in
  (if x - 1 =? 0 then 100 else x - 1) = (y - 1) mod 100 + 1.
Proof.
  cbv zeta. pose proof (Z.mod_pos_bound y 100 ltac:(lia)) as Hm.
  pose proof (Z.div_mod y 100 ltac:(lia)) as Hd.
  destruct (Z.eqb_spec (y mod 100 + 1 - 1) 0) as [E | E].
  - rewrite <- (Z.mod_unique_pos (y - 1) 100 (y / 100 - 1) 99); lia.
  - rewrite <- (Z.mod_unique_pos (y - 1) 100 (y / 100) (y mod 100 - 1)); lia.
Qed.

(** X21: while an error flag is set the red LED flashes without end:
    the red counter never rests, it runs through a period of a hundred
    passes, and therefore the "ok" pulse of a short press cannot start. *)
Theorem red_led_flashes_while_an_error_is_flagged (n : nat) (st : state) :
  error_flags_all st = true ->
  1 <= led_red_counter (leds st) <= 100 ->
  let st' := leds_updates n st in
  led_red_counter (leds st') = (led_red_counter (leds st) - 1 - Z.of_nat n) mod 100 + 1 /\
  led_red_counter (leds (leds_updates 100 st')) = led_red_counter (leds st') /\
  led_red_ok st' = st'.
Proof.
  intros Hf Hr. cbv zeta.
  assert (forall k, led_red_counter (leds (leds_updates k st))
                    = (led_red_counter (leds st) - 1 - Z.of_nat k) mod 100 + 1) as Hk.
  { induction k as [|k IH].
    - change (leds_updates 0 st) with st. rewrite Z.sub_0_r, Z.mod_small; lia.
    - rewrite leds_updates_S.
      destruct (error_flags_all_leds_updates k st) as (Hfk & _).
      destruct (leds_update_step (leds_updates k st)) as (_ & Sr & _).
      cbv zeta in Sr. rewrite Hfk, Hf, IH in Sr. cbn [andb] in Sr.
      rewrite Sr.
      pose proof (Z.mod_pos_bound (led_red_counter (leds st) - 1 - Z.of_nat k) 100
                    ltac:(lia)) as Hm.
      rewrite (proj2 (Z.ltb_lt 0 _)) by lia.
      pose proof (flash_counter_step (led_red_counter (leds st) - 1 - Z.of_nat k)) as Hs.
      cbv zeta in Hs. unfold LED_RED_ERR_ON.
      replace (led_red_counter (leds st) - 1 - Z.of_nat (S k))
        with (led_red_counter (leds st) - 1 - Z.of_nat k - 1) by lia.
      rewrite <- Hs. reflexivity. }
  split; [apply Hk|]. split.
  - assert (leds_updates 100 (leds_updates n st) = leds_updates (100 + n) st) as ->.
    { unfold leds_updates. rewrite Nat.iter_add. reflexivity. }
    rewrite !Hk.
    replace (led_red_counter (leds st) - 1 - Z.of_nat (100 + n))
      with (led_red_counter (leds st) - 1 - Z.of_nat n + (-1) * 100) by lia.
    rewrite Z.mod_add by lia. reflexivity.
  - unfold led_red_ok. rewrite Hk.
    pose proof (Z.mod_pos_bound (led_red_counter (leds st) - 1 - Z.of_nat n) 100
                  ltac:(lia)) as Hm.
    rewrite (proj2 (Z.eqb_neq _ 0)) by lia. reflexivity.
Qed.

Lemma leds_prologue (st : state) :
  led_gr_counter (leds (mtbbus_received_prologue st))
  = (if led_gr_counter (leds st) =? 0 then LED_GR_ON else led_gr_counter (leds st)) /\
  led_red_counter (leds (mtbbus_received_prologue st)) = led_red_counter (leds st) /\
  led_blue_counter (leds (mtbbus_received_prologue st)) = led_blue_counter (leds st) /\
  beacon (leds (mtbbus_received_prologue st)) = beacon (leds st).
Proof.
  unfold mtbbus_received_prologue, mtbbus_auto_speed_received.
  fw_exec; cbn;
    repeat match goal with H : ?c = _ |- context [?c] => rewrite H end;
    repeat split; reflexivity.
Qed.

Lemma switch_leds (b : bool) (c : Z) (data : list Z) (p : state) :
  led_gr_counter (leds (mtbbus_received_switch b c data p)) = led_gr_counter (leds p) /\
  led_red_counter (leds (mtbbus_received_switch b c data p)) = led_red_counter (leds p) /\
  led_blue_counter (leds (mtbbus_received_switch b c data p)) = led_blue_counter (leds p) /\
  exists l, log (mtbbus_received_switch b c data p) = log p ++ l /\
            List.filter is_led_green l = [].
Proof.
  unfold mtbbus_received_switch, module_inquiry, send_diag_value, invalid_msg.
  destruct (decode_command c); fw_exec;
    try match goal with
        | |- context [decode_diag_index ?i] => destruct (decode_diag_index i)
        end;
    (split; [reflexivity|]); (split; [reflexivity|]); (split; [reflexivity|]);
    first [ exists []; split; [symmetry; apply app_nil_r | reflexivity]
          | eexists; split; [cbn; rewrite <- ?app_assoc; reflexivity | reflexivity] ].
Qed.

(** X22: a BEACON request switches the blue flashing on and off: the
    flag follows the payload byte, only an addressed request is
    acknowledged, and the next pass of [leds_update] over a resting blue
    counter starts a flash exactly when the byte was not zero. *)
Theorem beacon_request_controls_the_blue_flashing
    (broadcast : bool) (b : Z) (rest : list Z) (st : state) :
  NoDup mosi_codes ->
  initialized (gate st) = true ->
  (2 <= length (mtbbus_output_buf (mtbbus st)))%nat ->
  led_blue_counter (leds st) = 0 ->
  let st1 := mtbbus_received broadcast MTBBUS_CMD_MOSI_BEACON (b :: rest) st in
  let st2 := leds_update st1 in
  response st st1 = (if broadcast then [] else [[1; MTBBUS_CMD_MISO_ACK]]) /\
  beacon (leds st1) = negb (b =? 0) /\
  led_blue_counter (leds st2) = (if b =? 0 then 0 else LED_BLUE_BEACON_ON) /\
  (In EvLedBlueOn (emitted st1 st2) <-> b <> 0).
Proof.
  intros Hnd Hinit Hbuf Hblue st1 st2.
  destruct (leds_prologue st) as (_ & _ & Hpb & _).
  pose proof (log_prologue st) as Hlog. pose proof (buf_prologue st) as Hb.
  assert (st1 = (if negb broadcast then mtbbus_send_ack else fun s => s)
                  (set_beacon (negb (b =? 0)) (mtbbus_received_prologue st))) as Hst1.
  { subst st1. rewrite mtbbus_received_initialized by assumption.
    unfold mtbbus_received_switch.
    rewrite (decode_command_label 4 _ Hnd eq_refl). cbn [nth commands].
    rewrite data_len_cons. destruct broadcast; reflexivity. }
  assert (beacon (leds st1) = negb (b =? 0) /\ led_blue_counter (leds st1) = 0)
    as (Hbc & Hb1).
  { rewrite Hst1. destruct broadcast; cbn; rewrite Hpb; auto. }
  split; [|split; [exact Hbc|]].
  - rewrite Hst1. destruct broadcast; cbn [negb].
    + erewrite response_app by (cbn; rewrite Hlog; reflexivity).
      apply frames_prologue_events.
    + erewrite response_app.
      2:{ rewrite log_send_ack by (cbn; rewrite Hb; assumption).
          cbn. rewrite Hlog, <- app_assoc. reflexivity. }
      rewrite frames_app, frames_prologue_events. reflexivity.
  - subst st2. destruct (leds_update_step st1) as (_ & _ & Sb & _ & _ & Slog).
    cbv zeta in *. rewrite Hbc, Hb1 in *. cbn [Z.ltb Z.compare Z.eqb andb] in *.
    rewrite andb_true_r in *.
    split.
    + rewrite Sb. destruct (b =? 0); reflexivity.
    + rewrite (emitted_app _ _ _ Slog), !in_app_iff.
      destruct (Z.eqb_spec b 0); cbn [negb];
        repeat case_match; cbn [In]; intuition (discriminate || congruence).
Qed.

(** The green counter and the green LED over [n] passes of
    [leds_update]. *)
Lemma green_pulse (n : nat) (st : state) :
  0 <= led_gr_counter (leds st) ->
  led_gr_counter (leds (leds_updates n st))
  = Z.max 0 (led_gr_counter (leds st) - Z.of_nat n) /\
  exists l, log (leds_updates n st) = log st ++ l /\
    List.filter is_led_green l
    = (if (led_gr_counter (leds st) - Z.of_nat n <=? LED_GR_OFF)
          && (LED_GR_OFF <? led_gr_counter (leds st))
       then [EvLedGreenOff] else []).
Proof.
  intros Hg. induction n as [|n (IHc & l & IHl & IHf)].
  - change (leds_updates 0 st) with st. split; [lia|].
    exists []. rewrite app_nil_r. split; [reflexivity|].
    unfold LED_GR_OFF. cbn [List.filter].
    destruct (Z.leb_spec (led_gr_counter (leds st) - Z.of_nat 0) 2),
      (Z.ltb_spec 2 (led_gr_counter (leds st))); cbn [andb]; try reflexivity; lia.
  - rewrite leds_updates_S.
    destruct (leds_update_step (leds_updates n st)) as (Sg & _ & _ & _ & _ & Slog).
    cbv zeta in *. rewrite IHc in *. unfold LED_GR_OFF in *.
    split.
    + rewrite Sg.
      destruct (Z.ltb_spec 0 (Z.max 0 (led_gr_counter (leds st) - Z.of_nat n))); lia.
    + eexists. split; [rewrite Slog, IHl, <- app_assoc; reflexivity|].
      rewrite !List.filter_app, IHf.
      destruct (Z.leb_spec (led_gr_counter (leds st) - Z.of_nat n) 2),
        (Z.leb_spec (led_gr_counter (leds st) - Z.of_nat (S n)) 2),
        (Z.ltb_spec 2 (led_gr_counter (leds st))),
        (Z.ltb_spec 0 (Z.max 0 (led_gr_counter (leds st) - Z.of_nat n))),
        (Z.eqb_spec (Z.max 0 (led_gr_counter (leds st) - Z.of_nat n) - 1) 2);
        cbn [andb]; try lia;
        repeat case_match; reflexivity.
Qed.

(** X23: the green LED marks traffic with one short pulse: a frame that
    arrives while the green counter rests switches the LED on, a frame
    that arrives during the pulse does not restart it, the third pass of
    [leds_update] switches the LED off, and after the fifth the counter
    rests again. *)
Theorem frame_starts_one_green_pulse
    (broadcast broadcast' : bool) (c c' : Z) (data data' : list Z) (st : state) :
  initialized (gate st) = true ->
  led_gr_counter (leds st) = 0 ->
  let st1 := mtbbus_received broadcast c data st in
  led_gr_counter (leds st1) = LED_GR_ON /\
  List.filter is_led_green (emitted st st1) = [EvLedGreenOn] /\
  List.filter is_led_green (emitted st1 (mtbbus_received broadcast' c' data' st1)) = [] /\
  List.filter is_led_green (emitted st1 (leds_updates 2 st1)) = [] /\
  List.filter is_led_green (emitted st1 (leds_updates 3 st1)) = [EvLedGreenOff] /\
  led_gr_counter (leds (leds_updates 5 st1)) = 0.
Proof.
  intros Hinit Hg st1.
  assert (forall b k d s, initialized (gate s) = true ->
    led_gr_counter (leds (mtbbus_received b k d s))
    = (if led_gr_counter (leds s) =? 0 then LED_GR_ON else led_gr_counter (leds s)) /\
    List.filter is_led_green (emitted s (mtbbus_received b k d s))
    = (if led_gr_counter (leds s) =? 0 then [EvLedGreenOn] else [])) as Hrecv.
  { intros b k d s Hi. rewrite mtbbus_received_initialized by assumption.
    destruct (switch_leds b k d (mtbbus_received_prologue s)) as (-> & _ & _ & l & Hl & Hf).
    destruct (leds_prologue s) as (-> & _).
    split; [reflexivity|].
    rewrite log_prologue, <- app_assoc in Hl.
    rewrite (emitted_app _ _ _ Hl), List.filter_app, Hf. unfold prologue_events.
    repeat case_match; reflexivity. }
  destruct (Hrecv broadcast c data st Hinit) as (Hc1 & He1).
  fold st1 in Hc1, He1. rewrite Hg in Hc1, He1. cbn in Hc1, He1.
  destruct (Hrecv broadcast' c' data' st1) as (_ & He2).
  { unfold st1.
    destruct (mtbbus_received_gate_buf broadcast c data st) as (-> & _). assumption. }
  rewrite Hc1 in He2. cbn in He2.
  assert (0 <= led_gr_counter (leds st1)) as Hpos
    by (rewrite Hc1; unfold LED_GR_ON; lia).
  destruct (green_pulse 2 st1 Hpos) as (_ & l2 & Hl2 & Hf2).
  destruct (green_pulse 3 st1 Hpos) as (_ & l3 & Hl3 & Hf3).
  destruct (green_pulse 5 st1 Hpos) as (Hc5 & _).
  rewrite Hc1 in Hf2, Hf3, Hc5.
  unfold LED_GR_ON, LED_GR_OFF in Hf2, Hf3, Hc5. cbn in Hf2, Hf3, Hc5.
  rewrite (emitted_app _ _ _ Hl2), (emitted_app _ _ _ Hl3).
  repeat split; assumption.
Qed.

(** ** The earlier revision *)

Lemma rev1_inquiry (data : list Z) (st : state) :
  1 <= data_len data ->
  (4 <= length (mtbbus_output_buf (mtbbus st)))%nat ->
  let last_ok := to_bool (Z.land (data_at data 0) 1) in
  let input_due :=
    negb (inputs_logic_state (inputs st) =? inputs_old (inputs st))
    || (last_input_changed (tracker st) && negb last_ok) in
  let st' := Rev1.mtbbus_received false MTBBUS_CMD_MOSI_MODULE_INQUIRY data st in
  response st st'
  = (if mtbbus_can_fill_output_buf (mtbbus st)
     then [answer_frame 0 (if input_due then AnsInputChanged (inputs_logic_state (inputs st))
                           else AnsAck)]
     else []) /\
  last_input_changed (tracker st') = input_due /\
  inputs_old (inputs st')
  = (if input_due then inputs_logic_state (inputs st) else inputs_old (inputs st)) /\
  inputs_logic_state (inputs st') = inputs_logic_state (inputs st) /\
  length (mtbbus_output_buf (mtbbus st')) = length (mtbbus_output_buf (mtbbus st)).
Proof.
  intros Hlen Hbuf. cbv zeta.
  apply Z.leb_le in Hlen.
  unfold Rev1.mtbbus_received, Earlier.mtbbus_send_inputs, Earlier.mtbbus_send_ack,
    mtbbus_send_buf_autolen.
  rewrite Z.eqb_refl, Hlen. cbn [andb].
  destruct (mtbbus_can_fill_output_buf (mtbbus st)) eqn:Efill;
    fw_exec; cbn in *; rewrite ?Efill in *; try discriminate;
    rewrite ?frame_inputs, ?frame_ack by (assumption || lia);
    rewrite ?length_insert;
    (split; [erewrite response_app
               by (cbn; first [ symmetry; apply app_nil_r
                              | rewrite <- ?app_assoc; reflexivity ]);
             reflexivity
            |repeat split; reflexivity]).
Qed.

(** X24: in the earlier revision an inquiry that finds the output
    buffer busy sends nothing and still records the live snapshot as
    reported; whether the change reaches the master then depends on the
    next inquiry alone: it is sent if that inquiry reports the last
    response as not received, and replaced by a plain ACK otherwise. *)
Theorem earlier_revision_records_an_unsent_change_as_reported
    (data1 data2 : list Z) (st : state) :
  1 <= data_len data1 -> 1 <= data_len data2 ->
  (4 <= length (mtbbus_output_buf (mtbbus st)))%nat ->
  mtbbus_can_fill_output_buf (mtbbus st) = false ->
  inputs_logic_state (inputs st) <> inputs_old (inputs st) ->
  let st1 := Rev1.mtbbus_received false MTBBUS_CMD_MOSI_MODULE_INQUIRY data1 st in
  let free := set_mtbbus_can_fill_output_buf true st1 in
  let st2 := Rev1.mtbbus_received false MTBBUS_CMD_MOSI_MODULE_INQUIRY data2 free in
  response st st1 = [] /\
  inputs_old (inputs st1) = inputs_logic_state (inputs st) /\
  response free st2
  = [if to_bool (Z.land (data_at data2 0) 1)
     then [1; MTBBUS_CMD_MISO_ACK]
     else [3; MTBBUS_CMD_MISO_INPUT_CHANGED;
           Z.land (Z.shiftr (inputs_logic_state (inputs st)) 8) 255;
           Z.land (inputs_logic_state (inputs st)) 255]].
Proof.
  intros Hl1 Hl2 Hbuf Hbusy Hne st1 free st2.
  destruct (rev1_inquiry data1 st Hl1 Hbuf) as (Hr & Hlic & Ho & Hl & Hb).
  fold st1 in Hr, Hlic, Ho, Hl, Hb.
  apply Z.eqb_neq in Hne. rewrite Hbusy, Hne in *. cbn [negb orb] in *.
  split; [exact Hr|]. split; [exact Ho|].
  destruct (rev1_inquiry data2 free Hl2) as (Hr2 & _).
  { subst free. cbn. rewrite Hb. exact Hbuf. }
  fold st2 in Hr2. rewrite Hr2. subst free. cbn.
  rewrite Hl, Ho, Hlic, Z.eqb_refl. cbn [negb orb andb].
  destruct (to_bool (Z.land (data_at data2 0) 1)); reflexivity.
Qed.

(** X25: the current revision extends the tracker of the earlier one:
    with the buffer free, the first report made, the warnings reported
    and no diagnostic notification outstanding, both revisions answer an
    inquiry with the same frame and leave the same input tracking. *)
Theorem revisions_agree_on_inquiries_without_diagnostics
    (data : list Z) (st : state) :
  NoDup mosi_codes -> NoDup dv_codes ->
  initialized (gate st) = true ->
  (4 <= length (mtbbus_output_buf (mtbbus st)))%nat ->
  1 <= data_len data ->
  mtbbus_can_fill_output_buf (mtbbus st) = true ->
  first_scan (tracker st) = false ->
  mtbbus_warn_flags (mtbbus st) = mtbbus_warn_flags_old (mtbbus st) ->
  last_diag_changed (tracker st) = false ->
  let old := Rev1.mtbbus_received false MTBBUS_CMD_MOSI_MODULE_INQUIRY data st in
  let new := mtbbus_received false MTBBUS_CMD_MOSI_MODULE_INQUIRY data st in
  response st old = response st new /\
  last_input_changed (tracker old) = last_input_changed (tracker new) /\
  inputs_old (inputs old) = inputs_old (inputs new).
Proof.
  intros Hnd Hdv Hinit Hbuf Hlen Hfill Hfs Hw Hld old new.
  destruct (rev1_inquiry data st Hlen Hbuf) as (Hr & Hlic & Ho & _).
  destruct (inquiry_answer data st Hnd Hdv Hinit Hbuf Hlen) as (Hr' & Hlic' & _ & Ho' & _).
  fold old in Hr, Hlic, Ho. fold new in Hr', Hlic', Ho'.
  rewrite Hr, Hr', Hlic, Hlic', Ho, Ho', Hfill, Hfs, Hw, Hld, Z.eqb_refl.
  cbn [negb andb orb]. rewrite !orb_false_r.
  repeat split; repeat case_match; reflexivity.
Qed.

(** ** From the long press to the persisted speed *)

Lemma initialized_run (evs : list sys_event) (st : state) :
  initialized (gate st) = true -> initialized (gate (run evs st)) = true.
Proof.
  revert st. induction evs as [|e evs IH]; intros st Hi; [exact Hi|].
  rewrite run_cons. apply IH.
  destruct (gate_step e st) as [-> | [(m & _ & _ & ->) | (_ & _ & ->)]]; cbn; auto.
Qed.

(** X26: the autodetection end to end: a long press on a module that is
    not addressed starts probing; after [n] probe timeouts without a
    frame, the first frame that arrives ends the probing, and the speed
    it arrived on is the one persisted, marked for saving, and kept by
    the transport. *)
Theorem autodetection_persists_the_speed_of_the_first_frame
    (n : nat) (broadcast : bool) (command_code : Z) (data : list Z) (st : state) :
  MTBBUS_SPEED_38400 = 1 ->
  1 <= MTBBUS_SPEED_MAX < 255 ->
  initialized (gate st) = true ->
  halted st = false ->
  btn_press_time (button st) = BTN_PRESS_1S ->
  mtbbus_timeout st = MTBBUS_TIMEOUT_MAX ->
  decode_command command_code <> CmdChangeSpeed ->
  let st' := run (MainBtn :: probe_timeouts n ++ [Received broadcast command_code data]) st in
  mtbbus_auto_speed_in_progress (autospeed st') = false /\
  config_mtbbus_speed (config st') = MTBBUS_SPEED_38400 + Z.of_nat n mod MTBBUS_SPEED_MAX /\
  config_write (config st') = true /\
  mtbbus_speed (mtbbus st') = MTBBUS_SPEED_38400 + Z.of_nat n mod MTBBUS_SPEED_MAX.
Proof.
  intros H1 HM Hinit Hrun Hbtn Hto Hc st'. subst st'.
  rewrite run_cons, run_app.
  assert (initialized (gate (run (probe_timeouts n) (step MainBtn st))) = true) as Hi.
  { apply initialized_run.
    destruct (gate_step MainBtn st) as [-> | [(m & _ & _ & ->) | (_ & _ & ->)]];
      cbn; auto. }
  assert (step MainBtn st
          = autodetect_mtbbus_speed (emit EvBtnLongPress (set_btn_press_time 255 st)))
    as Hstart.
  { rewrite step_running by assumption. unfold main_btn.
    rewrite Hbtn, Z.eqb_refl. unfold btn_long_press, mtbbus_addressed.
    cbn [mtbbus_timeout emit set_btn_press_time with_button].
    rewrite Hto, Z.ltb_irrefl. reflexivity. }
  rewrite Hstart in *.
  destruct (autodetect_mtbbus_speed_fields
              (emit EvBtnLongPress (set_btn_press_time 255 st)) H1 HM)
    as (Ha0 & Hs0 & Hh0 & _).
  set (st0 := autodetect_mtbbus_speed _) in *.
  destruct (probe_timeouts_advance n 0 st0 H1 HM ltac:(lia)) as (Han & Hsn & Hhn & _).
  { rewrite Hh0. exact Hrun. }
  { rewrite Ha0, Z.mod_0_l by lia. reflexivity. }
  { rewrite Hs0, Z.mod_0_l by lia. reflexivity. }
  set (stn := run (probe_timeouts n) st0) in *.
  cbn [run fold_left]. rewrite step_running by assumption.
  rewrite mtbbus_received_initialized by assumption.
  destruct (prologue_commits_probed_speed stn) as (Hp & Hcs & Hcw).
  { rewrite Han. reflexivity. }
  destruct (prologue_tracker_inputs_mtbbus stn) as (_ & _ & Hm & _).
  destruct (switch_speed broadcast command_code data (mtbbus_received_prologue stn) Hc)
    as (Hsp & _).
  rewrite switch_autospeed, switch_config_mtbbus_speed, Hsp, Hm by assumption.
  rewrite Hp, Hcs, Hsn, H1. cbn [Z.add].
  repeat split. apply switch_config_write, Hcw.
Qed.

(** ** Sixteen-bit values *)

Lemma be16_u8 (s : Z) :
  0 <= s < 65536 ->
  be16 (u8 (Z.shiftr s 8)) (Z.land s 255) = s.
Proof.
  intros Hs. unfold be16, u8.
  change 255 with (Z.ones 8). rewrite Z.land_ones, Z.shiftr_div_pow2 by lia.
  change (2 ^ 8) with 256.
  rewrite (Z.mod_small (s / 256))
    by (split; [apply Z.div_pos; lia | apply Z.div_lt_upper_bound; lia]).
  pose proof (Z.div_mod s 256 ltac:(lia)). lia.
Qed.

(** X27: the two sixteen-bit values the module reports travel high byte
    first and arrive intact: the bootloader version in the last two bytes
    of the ten-byte MODULE_INFO frame, and the supply voltage in the
    value of the DIAG_VALUE frame of the voltage index. *)
Theorem sixteen_bit_values_are_reported_high_byte_first
    (data rest : list Z) (st : state) :
  NoDup mosi_codes -> NoDup dv_codes ->
  initialized (gate st) = true ->
  (10 <= length (mtbbus_output_buf (mtbbus st)))%nat ->
  0 <= config_bootloader_version (config st) < 65536 ->
  0 <= vcc_voltage (diag st) < 65536 ->
  (exists kind warn hi lo,
     response st (mtbbus_received false MTBBUS_CMD_MOSI_INFO_REQ data st)
     = [[9; MTBBUS_CMD_MISO_MODULE_INFO; kind; warn; CONFIG_FW_MAJOR; CONFIG_FW_MINOR;
         CONFIG_PROTO_MAJOR; CONFIG_PROTO_MINOR; hi; lo]] /\
     be16 hi lo = config_bootloader_version (config st)) /\
  (exists hi lo,
     response st (mtbbus_received false MTBBUS_CMD_MOSI_DIAG_VALUE_REQ
                    (MTBBUS_DV_VMCU :: rest) st)
     = [[4; MTBBUS_CMD_MISO_DIAG_VALUE; MTBBUS_DV_VMCU; hi; lo]] /\
     be16 hi lo = vcc_voltage (diag st)).
Proof.
  intros Hnd Hdv Hinit Hbuf Hver Hvcc.
  pose proof (log_prologue st) as Hlog. pose proof (buf_prologue st) as Hb.
  destruct (prologue_tracker_inputs_mtbbus st) as (_ & _ & Hm & _).
  assert (config_bootloader_version (config (mtbbus_received_prologue st))
          = config_bootloader_version (config st)) as Hbv.
  { unfold mtbbus_received_prologue, mtbbus_auto_speed_received.
    fw_exec; reflexivity. }
  assert (diag (mtbbus_received_prologue st) = diag st) as Hdg.
  { unfold mtbbus_received_prologue, mtbbus_auto_speed_received.
    fw_exec; reflexivity. }
  rewrite !mtbbus_received_initialized by assumption.
  unfold mtbbus_received_switch.
  rewrite (decode_command_label 1 _ Hnd eq_refl), (decode_command_label 12 _ Hnd eq_refl).
  cbn [nth commands negb]. rewrite data_len_cons.
  destruct (mtbbus_output_buf (mtbbus st))
    as [|b0 [|b1 [|b2 [|b3 [|b4 [|b5 [|b6 [|b7 [|b8 [|b9 tl]]]]]]]]]] eqn:Ebuf;
    cbn [length] in Hbuf; try lia.
  split.
  - eexists _, _, _, _. split.
    + erewrite response_app.
      2:{ cbn. rewrite Hb, Hlog, <- app_assoc. cbn [insert list_insert].
          unfold frame_of. cbn [nth Z.to_nat Pos.to_nat Pos.iter_op Nat.add take].
          reflexivity. }
      rewrite frames_app, frames_prologue_events. reflexivity.
    + rewrite Hbv. apply be16_u8, Hver.
  - eexists _, _. split.
    + erewrite response_app.
      2:{ change (data_at (MTBBUS_DV_VMCU :: rest) 0) with MTBBUS_DV_VMCU.
          unfold send_diag_value.
          rewrite (decode_diag_index_label 4 _ Hdv eq_refl). cbn [nth].
          cbn. rewrite Hb, Hlog, <- app_assoc. cbn [insert list_insert].
          unfold frame_of. cbn [nth Z.to_nat Pos.to_nat Pos.iter_op Nat.add take Z.add Pos.add Pos.succ].
          reflexivity. }
      rewrite frames_app, frames_prologue_events. reflexivity.
    + rewrite Hdg. apply be16_u8, Hvcc.
Qed.

End Extras.

(** * The further properties on the sample module *)

Section ExtrasSample.
#[local] Existing Instance sample_hdr.

Lemma sample_ready_running : halted sample_ready = false.
Proof. vm_compute. reflexivity. Qed.

Lemma sample_ready_buf : (26 <= length (mtbbus_output_buf (mtbbus sample_ready)))%nat.
Proof. vm_compute. lia. Qed.

Lemma unicast_request_gets_exactly_one_frame_witness :
  initialized (gate sample_ready) = true /\
  exists f, response sample_ready
              (mtbbus_received false MTBBUS_CMD_MOSI_GET_CONFIG [] sample_ready) = [f].
Proof.
  split; [exact sample_ready_initialized|].
  apply (unicast_request_gets_exactly_one_frame
           MTBBUS_CMD_MOSI_GET_CONFIG [] sample_ready sample_ready_initialized).
Defined.

Lemma change_addr_is_always_rejected_witness :
  NoDup mosi_codes /\ initialized (gate sample_ready) = true /\
  response sample_ready
    (mtbbus_received false MTBBUS_CMD_MOSI_CHANGE_ADDR [7] sample_ready)
  = [[2; MTBBUS_CMD_MISO_ERROR; MTBBUS_ERROR_UNSUPPORTED_COMMAND]].
Proof.
  split; [exact sample_mosi_codes_distinct|].
  split; [exact sample_ready_initialized|].
  assert (3 <= length (mtbbus_output_buf (mtbbus sample_ready)))%nat as Hbuf
    by (vm_compute; lia).
  apply (change_addr_is_always_rejected false [7] sample_ready
           sample_mosi_codes_distinct sample_ready_initialized Hbuf).
Defined.

Lemma config_tables_written_only_by_set_config_witness :
  data_len (replicate 23 1) < 24 /\
  config_safe_state
    (config (mtbbus_received false MTBBUS_CMD_MOSI_SET_CONFIG (replicate 23 1) sample_ready))
  = config_safe_state (config sample_ready).
Proof.
  assert (data_len (replicate 23 1) < 24) as Hshort by (vm_compute; reflexivity).
  pose proof (config_tables_written_only_by_set_config
                false MTBBUS_CMD_MOSI_SET_CONFIG (replicate 23 1) sample_ready
                (or_intror (or_intror Hshort))) as H.
  cbv zeta in H. destruct H as (Hs & _).
  split; [exact Hshort | exact Hs].
Defined.

Lemma speed_changed_only_by_change_speed_witness :
  decode_command MTBBUS_CMD_MOSI_SET_OUTPUT <> CmdChangeSpeed /\
  mtbbus_auto_speed_in_progress (autospeed sample_ready) = false /\
  speed_switches
    (emitted sample_ready
       (mtbbus_received false MTBBUS_CMD_MOSI_SET_OUTPUT [1; 2; 3; 4] sample_ready)) = [].
Proof.
  assert (decode_command MTBBUS_CMD_MOSI_SET_OUTPUT <> CmdChangeSpeed) as Hc
    by (vm_compute; discriminate).
  assert (mtbbus_auto_speed_in_progress (autospeed sample_ready) = false) as Hp
    by (vm_compute; reflexivity).
  split; [exact Hc|]. split; [exact Hp|].
  apply (speed_changed_only_by_change_speed
           false MTBBUS_CMD_MOSI_SET_OUTPUT [1; 2; 3; 4] sample_ready Hc Hp).
Defined.

Lemma output_driver_invoked_only_by_set_and_reset_outputs_witness :
  initialized (gate sample_ready) = true /\
  driver_calls
    (emitted sample_ready
       (mtbbus_received false MTBBUS_CMD_MOSI_GET_INPUT [] sample_ready)) = [].
Proof.
  split; [exact sample_ready_initialized|].
  rewrite (output_driver_invoked_only_by_set_and_reset_outputs
             false MTBBUS_CMD_MOSI_GET_INPUT [] sample_ready sample_ready_initialized).
  reflexivity.
Defined.

Lemma get_config_returns_what_set_config_stored_witness :
  initialized (gate sample_ready) = true /\
  24 <= data_len (replicate 16 1 ++ replicate 8 2) /\
  response
    (mtbbus_received false MTBBUS_CMD_MOSI_SET_CONFIG
       (replicate 16 1 ++ replicate 8 2) sample_ready)
    (mtbbus_received false MTBBUS_CMD_MOSI_GET_CONFIG []
       (mtbbus_received false MTBBUS_CMD_MOSI_SET_CONFIG
          (replicate 16 1 ++ replicate 8 2) sample_ready))
  = [25 :: MTBBUS_CMD_MISO_MODULE_CONFIG :: take 24 (replicate 16 1 ++ replicate 8 2)].
Proof.
  assert (24 <= data_len (replicate 16 1 ++ replicate 8 2)) as Hlen
    by (vm_compute; discriminate).
  split; [exact sample_ready_initialized|]. split; [exact Hlen|].
  apply (get_config_returns_what_set_config_stored
           (replicate 16 1 ++ replicate 8 2) [] sample_ready
           sample_mosi_codes_distinct sample_ready_initialized sample_ready_buf);
    [vm_compute; reflexivity | vm_compute; reflexivity | exact Hlen].
Defined.

Lemma get_input_reports_live_inputs_without_acknowledging_witness :
  0 <= inputs_logic_state (inputs (step (InputsDebounced 513) sample_ready)) < 65536 /\
  tracker (mtbbus_received false MTBBUS_CMD_MOSI_GET_INPUT []
             (step (InputsDebounced 513) sample_ready))
  = tracker (step (InputsDebounced 513) sample_ready).
Proof.
  assert (0 <= inputs_logic_state (inputs (step (InputsDebounced 513) sample_ready)) < 65536)
    as Hr by (vm_compute; split; [discriminate | reflexivity]).
  assert (initialized (gate (step (InputsDebounced 513) sample_ready)) = true) as Hi
    by (vm_compute; reflexivity).
  assert (4 <= length (mtbbus_output_buf
                         (mtbbus (step (InputsDebounced 513) sample_ready))))%nat as Hbuf
    by (vm_compute; lia).
  pose proof (get_input_reports_live_inputs_without_acknowledging
                [] (step (InputsDebounced 513) sample_ready)
                sample_mosi_codes_distinct Hi Hbuf Hr) as H.
  cbv zeta in H. destruct H as (_ & _ & Ht).
  split; [exact Hr | exact Ht].
Defined.

Lemma reboot_is_deferred_when_addressed_and_immediate_when_broadcast_witness :
  halted sample_ready = false /\
  halted (mtbbus_received false MTBBUS_CMD_MOSI_REBOOT [] sample_ready) = false /\
  halted (mtbbus_received true MTBBUS_CMD_MOSI_REBOOT [] sample_ready) = true.
Proof.
  assert (2 <= length (mtbbus_output_buf (mtbbus sample_ready)))%nat as Hbuf
    by (vm_compute; lia).
  pose proof (reboot_is_deferred_when_addressed_and_immediate_when_broadcast
                [] [inquiry true] sample_ready
                sample_mosi_codes_distinct sample_ready_initialized
                sample_ready_running Hbuf) as H.
  cbv zeta in H. destruct H as ((_ & _ & Hu & _) & (_ & Hb & _)).
  split; [exact sample_ready_running|]. split; [exact Hu | exact Hb].
Defined.

Lemma reading_warnings_cancels_the_pending_diag_push_witness :
  first_scan (tracker (step (inquiry true) sample_ready)) = false /\
  response
    (mtbbus_received false MTBBUS_CMD_MOSI_DIAG_VALUE_REQ [MTBBUS_DV_WARNINGS]
       (step (inquiry true) sample_ready))
    (mtbbus_received false MTBBUS_CMD_MOSI_MODULE_INQUIRY [1]
       (mtbbus_received false MTBBUS_CMD_MOSI_DIAG_VALUE_REQ [MTBBUS_DV_WARNINGS]
          (step (inquiry true) sample_ready)))
  = [[1; MTBBUS_CMD_MISO_ACK]].
Proof.
  assert (first_scan (tracker (step (inquiry true) sample_ready)) = false) as Hfs
    by (vm_compute; reflexivity).
  split; [exact Hfs|].
  apply (reading_warnings_cancels_the_pending_diag_push
           false MTBBUS_DV_WARNINGS [] [1] (step (inquiry true) sample_ready)
           sample_mosi_codes_distinct sample_dv_codes_distinct);
    [ vm_compute; reflexivity | vm_compute; lia | left; reflexivity
    | vm_compute; reflexivity | exact Hfs | vm_compute; discriminate
    | vm_compute; reflexivity ].
Defined.

Lemma confirmed_inquiries_settle_to_ack_after_two_witness :
  initialized (gate sample_ready) = true /\
  responses (replicate 3 (inquiry true)) (run [inquiry true; inquiry true] sample_ready)
  = replicate 3 [[1; MTBBUS_CMD_MISO_ACK]].
Proof.
  split; [exact sample_ready_initialized|].
  apply (confirmed_inquiries_settle_to_ack_after_two 3 sample_ready
           sample_mosi_codes_distinct sample_dv_codes_distinct
           sample_ready_initialized sample_ready_running).
  vm_compute. lia.
Defined.

Lemma missed_timer_deadline_is_reported_at_the_next_inquiry_witness :
  Z.land (mtbbus_warn_flags (mtbbus sample_rest)) MTBBUS_WARN_MISSED_TIMER = 0 /\
  responses [IsrTimer3 true; inquiry true] sample_rest
  = [[]; [[3; MTBBUS_CMD_MISO_DIAG_VALUE; MTBBUS_DV_STATE; 2]]].
Proof.
  assert (Z.land (mtbbus_warn_flags (mtbbus sample_rest)) MTBBUS_WARN_MISSED_TIMER = 0)
    as Hland by (vm_compute; reflexivity).
  split; [exact Hland|].
  apply (missed_timer_deadline_is_reported_at_the_next_inquiry true sample_rest
           sample_mosi_codes_distinct sample_dv_codes_distinct);
    [ vm_compute; reflexivity | vm_compute; reflexivity | vm_compute; lia
    | vm_compute; reflexivity | vm_compute; reflexivity | vm_compute; reflexivity
    | vm_compute; reflexivity | vm_compute; discriminate | vm_compute; reflexivity
    | exact Hland ].
Defined.

Lemma first_inquiries_report_inputs_then_state_witness :
  first_scan (tracker sample_ready) = true /\
  mtbbus_warn_flags_old (mtbbus sample_ready) = 255 /\
  responses [inquiry false; inquiry true] sample_ready
  = [[[3; MTBBUS_CMD_MISO_INPUT_CHANGED; 0; 0]];
     [[3; MTBBUS_CMD_MISO_DIAG_VALUE; MTBBUS_DV_STATE; 0]]].
Proof.
  assert (first_scan (tracker sample_ready) = true) as Hfs by (vm_compute; reflexivity).
  assert (mtbbus_warn_flags_old (mtbbus sample_ready) = 255) as Hold
    by (vm_compute; reflexivity).
  split; [exact Hfs|]. split; [exact Hold|].
  apply (first_inquiries_report_inputs_then_state false sample_ready
           sample_mosi_codes_distinct sample_dv_codes_distinct
           sample_ready_initialized sample_ready_running);
    [ vm_compute; lia | exact Hfs | exact Hold | vm_compute; split; discriminate ].
Defined.

Lemma short_press_cancels_autodetection_without_commit_witness :
  mtbbus_auto_speed_in_progress (autospeed sample_probing) = true /\
  btn_press_time (button sample_probing) < BTN_PRESS_1S /\
  config (step BtnDepressed sample_probing) = config sample_probing /\
  emitted sample_probing (step BtnDepressed sample_probing)
  = [EvBtnShortPress; EvLedBlueOff].
Proof.
  assert (halted sample_probing = false) as Hh by (vm_compute; reflexivity).
  assert (mtbbus_auto_speed_in_progress (autospeed sample_probing) = true) as Hp
    by (vm_compute; reflexivity).
  assert (btn_press_time (button sample_probing) < BTN_PRESS_1S) as Hs
    by (vm_compute; reflexivity).
  pose proof (short_press_cancels_autodetection_without_commit sample_probing Hh Hp Hs)
    as H.
  cbv zeta in H. destruct H as (_ & Hc & _ & _ & He).
  split; [exact Hp|]. split; [exact Hs|]. split; [exact Hc | exact He].
Defined.

Lemma short_press_reloads_the_address_witness :
  mtbbus_auto_speed_in_progress (autospeed (sample_held 10)) = false /\
  btn_press_time (button (sample_held 10)) < BTN_PRESS_1S /\
  mtbbus_addr (mtbbus (step BtnDepressed (sample_held 10)))
  = io_addr_raw (hw (sample_held 10)).
Proof.
  assert (halted (sample_held 10) = false) as Hh by (vm_compute; reflexivity).
  assert (mtbbus_auto_speed_in_progress (autospeed (sample_held 10)) = false) as Hp
    by (vm_compute; reflexivity).
  assert (btn_press_time (button (sample_held 10)) < BTN_PRESS_1S) as Hs
    by (vm_compute; reflexivity).
  pose proof (short_press_reloads_the_address (sample_held 10) Hh Hp Hs) as H.
  cbv zeta in H. destruct H as (Ha & _).
  split; [exact Hp|]. split; [exact Hs | exact Ha].
Defined.

Lemma long_press_starts_autodetection_only_when_not_addressed_witness :
  let st1 := run (replicate 40 (IsrTimer3 false))
                 (mtbbus_received false MTBBUS_CMD_MOSI_GET_INPUT [] (sample_held 60)) in
  btn_press_time (button st1) = BTN_PRESS_1S /\
  autospeed (step MainBtn st1) = autospeed st1 /\
  emitted st1 (step MainBtn st1) = [EvBtnLongPress].
Proof.
  cbv zeta.
  assert (initialized (gate (sample_held 60)) = true) as Hi by (vm_compute; reflexivity).
  assert (halted (run (replicate 40 (IsrTimer3 false))
                    (mtbbus_received false MTBBUS_CMD_MOSI_GET_INPUT [] (sample_held 60)))
          = false) as Hh by (vm_compute; reflexivity).
  assert (btn_press_time
            (button (run (replicate 40 (IsrTimer3 false))
                       (mtbbus_received false MTBBUS_CMD_MOSI_GET_INPUT []
                          (sample_held 60)))) = BTN_PRESS_1S) as Hb
    by (vm_compute; reflexivity).
  pose proof (long_press_starts_autodetection_only_when_not_addressed
                false MTBBUS_CMD_MOSI_GET_INPUT [] false 40 (sample_held 60) Hi Hh Hb)
    as H.
  cbv zeta in H. destruct H as (_ & Hshort & _).
  assert (40 < 100)%nat as Hk by lia.
  destruct (Hshort Hk) as (Ha & _ & He).
  split; [exact Hb|]. split; [exact Ha | exact He].
Defined.

Lemma tick_counters_stay_in_range_witness :
  counters_in_range sample_boot /\
  counters_in_range
    (run (replicate 60 (IsrTimer3 false) ++ [MainInit; BtnPressed; inquiry true]) sample_boot).
Proof.
  assert (counters_in_range sample_boot) as H
    by (unfold counters_in_range; vm_compute; intuition discriminate).
  split; [exact H|].
  apply (tick_counters_stay_in_range
           (replicate 60 (IsrTimer3 false) ++ [MainInit; BtnPressed; inquiry true])
           sample_boot H).
Defined.

Lemma probed_speed_stays_in_range_witness :
  MTBBUS_SPEED_38400 = 1 /\ 1 <= MTBBUS_SPEED_MAX < 255 /\
  probe_in_range sample_probing /\
  probe_in_range (run (probe_timeouts 3) sample_probing).
Proof.
  assert (MTBBUS_SPEED_38400 = 1) as H1 by reflexivity.
  assert (1 <= MTBBUS_SPEED_MAX < 255) as HM by (cbn; lia).
  assert (probe_in_range sample_probing) as H.
  { intros _. split; [split; vm_compute; discriminate | vm_compute; reflexivity]. }
  split; [exact H1|]. split; [exact HM|]. split; [exact H|].
  apply (probed_speed_stays_in_range (probe_timeouts 3) sample_probing H1 HM H).
Defined.

Lemma gate_opens_after_fifty_ticks_and_stays_open_witness :
  booted sample_boot /\
  initialized
    (gate (run ((BtnPressed :: replicate 50 (IsrTimer3 true)) ++ [MainInit]) sample_boot))
  = true.
Proof.
  split; [exact sample_boot_booted|].
  destruct (gate_opens_after_fifty_ticks_and_stays_open
              (BtnPressed :: replicate 50 (IsrTimer3 true)) [] sample_boot
              sample_boot_booted) as (_ & Hopen & _).
  apply Hopen. vm_compute. discriminate.
Defined.

Lemma led_pulses_run_out_when_nothing_is_indicated_witness :
  let st := mtbbus_received false MTBBUS_CMD_MOSI_GET_INPUT [] sample_ready in
  error_flags_all st = false /\ beacon (leds st) = false /\
  List.filter is_led_on (emitted st (leds_updates 5 st)) = [].
Proof.
  cbv zeta.
  set (st := mtbbus_received false MTBBUS_CMD_MOSI_GET_INPUT [] sample_ready).
  assert (error_flags_all st = false) as Hf by (vm_compute; reflexivity).
  assert (beacon (leds st) = false) as Hb by (vm_compute; reflexivity).
  assert (0 <= led_gr_counter (leds st)) as Hg by (vm_compute; discriminate).
  assert (0 <= led_red_counter (leds st)) as Hr by (vm_compute; discriminate).
  assert (0 <= led_blue_counter (leds st)) as Hbl by (vm_compute; discriminate).
  pose proof (led_pulses_run_out_when_nothing_is_indicated 5 st Hf Hb Hg Hr Hbl) as H.
  cbv zeta in H. destruct H as (_ & _ & _ & Hon).
  split; [exact Hf|]. split; [exact Hb | exact Hon].
Defined.

Lemma red_led_flashes_while_an_error_is_flagged_witness :
  let st := leds_update (set_addr_zero true sample_ready) in
  error_flags_all st = true /\
  led_red_counter (leds (leds_updates 100 (leds_updates 7 st)))
  = led_red_counter (leds (leds_updates 7 st)) /\
  led_red_ok (leds_updates 7 st) = leds_updates 7 st.
Proof.
  cbv zeta.
  set (st := leds_update (set_addr_zero true sample_ready)).
  assert (error_flags_all st = true) as Hf by (vm_compute; reflexivity).
  assert (1 <= led_red_counter (leds st) <= 100) as Hr
    by (vm_compute; split; discriminate).
  pose proof (red_led_flashes_while_an_error_is_flagged 7 st Hf Hr) as H.
  cbv zeta in H. destruct H as (_ & Hp & Hok).
  split; [exact Hf|]. split; [exact Hp | exact Hok].
Defined.

Lemma beacon_request_controls_the_blue_flashing_witness :
  led_blue_counter (leds sample_ready) = 0 /\
  beacon (leds (mtbbus_received true MTBBUS_CMD_MOSI_BEACON [1] sample_ready)) = true /\
  led_blue_counter
    (leds (leds_update (mtbbus_received true MTBBUS_CMD_MOSI_BEACON [1] sample_ready)))
  = LED_BLUE_BEACON_ON.
Proof.
  assert (led_blue_counter (leds sample_ready) = 0) as Hb by (vm_compute; reflexivity).
  assert (2 <= length (mtbbus_output_buf (mtbbus sample_ready)))%nat as Hbuf
    by (vm_compute; lia).
  pose proof (beacon_request_controls_the_blue_flashing true 1 [] sample_ready
                sample_mosi_codes_distinct sample_ready_initialized Hbuf Hb) as H.
  cbv zeta in H. destruct H as (_ & Hbc & Hc & _).
  split; [exact Hb|]. split; [exact Hbc | exact Hc].
Defined.

Lemma frame_starts_one_green_pulse_witness :
  led_gr_counter (leds sample_ready) = 0 /\
  List.filter is_led_green
    (emitted sample_ready
       (mtbbus_received false MTBBUS_CMD_MOSI_GET_INPUT [] sample_ready))
  = [EvLedGreenOn] /\
  led_gr_counter
    (leds (leds_updates 5 (mtbbus_received false MTBBUS_CMD_MOSI_GET_INPUT [] sample_ready)))
  = 0.
Proof.
  assert (led_gr_counter (leds sample_ready) = 0) as Hg by (vm_compute; reflexivity).
  pose proof (frame_starts_one_green_pulse
                false false MTBBUS_CMD_MOSI_GET_INPUT MTBBUS_CMD_MOSI_GET_INPUT [] []
                sample_ready sample_ready_initialized Hg) as H.
  cbv zeta in H. destruct H as (_ & Hon & _ & _ & _ & Hrest).
  split; [exact Hg|]. split; [exact Hon | exact Hrest].
Defined.

Lemma earlier_revision_records_an_unsent_change_as_reported_witness :
  let st := set_inputs_logic_state 5 sample_busy in
  mtbbus_can_fill_output_buf (mtbbus st) = false /\
  inputs_logic_state (inputs st) <> inputs_old (inputs st) /\
  response st (Rev1.mtbbus_received false MTBBUS_CMD_MOSI_MODULE_INQUIRY [1] st) = [] /\
  inputs_old (inputs (Rev1.mtbbus_received false MTBBUS_CMD_MOSI_MODULE_INQUIRY [1] st))
  = inputs_logic_state (inputs st).
Proof.
  cbv zeta.
  set (st := set_inputs_logic_state 5 sample_busy).
  assert (1 <= data_len [1]) as Hl by (vm_compute; discriminate).
  assert (4 <= length (mtbbus_output_buf (mtbbus st)))%nat as Hbuf by (vm_compute; lia).
  assert (mtbbus_can_fill_output_buf (mtbbus st) = false) as Hbusy
    by (vm_compute; reflexivity).
  assert (inputs_logic_state (inputs st) <> inputs_old (inputs st)) as Hne
    by (vm_compute; discriminate).
  pose proof (earlier_revision_records_an_unsent_change_as_reported
                [1] [1] st Hl Hl Hbuf Hbusy Hne) as H.
  cbv zeta in H. destruct H as (Hr & Ho & _).
  split; [exact Hbusy|]. split; [exact Hne|]. split; [exact Hr | exact Ho].
Defined.

Lemma revisions_agree_on_inquiries_without_diagnostics_witness :
  first_scan (tracker sample_rest) = false /\
  last_diag_changed (tracker sample_rest) = false /\
  response sample_rest
    (Rev1.mtbbus_received false MTBBUS_CMD_MOSI_MODULE_INQUIRY [0] sample_rest)
  = response sample_rest
      (mtbbus_received false MTBBUS_CMD_MOSI_MODULE_INQUIRY [0] sample_rest).
Proof.
  assert (initialized (gate sample_rest) = true) as Hi by (vm_compute; reflexivity).
  assert (4 <= length (mtbbus_output_buf (mtbbus sample_rest)))%nat as Hbuf
    by (vm_compute; lia).
  assert (1 <= data_len [0]) as Hl by (vm_compute; discriminate).
  assert (mtbbus_can_fill_output_buf (mtbbus sample_rest) = true) as Hfill
    by (vm_compute; reflexivity).
  assert (first_scan (tracker sample_rest) = false) as Hfs by (vm_compute; reflexivity).
  assert (mtbbus_warn_flags (mtbbus sample_rest)
          = mtbbus_warn_flags_old (mtbbus sample_rest)) as Hw
    by (vm_compute; reflexivity).
  assert (last_diag_changed (tracker sample_rest) = false) as Hld
    by (vm_compute; reflexivity).
  pose proof (revisions_agree_on_inquiries_without_diagnostics [0] sample_rest
                sample_mosi_codes_distinct sample_dv_codes_distinct
                Hi Hbuf Hl Hfill Hfs Hw Hld) as H.
  cbv zeta in H. destruct H as (Hr & _).
  split; [exact Hfs|]. split; [exact Hld | exact Hr].
Defined.

Lemma autodetection_persists_the_speed_of_the_first_frame_witness :
  MTBBUS_SPEED_38400 = 1 /\ 1 <= MTBBUS_SPEED_MAX < 255 /\
  btn_press_time (button (sample_held 100)) = BTN_PRESS_1S /\
  mtbbus_timeout (sample_held 100) = MTBBUS_TIMEOUT_MAX /\
  config_mtbbus_speed
    (config (run (MainBtn :: probe_timeouts 6 ++
                  [Received false MTBBUS_CMD_MOSI_GET_INPUT []]) (sample_held 100)))
  = MTBBUS_SPEED_38400 + Z.of_nat 6 mod MTBBUS_SPEED_MAX.
Proof.
  assert (MTBBUS_SPEED_38400 = 1) as H1 by reflexivity.
  assert (1 <= MTBBUS_SPEED_MAX < 255) as HM by (cbn; lia).
  assert (initialized (gate (sample_held 100)) = true) as Hi by (vm_compute; reflexivity).
  assert (halted (sample_held 100) = false) as Hh by (vm_compute; reflexivity).
  assert (btn_press_time (button (sample_held 100)) = BTN_PRESS_1S) as Hb
    by (vm_compute; reflexivity).
  assert (mtbbus_timeout (sample_held 100) = MTBBUS_TIMEOUT_MAX) as Ht
    by (vm_compute; reflexivity).
  assert (decode_command MTBBUS_CMD_MOSI_GET_INPUT <> CmdChangeSpeed) as Hc
    by (vm_compute; discriminate).
  pose proof (autodetection_persists_the_speed_of_the_first_frame
                6 false MTBBUS_CMD_MOSI_GET_INPUT [] (sample_held 100)
                H1 HM Hi Hh Hb Ht Hc) as H.
  cbv zeta in H. destruct H as (_ & Hs & _).
  split; [exact H1|]. split; [exact HM|]. split; [exact Hb|]. split; [exact Ht | exact Hs].
Defined.

Lemma sixteen_bit_values_are_reported_high_byte_first_witness :
  0 <= config_bootloader_version (config sample_ready) < 65536 /\
  exists hi lo,
    response sample_ready
      (mtbbus_received false MTBBUS_CMD_MOSI_DIAG_VALUE_REQ [MTBBUS_DV_VMCU] sample_ready)
    = [[4; MTBBUS_CMD_MISO_DIAG_VALUE; MTBBUS_DV_VMCU; hi; lo]] /\
    be16 hi lo = vcc_voltage (diag sample_ready).
Proof.
  assert (10 <= length (mtbbus_output_buf (mtbbus sample_ready)))%nat as Hbuf
    by (vm_compute; lia).
  assert (0 <= config_bootloader_version (config sample_ready) < 65536) as Hv
    by (vm_compute; split; [discriminate | reflexivity]).
  assert (0 <= vcc_voltage (diag sample_ready) < 65536) as Hc
    by (vm_compute; split; [discriminate | reflexivity]).
  pose proof (sixteen_bit_values_are_reported_high_byte_first [] [] sample_ready
                sample_mosi_codes_distinct sample_dv_codes_distinct
                sample_ready_initialized Hbuf Hv Hc) as H.
  destruct H as (_ & H).
  split; [exact Hv | exact H].
Defined.

End ExtrasSample.
